(** * LivePollingSystem: the polling server (server entry file) in Rocq

    A shallow embedding of the socket.io server of the repository: the
    in-memory registries [polls], [waitingStudents] and [activePollId], the
    helpers [createPoll], [canAskNewQuestion], [endQuestion],
    [getLatestActivePoll] and [findPollByStudentSocket], and one function per
    socket event handler.

    Conventions of the embedding.
    - A JS [Map] is an association list in insertion order ([JsMap]); a JS
      [Set] that is never iterated is a [gset].
    - Poll objects are shared between the [polls] map and the closures of
      the countdown timers, so they live in a store ([heap]) and are named by
      their index in it.
    - [uuidv4()] and [Date.now()] are inputs of the event that draws them.
    - [setTimeout] hands out a timer never handed out before ([next_timer]);
      the armed timers are the finite map [timers], and a timer that fires is
      the event [TimerFire].  Firing may happen at any moment while the timer
      is armed.
    - Every [emit] is recorded with its addressee (one socket or one room),
      its event name and its payload as a JS value.  Room membership
      ([join] / [leave]) is kept by socket.io and is not part of the state.
    - Strings are byte strings; [trim] strips ASCII white space.  Durations
      are integral numbers of seconds. *)

From Stdlib Require Import ZArith String Ascii.
From stdpp Require Import gmap strings list.

Local Open Scope string_scope.
Local Open Scope nat_scope.

(** ** JS values used as payloads *)

#[local] Set Warnings "-register-all".

Inductive JVal : Type :=
| JNull
| JNum (n : Z)
| JStr (s : string)
| JArr (items : list JVal)
| JObj (fields : list (string * JVal)).

(** Property read [o.k]; [None] stands for [undefined]. *)
Fixpoint fields_get (k : string) (fs : list (string * JVal)) : option JVal :=
  match fs with
  | [] => None
  | (k', v) :: fs' => if String.eqb k k' then Some v else fields_get k fs'
  end.

Definition jget (k : string) (v : JVal) : option JVal :=
  match v with
  | JObj fs => fields_get k fs
  | _ => None
  end.

(** Property write in an object literal: an existing key keeps its place. *)
Fixpoint fields_set (k : string) (v : JVal) (fs : list (string * JVal))
  : list (string * JVal) :=
  match fs with
  | [] => [(k, v)]
  | (k', v') :: fs' =>
      if String.eqb k k' then (k, v) :: fs' else (k', v') :: fields_set k v fs'
  end.

(** [{ ...o, k1: v1, ..., kn: vn }] *)
Definition spread_with (o : JVal) (more : list (string * JVal)) : JVal :=
  match o with
  | JObj fs => JObj (fold_left (fun acc kv => fields_set (fst kv) (snd kv) acc) more fs)
  | _ => JObj (fold_left (fun acc kv => fields_set (fst kv) (snd kv) acc) more [])
  end.

(** ** JS [Map] with string keys, in insertion order *)

Module JsMap.
Section Ops.
Context {V : Type}.

Fixpoint get (k : string) (m : list (string * V)) : option V :=
  match m with
  | [] => None
  | (k', v) :: m' => if String.eqb k k' then Some v else get k m'
  end.

Definition has (k : string) (m : list (string * V)) : bool :=
  match get k m with Some _ => true | None => false end.

Fixpoint set (k : string) (v : V) (m : list (string * V)) : list (string * V) :=
  match m with
  | [] => [(k, v)]
  | (k', v') :: m' =>
      if String.eqb k k' then (k, v) :: m' else (k', v') :: set k v m'
  end.

Fixpoint delete (k : string) (m : list (string * V)) : list (string * V) :=
  match m with
  | [] => []
  | (k', v') :: m' =>
      if String.eqb k k' then m' else (k', v') :: delete k m'
  end.

Definition size (m : list (string * V)) : nat := length m.

Definition values (m : list (string * V)) : list V := map snd m.
End Ops.
End JsMap.

(** ** Strings *)

Definition is_space (c : ascii) : bool :=
  match nat_of_ascii c with
  | 9 | 10 | 11 | 12 | 13 | 32 => true
  | _ => false
  end.

Fixpoint trim_start (s : string) : string :=
  match s with
  | String c s' => if is_space c then trim_start s' else s
  | EmptyString => EmptyString
  end.

Fixpoint trim_end (s : string) : string :=
  match s with
  | EmptyString => EmptyString
  | String c s' =>
      match trim_end s' with
      | EmptyString => if is_space c then EmptyString else String c EmptyString
      | t => String c t
      end
  end.

Definition trim (s : string) : string := trim_end (trim_start s).

(** [s.slice(0, n)] *)
Definition slice0 (n : nat) (s : string) : string := substring 0 n s.

(** [x || d] on an optional string: [undefined] and [''] are falsy. *)
Definition or_default (x : option string) (d : string) : string :=
  match x with
  | Some (String c r) => String c r
  | _ => d
  end.

(** Truthiness of a string-or-null. *)
Definition truthy (x : option string) : bool :=
  match x with
  | Some (String _ _) => true
  | _ => false
  end.

(** [String(name || '').trim().slice(0, 40)] *)
Definition normalize_name (name : option string) : string :=
  slice0 40 (trim (or_default name "")).

(** ** The data model *)

Record Student := mkStudent { st_id : string; st_name : string }.

Record Opt := mkOpt { o_id : string; o_text : string; o_count : nat }.

Inductive Status := Active | Finished.

Definition status_string (st : Status) : string :=
  match st with Active => "active" | Finished => "finished" end.

Record Question := mkQuestion {
  q_id : string;
  q_text : string;
  q_options : list Opt;
  q_askedAt : Z;
  q_durationSec : Z;
  q_totalAnswers : nat;
  q_status : Status;
  answeredBy : gset string;
  _timerRef : option nat
}.

Record Poll := mkPoll {
  p_id : string;
  teacherSocketId : option string;
  students : list (string * Student);
  currentQuestion : option Question;
  pastQuestions : list JVal
}.

Record State := mkState {
  heap : list Poll;
  polls : list (string * nat);
  waitingStudents : list (string * string);
  activePollId : option string;
  sockets : gset string;
  timers : gmap nat nat;
  next_timer : nat
}.

Definition initial : State :=
  {| heap := []; polls := []; waitingStudents := []; activePollId := None;
     sockets := ∅; timers := ∅; next_timer := 0 |}.

(** ** Outgoing messages *)

Inductive Target :=
| ToSocket (sid : string)
| ToRoom (room : string).

Record Emit := mkEmit {
  target : Target;
  event : string;
  payload : option JVal
}.

Definition emit_to (sid : string) (ev : string) (v : JVal) : Emit :=
  mkEmit (ToSocket sid) ev (Some v).

Definition emit_room (room : string) (ev : string) (v : JVal) : Emit :=
  mkEmit (ToRoom room) ev (Some v).

(** ** Field updates *)

Definition set_teacherSocketId (t : option string) (p : Poll) : Poll :=
  mkPoll (p_id p) t (students p) (currentQuestion p) (pastQuestions p).

Definition set_students (m : list (string * Student)) (p : Poll) : Poll :=
  mkPoll (p_id p) (teacherSocketId p) m (currentQuestion p) (pastQuestions p).

Definition set_currentQuestion (q : option Question) (p : Poll) : Poll :=
  mkPoll (p_id p) (teacherSocketId p) (students p) q (pastQuestions p).

Definition set_pastQuestions (h : list JVal) (p : Poll) : Poll :=
  mkPoll (p_id p) (teacherSocketId p) (students p) (currentQuestion p) h.

Definition set_status (st : Status) (q : Question) : Question :=
  mkQuestion (q_id q) (q_text q) (q_options q) (q_askedAt q) (q_durationSec q)
    (q_totalAnswers q) st (answeredBy q) (_timerRef q).

Definition set_timerRef (t : option nat) (q : Question) : Question :=
  mkQuestion (q_id q) (q_text q) (q_options q) (q_askedAt q) (q_durationSec q)
    (q_totalAnswers q) (q_status q) (answeredBy q) t.

Definition set_heap (h : list Poll) (s : State) : State :=
  mkState h (polls s) (waitingStudents s) (activePollId s) (sockets s)
    (timers s) (next_timer s).

Definition set_polls (m : list (string * nat)) (s : State) : State :=
  mkState (heap s) m (waitingStudents s) (activePollId s) (sockets s)
    (timers s) (next_timer s).

Definition set_waitingStudents (w : list (string * string)) (s : State) : State :=
  mkState (heap s) (polls s) w (activePollId s) (sockets s)
    (timers s) (next_timer s).

Definition set_activePollId (a : option string) (s : State) : State :=
  mkState (heap s) (polls s) (waitingStudents s) a (sockets s)
    (timers s) (next_timer s).

Definition set_sockets (c : gset string) (s : State) : State :=
  mkState (heap s) (polls s) (waitingStudents s) (activePollId s) c
    (timers s) (next_timer s).

Definition set_timers (t : gmap nat nat) (s : State) : State :=
  mkState (heap s) (polls s) (waitingStudents s) (activePollId s) (sockets s)
    t (next_timer s).

Definition set_next_timer (n : nat) (s : State) : State :=
  mkState (heap s) (polls s) (waitingStudents s) (activePollId s) (sockets s)
    (timers s) n.

(** Write back a poll object after mutating it. *)
Definition store (r : nat) (p : Poll) (s : State) : State :=
  set_heap (<[r := p]> (heap s)) s.

(** [polls.get(pollId)]: the object and its place in the store. *)
Definition polls_get (pollId : string) (s : State) : option (nat * Poll) :=
  r ← JsMap.get pollId (polls s);
  p ← heap s !! r;
  Some (r, p).

(** [x && polls.get(x)] for an optional or nullable key [x]. *)
Definition polls_get_truthy (x : option string) (s : State) : option (nat * Poll) :=
  match x with
  | Some (String c k) => polls_get (String c k) s
  | _ => None
  end.

(** [polls.get(pollId)] where [pollId] may be [undefined]. *)
Definition polls_get_opt (x : option string) (s : State) : option (nat * Poll) :=
  id ← x; polls_get id s.

(** ** Helpers of the server *)

Definition new_poll (id : string) : Poll :=
  {| p_id := id; teacherSocketId := None; students := [];
     currentQuestion := None; pastQuestions := [] |}.

Definition createPoll (uuid : string) (s : State) : State * nat :=
  let id := slice0 6 uuid in
  let r := length (heap s) in
  (set_polls (JsMap.set id r (polls s)) (set_heap (heap s ++ [new_poll id]) s), r).

Definition is_active (q : Question) : bool :=
  match q_status q with Active => true | Finished => false end.

Definition canAskNewQuestion (poll : Poll) : bool :=
  match currentQuestion poll with
  | None => true
  | Some q =>
      let everyoneAnswered :=
        (JsMap.size (students poll) <=? q_totalAnswers q)
        && (0 <? JsMap.size (students poll)) in
      let finished := negb (is_active q) in
      everyoneAnswered || finished
  end.

Definition jnat (n : nat) : JVal := JNum (Z.of_nat n).

(** [({ id, text, count }) => ({ id, text, count })] *)
Definition opt_counted (o : Opt) : JVal :=
  JObj [("id", JStr (o_id o)); ("text", JStr (o_text o)); ("count", jnat (o_count o))].

(** [({ id, text }) => ({ id, text })] *)
Definition opt_plain (o : Opt) : JVal :=
  JObj [("id", JStr (o_id o)); ("text", JStr (o_text o))].

Definition clearTimeout (t : option nat) (ts : gmap nat nat) : gmap nat nat :=
  match t with
  | Some t => delete t ts
  | None => ts
  end.

(** The [result] object built by [endQuestion]. *)
Definition result_of (q : Question) : JVal :=
  JObj [("questionId", JStr (q_id q));
        ("text", JStr (q_text q));
        ("options", JArr (map opt_counted (q_options q)));
        ("totalAnswers", jnat (q_totalAnswers q));
        ("durationSec", JNum (q_durationSec q))].

Definition endQuestion (r : nat) (reason : string) (now : Z) (s : State)
  : State * list Emit :=
  match heap s !! r with
  | None => (s, [])
  | Some poll =>
      match currentQuestion poll with
      | None => (s, [])
      | Some q =>
          let q1 := set_status Finished q in
          let ts := clearTimeout (_timerRef q1) (timers s) in
          let result := result_of q1 in
          let entry :=
            spread_with result [("finishedAt", JNum now); ("reason", JStr reason)] in
          let poll1 := set_pastQuestions (entry :: pastQuestions poll) poll in
          let poll2 := set_currentQuestion None poll1 in
          (set_timers ts (store r poll2 s),
           [emit_room (p_id poll) "questionFinished" result])
      end
  end.

Definition getLatestActivePoll (s : State) : option (nat * Poll) :=
  fold_left
    (fun latest r =>
       match heap s !! r with
       | Some p => if truthy (teacherSocketId p) then Some (r, p) else latest
       | None => latest
       end)
    (JsMap.values (polls s)) None.

Definition findPollByStudentSocket (socketId : string) (s : State)
  : option (nat * Poll) :=
  head (omap
          (fun r =>
             p ← heap s !! r;
             if JsMap.has socketId (students p) then Some (r, p) else None)
          (JsMap.values (polls s))).

(** ** Payloads shared by the handlers *)

Definition student_json (st : Student) : JVal :=
  JObj [("id", JStr (st_id st)); ("name", JStr (st_name st))].

(** [Array.from(poll.students.values())] *)
Definition roster_json (poll : Poll) : JVal :=
  JArr (map student_json (JsMap.values (students poll))).

(** The [currentQuestion] member of the two [ready] payloads. *)
Definition question_snapshot (cq : option Question) : JVal :=
  match cq with
  | None => JNull
  | Some q =>
      JObj [("id", JStr (q_id q));
            ("text", JStr (q_text q));
            ("options", JArr (map opt_counted (q_options q)));
            ("askedAt", JNum (q_askedAt q));
            ("durationSec", JNum (q_durationSec q));
            ("totalAnswers", jnat (q_totalAnswers q));
            ("status", JStr (status_string (q_status q)))]
  end.

Definition teacher_ready (poll : Poll) : JVal :=
  JObj [("pollId", JStr (p_id poll));
        ("students", roster_json poll);
        ("currentQuestion", question_snapshot (currentQuestion poll));
        ("pastQuestions", JArr (pastQuestions poll))].

Definition student_ready (poll : Poll) : JVal :=
  JObj [("currentQuestion", question_snapshot (currentQuestion poll));
        ("pastQuestions", JArr (pastQuestions poll))].

Definition is_teacher (sid : string) (poll : Poll) : bool :=
  match teacherSocketId poll with
  | Some t => String.eqb t sid
  | None => false
  end.

(** ** The socket event handlers *)

Definition error_message (sid : string) (text : string) : Emit :=
  emit_to sid "errorMessage" (JStr text).

(** The loop of [teacher:init] over [waitingStudents.entries()]. *)
Fixpoint attach_waiting (r : nat) (ws : list (string * string)) (s : State)
  : State * list Emit :=
  match ws with
  | [] => (s, [])
  | (sid, name) :: ws' =>
      if bool_decide (sid ∈ sockets s) then
        match heap s !! r with
        | None => (s, [])
        | Some poll =>
            let student := mkStudent sid (normalize_name (Some name)) in
            let poll1 := set_students (JsMap.set sid student (students poll)) poll in
            let s1 := store r poll1 s in
            let s2 := set_waitingStudents (JsMap.delete sid (waitingStudents s1)) s1 in
            let '(s3, out) := attach_waiting r ws' s2 in
            (s3,
             emit_room (p_id poll1) "roster:update" (roster_json poll1)
               :: emit_to sid "student:ready" (student_ready poll1)
               :: out)
        end
      else
        attach_waiting r ws'
          (set_waitingStudents (JsMap.delete sid (waitingStudents s)) s)
  end.

Definition teacher_init (sid : string) (pollId : option string) (uuid : string)
    (s : State) : State * list Emit :=
  let '(s1, r, poll) :=
    match polls_get_truthy pollId s with
    | Some (r, p) => (s, r, p)
    | None => let '(s', r) := createPoll uuid s in (s', r, new_poll (slice0 6 uuid))
    end in
  let poll1 := set_teacherSocketId (Some sid) poll in
  let s2 := set_activePollId (Some (p_id poll1)) (store r poll1 s1) in
  let ready := emit_to sid "teacher:ready" (teacher_ready poll1) in
  let '(s3, out) := attach_waiting r (waitingStudents s2) s2 in
  (s3, ready :: out).

Definition resolve_student_poll (pollId : option string) (s : State)
  : option (nat * Poll) :=
  match polls_get_truthy pollId s with
  | Some rp => Some rp
  | None =>
      match polls_get_truthy (activePollId s) s with
      | Some rp => Some rp
      | None => getLatestActivePoll s
      end
  end.

Definition student_init (sid : string) (pollId name : option string) (s : State)
  : State * list Emit :=
  let studentName := normalize_name name in
  match resolve_student_poll pollId s with
  | None =>
      (set_waitingStudents (JsMap.set sid studentName (waitingStudents s)) s,
       [mkEmit (ToSocket sid) "student:waiting" None])
  | Some (r, poll) =>
      let student := mkStudent sid studentName in
      let poll1 := set_students (JsMap.set sid student (students poll)) poll in
      (store r poll1 s,
       [emit_room (p_id poll1) "roster:update" (roster_json poll1);
        emit_to sid "student:ready" (student_ready poll1)])
  end.

(** [Number(durationSec) > 0 ? Math.min(Number(durationSec), 300) : 60] *)
Definition clamp_duration (durationSec : option Z) : Z :=
  match durationSec with
  | Some d => if (0 <? d)%Z then Z.min d 300 else 60%Z
  | None => 60%Z
  end.

(** [options && options.length ? options : ['A', 'B', 'C', 'D']] *)
Definition options_or_default (options : option (list string)) : list string :=
  match options with
  | Some (t :: ts) => t :: ts
  | _ => ["A"; "B"; "C"; "D"]
  end.

Definition question_asked (q : Question) : JVal :=
  JObj [("id", JStr (q_id q));
        ("text", JStr (q_text q));
        ("options", JArr (map opt_plain (q_options q)));
        ("askedAt", JNum (q_askedAt q));
        ("durationSec", JNum (q_durationSec q))].

(** The [question] object literal of [teacher:askQuestion]. *)
Definition new_question (text : option string) (options : option (list string))
    (durationSec : option Z) (questionId : string) (optionIds : nat -> string)
    (now : Z) : Question :=
  let normalizedOptions :=
    imap (fun i t => mkOpt (optionIds i) (slice0 80 t) 0)
         (options_or_default options) in
  let duration := clamp_duration durationSec in
  {| q_id := questionId;
     q_text := slice0 140 (or_default text "Question");
     q_options := normalizedOptions;
     q_askedAt := now;
     q_durationSec := duration;
     q_totalAnswers := 0;
     q_status := Active;
     answeredBy := ∅;
     _timerRef := None |}.

Definition teacher_askQuestion (sid : string) (pollId text : option string)
    (options : option (list string)) (durationSec : option Z)
    (questionId : string) (optionIds : nat -> string) (now : Z) (s : State)
  : State * list Emit :=
  match polls_get_opt pollId s with
  | None => (s, [error_message sid "Poll not found"])
  | Some (r, poll) =>
      if negb (is_teacher sid poll) then (s, [error_message sid "Not authorized"])
      else if negb (canAskNewQuestion poll) then
        (s, [error_message sid "Wait until previous question finishes"])
      else
        let question :=
          new_question text options durationSec questionId optionIds now in
        let poll1 := set_currentQuestion (Some question) poll in
        let s1 := store r poll1 s in
        (* question._timerRef = setTimeout(...) *)
        let t := next_timer s1 in
        let question1 := set_timerRef (Some t) question in
        let poll2 := set_currentQuestion (Some question1) poll1 in
        let s2 :=
          set_next_timer (S t) (set_timers (<[t := r]> (timers s1)) (store r poll2 s1)) in
        (s2, [emit_room (p_id poll2) "questionAsked" (question_asked question1)])
  end.

(** [q.options.find((o) => o.id === optionId)] *)
Definition find_option (optionId : string) (os : list Opt) : option Opt :=
  List.find (fun o => String.eqb (o_id o) optionId) os.

(** [option.count += 1] on the object that [find] returned. *)
Fixpoint bump_option (optionId : string) (os : list Opt) : list Opt :=
  match os with
  | [] => []
  | o :: os' =>
      if String.eqb (o_id o) optionId
      then mkOpt (o_id o) (o_text o) (o_count o + 1) :: os'
      else o :: bump_option optionId os'
  end.

Definition record_answer (sid optionId : string) (q : Question) : Question :=
  mkQuestion (q_id q) (q_text q) (bump_option optionId (q_options q))
    (q_askedAt q) (q_durationSec q) (q_totalAnswers q + 1) (q_status q)
    (answeredBy q ∪ {[sid]}) (_timerRef q).

Definition results_update (q : Question) (poll : Poll) : JVal :=
  JObj [("questionId", JStr (q_id q));
        ("options", JArr (map opt_counted (q_options q)));
        ("totalAnswers", jnat (q_totalAnswers q));
        ("studentsTotal", jnat (JsMap.size (students poll)))].

(** [pollId ? polls.get(pollId) : findPollByStudentSocket(socket.id)] *)
Definition resolve_sender_poll (sid : string) (pollId : option string) (s : State)
  : option (nat * Poll) :=
  match pollId with
  | Some (String c k) => polls_get (String c k) s
  | _ => findPollByStudentSocket sid s
  end.

Definition student_submit (sid : string) (pollId : option string)
    (questionId optionId : string) (now : Z) (s : State) : State * list Emit :=
  match resolve_sender_poll sid pollId s with
  | None => (s, [])
  | Some (r, poll) =>
      match currentQuestion poll with
      | None => (s, [])
      | Some q =>
          if negb (String.eqb (q_id q) questionId) || negb (is_active q) then (s, [])
          else if bool_decide (sid ∈ answeredBy q) then (s, [])
          else
            match find_option optionId (q_options q) with
            | None => (s, [])
            | Some _ =>
                let q1 := record_answer sid optionId q in
                let poll1 := set_currentQuestion (Some q1) poll in
                let s1 := store r poll1 s in
                let update :=
                  emit_room (p_id poll1) "results:update" (results_update q1 poll1) in
                if (JsMap.size (students poll1) <=? q_totalAnswers q1)
                   && (0 <? JsMap.size (students poll1))
                then
                  let '(s2, out) := endQuestion r "all_answered" now s1 in
                  (s2, update :: out)
                else (s1, [update])
            end
      end
  end.

Definition teacher_endQuestion (sid : string) (pollId : option string) (now : Z)
    (s : State) : State * list Emit :=
  match polls_get_opt pollId s with
  | None => (s, [])
  | Some (r, poll) =>
      if negb (is_teacher sid poll) then (s, [])
      else endQuestion r "teacher_end" now s
  end.

Definition teacher_removeStudent (sid : string) (pollId : option string)
    (studentId : string) (s : State) : State * list Emit :=
  match polls_get_opt pollId s with
  | None => (s, [])
  | Some (r, poll) =>
      if negb (is_teacher sid poll) then (s, [])
      else if JsMap.has studentId (students poll) then
        let kicked :=
          if bool_decide (studentId ∈ sockets s)
          then [mkEmit (ToSocket studentId) "student:kicked" None]
          else [] in
        let poll1 := set_students (JsMap.delete studentId (students poll)) poll in
        (store r poll1 s,
         (kicked ++ [emit_room (p_id poll1) "roster:update" (roster_json poll1)])%list)
      else (s, [])
  end.

Definition chat_send (sid : string) (pollId from message role : option string)
    (uuid : string) (now : Z) (s : State) : State * list Emit :=
  match resolve_sender_poll sid pollId s with
  | None => (s, [])
  | Some (_, poll) =>
      let chat :=
        JObj [("id", JStr uuid);
              ("at", JNum now);
              ("from", JStr (slice0 40 (or_default from "")));
              ("role", JStr (match role with
                             | Some "teacher" => "teacher"
                             | _ => "student"
                             end));
              ("message", JStr (slice0 280 (or_default message "")))] in
      (s, [emit_room (p_id poll) "chat:message" chat])
  end.

(** The loop of [disconnect] over [polls.values()]. *)
Fixpoint detach_from (sid : string) (rs : list nat) (s : State)
  : State * list Emit :=
  match rs with
  | [] => (s, [])
  | r :: rs' =>
      match heap s !! r with
      | None => detach_from sid rs' s
      | Some poll =>
          let '(poll1, out1) :=
            if JsMap.has sid (students poll) then
              let p := set_students (JsMap.delete sid (students poll)) poll in
              (p, [emit_room (p_id p) "roster:update" (roster_json p)])
            else (poll, []) in
          let '(poll2, active) :=
            if is_teacher sid poll1 then
              (set_teacherSocketId None poll1,
               match activePollId s with
               | Some a => if String.eqb a (p_id poll1) then None else Some a
               | None => None
               end)
            else (poll1, activePollId s) in
          let '(s1, out) :=
            detach_from sid rs' (set_activePollId active (store r poll2 s)) in
          (s1, (out1 ++ out)%list)
      end
  end.

Definition disconnect (sid : string) (s : State) : State * list Emit :=
  let '(s1, out) := detach_from sid (JsMap.values (polls s)) s in
  (set_waitingStudents (JsMap.delete sid (waitingStudents s1)) s1, out).

(** ** Events and the server loop *)

Inductive Event :=
| Connect (sid : string)
| Disconnect (sid : string)
| CreatePollRequest (uuid : string)
| TeacherInit (sid : string) (pollId : option string) (uuid : string)
| StudentInit (sid : string) (pollId name : option string)
| AskQuestion (sid : string) (pollId text : option string)
    (options : option (list string)) (durationSec : option Z)
    (questionId : string) (optionIds : nat -> string) (now : Z)
| Submit (sid : string) (pollId : option string) (questionId optionId : string)
    (now : Z)
| EndQuestion (sid : string) (pollId : option string) (now : Z)
| RemoveStudent (sid : string) (pollId : option string) (studentId : string)
| ChatSend (sid : string) (pollId from message role : option string)
    (uuid : string) (now : Z)
| TimerFire (t : nat) (now : Z).

(** The callback armed by [setTimeout] in [teacher:askQuestion]:
    [() => endQuestion(io, poll, 'timeout')].  It runs only if the timer is
    still armed, and a timer that fired is no longer armed. *)
Definition timer_fire (t : nat) (now : Z) (s : State) : State * list Emit :=
  match timers s !! t with
  | None => (s, [])
  | Some r => endQuestion r "timeout" now (set_timers (delete t (timers s)) s)
  end.

Definition step (s : State) (e : Event) : State * list Emit :=
  match e with
  | Connect sid => (set_sockets (sockets s ∪ {[sid]}) s, [])
  | Disconnect sid => disconnect sid (set_sockets (sockets s ∖ {[sid]}) s)
  | CreatePollRequest uuid => (fst (createPoll uuid s), [])
  | TeacherInit sid pollId uuid => teacher_init sid pollId uuid s
  | StudentInit sid pollId name => student_init sid pollId name s
  | AskQuestion sid pollId text options durationSec questionId optionIds now =>
      teacher_askQuestion sid pollId text options durationSec questionId optionIds now s
  | Submit sid pollId questionId optionId now =>
      student_submit sid pollId questionId optionId now s
  | EndQuestion sid pollId now => teacher_endQuestion sid pollId now s
  | RemoveStudent sid pollId studentId => teacher_removeStudent sid pollId studentId s
  | ChatSend sid pollId from message role uuid now =>
      chat_send sid pollId from message role uuid now s
  | TimerFire t now => timer_fire t now s
  end.

(** Events are handled one at a time, each to completion. *)
Fixpoint run (evs : list Event) (s : State) : State * list Emit :=
  match evs with
  | [] => (s, [])
  | e :: evs' =>
      let '(s1, out1) := step s e in
      let '(s2, out2) := run evs' s1 in
      (s2, (out1 ++ out2)%list)
  end.

Definition run_state (evs : list Event) (s : State) : State := fst (run evs s).

(** Sum of the per-option counts of a question. *)
Definition total_count (os : list Opt) : nat :=
  foldr (fun o n => o_count o + n) 0 os.

(** ** A classroom scenario

    Teacher [T] opens poll [abc123]; Ann ([A]) and Bo ([B]) join; the teacher
    asks a first question; Ann answers [4]. *)

Definition option_ids (q : string) (i : nat) : string :=
  q ++ "-o" ++ String (ascii_of_nat (48 + i)) "".

Definition ask_first : Event :=
  AskQuestion "T" (Some "abc123") (Some "2+2?") (Some ["3"; "4"]) (Some 10%Z)
    "q1" (option_ids "q1") 1000.

Definition ask_second : Event :=
  AskQuestion "T" (Some "abc123") (Some "3+3?") (Some ["5"; "6"]) (Some 20%Z)
    "q2" (option_ids "q2") 3000.

Definition lesson_start : list Event :=
  [ Connect "T"; TeacherInit "T" None "abc123-0000";
    Connect "A"; StudentInit "A" None (Some "  Ann ");
    Connect "B"; StudentInit "B" None (Some "Bo") ].

Definition ann_answered : list Event :=
  (lesson_start ++ [ask_first; Submit "A" None "q1" "q1-o1" 2000])%list.

(** Bo leaves before answering: one answer, a roster of one. *)
Definition bo_left : list Event := (ann_answered ++ [Disconnect "B"])%list.

(** The teacher removes Bo before he answers. *)
Definition bo_kicked : list Event :=
  (lesson_start ++ [ask_first; RemoveStudent "T" (Some "abc123") "B"])%list.

(** ** Predicates used in the properties *)

(** A property of poll objects, which may mention the number of timers
    handed out so far, holds of every poll object of the state. *)
Definition heap_inv (P : nat -> Poll -> Prop) (s : State) : Prop :=
  Forall (P (next_timer s)) (heap s).

(** A current question, when there is one, is active. *)
Definition current_is_active (p : Poll) : Prop :=
  forall q, currentQuestion p = Some q -> q_status q = Active.

(** The answer counters of the current question agree. *)
Definition answers_consistent (p : Poll) : Prop :=
  forall q,
    currentQuestion p = Some q ->
    q_totalAnswers q = size (answeredBy q)
    /\ total_count (q_options q) = q_totalAnswers q.

(** The guards of [student:submit], in the handler's order. *)
Definition submit_permitted (sid : string) (pollId : option string)
    (questionId optionId : string) (s : State) : bool :=
  match resolve_sender_poll sid pollId s with
  | None => false
  | Some (_, poll) =>
      match currentQuestion poll with
      | None => false
      | Some q =>
          String.eqb (q_id q) questionId
          && is_active q
          && negb (bool_decide (sid ∈ answeredBy q))
          && match find_option optionId (q_options q) with
             | Some _ => true
             | None => false
             end
      end
  end.

(** The second state has the questions, the histories and the timers of the
    first. *)
Definition questions_kept (s s' : State) : Prop :=
  timers s' = timers s
  /\ next_timer s' = next_timer s
  /\ forall r p,
      heap s !! r = Some p ->
      exists p',
        heap s' !! r = Some p'
        /\ currentQuestion p' = currentQuestion p
        /\ pastQuestions p' = pastQuestions p
        /\ p_id p' = p_id p.

(** No connection is twice in the roster. *)
Definition keys_unique (p : Poll) : Prop := NoDup (map fst (students p)).

(** The two events that take a connection out of a roster. *)
Definition removes_from_roster (e : Event) : Prop :=
  match e with
  | RemoveStudent _ _ _ | Disconnect _ => True
  | _ => False
  end.

(** The timer of a current question was handed out by [setTimeout]. *)
Definition timer_refs_allocated (n : nat) (p : Poll) : Prop :=
  forall q t, currentQuestion p = Some q -> _timerRef q = Some t -> t < n.

(** Events whose handlers never touch a question or a timer. *)
Definition keeps_questions (e : Event) : Prop :=
  match e with
  | AskQuestion _ _ _ _ _ _ _ _ | Submit _ _ _ _ _ | EndQuestion _ _ _
  | TimerFire _ _ => False
  | _ => True
  end.

(** A timer that is not armed and was handed out before. *)
Definition disarmed (t : nat) (s : State) : Prop :=
  timers s !! t = None /\ t < next_timer s.

(** ** Predicates used in the further properties *)

(** Every entry of [polls] names a poll object of the store, and no two
    entries name the same object. *)
Definition polls_wf (s : State) : Prop :=
  NoDup (JsMap.values (polls s))
  /\ Forall (fun r => r < length (heap s)) (JsMap.values (polls s)).

(** The second state has the [polls] map and as many poll objects as the
    first. *)
Definition registry_kept (s s' : State) : Prop :=
  polls s' = polls s /\ length (heap s') = length (heap s).

(** The second state has one poll object more than the first, registered
    under [id]. *)
Definition registry_grown (id : string) (s s' : State) : Prop :=
  polls s' = JsMap.set id (length (heap s)) (polls s)
  /\ length (heap s') = S (length (heap s)).



(** Every current question has a timer, armed for its own poll. *)
Definition timers_armed (s : State) : Prop :=
  forall r p q,
    heap s !! r = Some p ->
    currentQuestion p = Some q ->
    exists t, _timerRef q = Some t /\ timers s !! t = Some r.

(** Every armed timer was handed out by [setTimeout]. *)
Definition timers_below (s : State) : Prop :=
  forall t r, timers s !! t = Some r -> t < next_timer s.

(** As [timers_armed], for the polls other than [r0], whose timers differ
    from the one of the current question of [r0]. *)
Definition timers_armed_but (r0 : nat) (s : State) : Prop :=
  (forall r p q,
      r <> r0 ->
      heap s !! r = Some p ->
      currentQuestion p = Some q ->
      exists t, _timerRef q = Some t /\ timers s !! t = Some r)
  /\ (forall p0 q0 r p q,
         heap s !! r0 = Some p0 ->
         currentQuestion p0 = Some q0 ->
         r <> r0 ->
         heap s !! r = Some p ->
         currentQuestion p = Some q ->
         _timerRef q <> _timerRef q0).


(** The poll object an event is addressed to: the one its poll id names, the
    one found through the sender's roster entry, the one a timer was armed
    for, or the one about to be created. *)
Definition target_poll (s : State) (e : Event) : option nat :=
  match e with
  | Connect _ | Disconnect _ => None
  | CreatePollRequest _ => Some (length (heap s))
  | TeacherInit _ pollId _ =>
      match polls_get_truthy pollId s with
      | Some (r, _) => Some r
      | None => Some (length (heap s))
      end
  | StudentInit _ pollId _ => fst <$> resolve_student_poll pollId s
  | AskQuestion _ pollId _ _ _ _ _ _ | EndQuestion _ pollId _
  | RemoveStudent _ pollId _ => fst <$> polls_get_opt pollId s
  | Submit sid pollId _ _ _ | ChatSend sid pollId _ _ _ _ _ =>
      fst <$> resolve_sender_poll sid pollId s
  | TimerFire t _ => timers s !! t
  end.

(** The submits of the connections [subs], each with its option, for
    question [questionId] of poll [pollId]. *)
Definition submits (pollId questionId : string) (now : Z)
    (subs : list (string * string)) : list Event :=
  map (fun so => Submit (fst so) (Some pollId) questionId (snd so) now) subs.

(** * Properties *)

(** ** The embedding on the scenario *)

Example normalize_name_ann : normalize_name (Some "  Ann ") = "Ann".
Proof. reflexivity. Qed.

Example normalize_name_absent : normalize_name None = "".
Proof. reflexivity. Qed.

Example clamp_duration_examples :
  clamp_duration (Some 1000%Z) = 300%Z
  /\ clamp_duration (Some 0%Z) = 60%Z
  /\ clamp_duration (Some 10%Z) = 10%Z
  /\ clamp_duration None = 60%Z.
Proof. repeat split. Qed.

(** Both students receive the same question; Ann's answer shows up in a
    [results:update]; Bo's answer finishes the question with reason
    [all_answered] and the final counts 0 and 2. *)
Example lesson_messages :
  map (fun e => (target e, event e)) (snd (run ann_answered initial))
  = [(ToSocket "T", "teacher:ready");
     (ToRoom "abc123", "roster:update"); (ToSocket "A", "student:ready");
     (ToRoom "abc123", "roster:update"); (ToSocket "B", "student:ready");
     (ToRoom "abc123", "questionAsked");
     (ToRoom "abc123", "results:update")]
  /\ snd (step (run_state ann_answered initial) (Submit "B" None "q1" "q1-o1" 2500))
     = [emit_room "abc123" "results:update"
          (JObj [("questionId", JStr "q1");
                 ("options",
                  JArr [JObj [("id", JStr "q1-o0"); ("text", JStr "3");
                              ("count", JNum 0)];
                        JObj [("id", JStr "q1-o1"); ("text", JStr "4");
                              ("count", JNum 2)]]);
                 ("totalAnswers", JNum 2); ("studentsTotal", JNum 2)]);
        emit_room "abc123" "questionFinished"
          (JObj [("questionId", JStr "q1"); ("text", JStr "2+2?");
                 ("options",
                  JArr [JObj [("id", JStr "q1-o0"); ("text", JStr "3");
                              ("count", JNum 0)];
                        JObj [("id", JStr "q1-o1"); ("text", JStr "4");
                              ("count", JNum 2)]]);
                 ("totalAnswers", JNum 2); ("durationSec", JNum 10)])]
  /\ map pastQuestions
       (heap (fst (step (run_state ann_answered initial)
                     (Submit "B" None "q1" "q1-o1" 2500))))
     = [[JObj [("questionId", JStr "q1"); ("text", JStr "2+2?");
               ("options",
                JArr [JObj [("id", JStr "q1-o0"); ("text", JStr "3");
                            ("count", JNum 0)];
                      JObj [("id", JStr "q1-o1"); ("text", JStr "4");
                            ("count", JNum 2)]]);
               ("totalAnswers", JNum 2); ("durationSec", JNum 10);
               ("finishedAt", JNum 2500); ("reason", JStr "all_answered")]]].
Proof. vm_compute. repeat split. Qed.

(** ** Looking up poll objects *)

Lemma polls_get_lookup id s r p :
  polls_get id s = Some (r, p) -> heap s !! r = Some p.
Proof.
  unfold polls_get. intros H.
  destruct (JsMap.get id (polls s)) as [r'|]; simpl in H; [|discriminate].
  destruct (heap s !! r') as [p'|] eqn:E; simpl in H; [|discriminate].
  by inversion H; subst.
Qed.

Lemma polls_get_opt_lookup x s r p :
  polls_get_opt x s = Some (r, p) -> heap s !! r = Some p.
Proof.
  destruct x as [id|]; simpl; [apply polls_get_lookup | discriminate].
Qed.

Lemma polls_get_truthy_lookup x s r p :
  polls_get_truthy x s = Some (r, p) -> heap s !! r = Some p.
Proof.
  destruct x as [[|c k]|]; simpl; try discriminate. apply polls_get_lookup.
Qed.

Lemma findPollByStudentSocket_lookup sid s r p :
  findPollByStudentSocket sid s = Some (r, p) -> heap s !! r = Some p.
Proof.
  unfold findPollByStudentSocket.
  induction (JsMap.values (polls s)) as [|r' rs IH]; simpl; [discriminate|].
  destruct (heap s !! r') as [p'|] eqn:E; simpl; [|exact IH].
  destruct (JsMap.has sid (students p')); simpl; [|exact IH].
  intros H. by inversion H; subst.
Qed.

Lemma resolve_sender_poll_lookup sid x s r p :
  resolve_sender_poll sid x s = Some (r, p) -> heap s !! r = Some p.
Proof.
  destruct x as [[|c k]|]; simpl;
    eauto using polls_get_lookup, findPollByStudentSocket_lookup.
Qed.

Lemma getLatestActivePoll_lookup s r p :
  getLatestActivePoll s = Some (r, p) -> heap s !! r = Some p.
Proof.
  unfold getLatestActivePoll.
  assert (G : forall rs acc,
             (forall r p, acc = Some (r, p) -> heap s !! r = Some p) ->
             forall r p,
               fold_left
                 (fun latest r0 =>
                    match heap s !! r0 with
                    | Some p0 =>
                        if truthy (teacherSocketId p0) then Some (r0, p0) else latest
                    | None => latest
                    end) rs acc = Some (r, p) ->
               heap s !! r = Some p).
  { induction rs as [|r0 rs IH]; simpl; intros acc Hacc r1 p1 H; [eauto|].
    eapply IH; [|exact H]. intros r2 p2.
    destruct (heap s !! r0) as [p0|] eqn:E; [|apply Hacc].
    destruct (truthy (teacherSocketId p0)); [|apply Hacc].
    intros H2. by inversion H2; subst. }
  apply G. discriminate.
Qed.

Lemma resolve_student_poll_lookup x s r p :
  resolve_student_poll x s = Some (r, p) -> heap s !! r = Some p.
Proof.
  unfold resolve_student_poll.
  destruct (polls_get_truthy x s) as [[r1 p1]|] eqn:E1.
  { intros H; inversion H; subst. eauto using polls_get_truthy_lookup. }
  destruct (polls_get_truthy (activePollId s) s) as [[r2 p2]|] eqn:E2.
  { intros H; inversion H; subst. eauto using polls_get_truthy_lookup. }
  apply getLatestActivePoll_lookup.
Qed.

Lemma store_lookup_eq r p p0 s :
  heap s !! r = Some p0 -> heap (store r p s) !! r = Some p.
Proof.
  intros H. simpl. apply list_lookup_insert_eq. by eapply lookup_lt_Some.
Qed.

Lemma store_lookup_ne r r' p s :
  r <> r' -> heap (store r p s) !! r' = heap s !! r'.
Proof. intros H. simpl. by apply list_lookup_insert_ne. Qed.

(** ** Asking while a question is active (C1) *)

(** C1, as stated, fails: after Ann answered and Bo left, one answer covers
    the roster of one, [canAskNewQuestion] holds although question [q1] is
    still active, and the teacher's second question replaces it. *)
Lemma askQuestion_replaces_active_question :
  exists r poll q poll' q',
    polls_get "abc123" (run_state bo_left initial) = Some (r, poll)
    /\ is_teacher "T" poll = true
    /\ currentQuestion poll = Some q
    /\ q_id q = "q1" /\ q_status q = Active
    /\ heap (fst (step (run_state bo_left initial) ask_second)) !! r = Some poll'
    /\ currentQuestion poll' = Some q'
    /\ q_id q' = "q2"
    /\ map event (snd (step (run_state bo_left initial) ask_second))
       = ["questionAsked"].
Proof.
  vm_compute. do 5 eexists. repeat split; reflexivity.
Qed.

(** C1, amended: with an active current question that fewer connections have
    answered than the roster holds (or with an empty roster), a
    [teacher:askQuestion] of the bound teacher is rejected: the state is
    unchanged and the only message is an [errorMessage] to the requester. *)
Theorem askQuestion_rejected_while_unanswered :
  forall s sid pollId text options durationSec questionId optionIds now r poll q,
    polls_get_opt pollId s = Some (r, poll) ->
    is_teacher sid poll = true ->
    currentQuestion poll = Some q ->
    q_status q = Active ->
    q_totalAnswers q < JsMap.size (students poll)
      \/ JsMap.size (students poll) = 0 ->
    teacher_askQuestion sid pollId text options durationSec questionId
      optionIds now s
    = (s, [error_message sid "Wait until previous question finishes"]).
Proof.
  intros s sid pollId text options durationSec questionId optionIds now r poll q
    Hget Hteacher Hq Hactive Hroster.
  unfold teacher_askQuestion. rewrite Hget, Hteacher. simpl.
  assert (Hcan : canAskNewQuestion poll = false).
  { unfold canAskNewQuestion, is_active. rewrite Hq, Hactive. simpl.
    rewrite orb_false_r. apply andb_false_iff.
    destruct Hroster as [Hlt | Hzero].
    - left. apply Nat.leb_gt. exact Hlt.
    - right. rewrite Hzero. reflexivity. }
  rewrite Hcan. reflexivity.
Qed.

Lemma askQuestion_rejected_while_unanswered_witness :
  teacher_askQuestion "T" (Some "abc123") (Some "3+3?") (Some ["5"; "6"])
    (Some 20%Z) "q2" (option_ids "q2") 3000 (run_state ann_answered initial)
  = (run_state ann_answered initial,
     [error_message "T" "Wait until previous question finishes"]).
Proof.
  eapply (askQuestion_rejected_while_unanswered (run_state ann_answered initial)
            "T" (Some "abc123")).
  - vm_compute. reflexivity.
  - vm_compute. reflexivity.
  - vm_compute. reflexivity.
  - vm_compute. reflexivity.
  - left. vm_compute. lia.
Defined.

(** ** Invariants of the poll objects

    A property of poll objects that every mutation performed by the handlers
    preserves holds of every poll object in every state the server reaches.
    The property may mention the number of timers handed out so far. *)

Section PollInvariant.
Variable P : nat -> Poll -> Prop.

Hypothesis P_mono : forall n p, P n p -> P (S n) p.
Hypothesis P_new : forall n id, P n (new_poll id).
Hypothesis P_teacher : forall n t p, P n p -> P n (set_teacherSocketId t p).
Hypothesis P_join :
  forall n sid st p,
    P n p -> P n (set_students (JsMap.set sid st (students p)) p).
Hypothesis P_leave :
  forall n sid p, P n p -> P n (set_students (JsMap.delete sid (students p)) p).
Hypothesis P_ask :
  forall text options durationSec questionId optionIds now n p,
    P n p ->
    P (S n)
      (set_currentQuestion
         (Some (set_timerRef (Some n)
                  (new_question text options durationSec questionId optionIds now)))
         p).
Hypothesis P_answer :
  forall n sid optionId p q,
    P n p ->
    currentQuestion p = Some q ->
    is_active q = true ->
    sid ∉ answeredBy q ->
    is_Some (find_option optionId (q_options q)) ->
    P n (set_currentQuestion (Some (record_answer sid optionId q)) p).
Hypothesis P_finish :
  forall n entry p,
    P n p ->
    P n (set_currentQuestion None
           (set_pastQuestions (entry :: pastQuestions p) p)).

Lemma heap_inv_lookup s r p :
  heap_inv P s -> heap s !! r = Some p -> P (next_timer s) p.
Proof. intros H L. exact (Forall_lookup_1 _ _ _ _ H L). Qed.

Lemma heap_inv_store s r p :
  heap_inv P s -> P (next_timer s) p -> heap_inv P (store r p s).
Proof. intros H Hp. unfold heap_inv. simpl. by apply Forall_insert. Qed.

Lemma endQuestion_heap_inv r reason now s :
  heap_inv P s -> heap_inv P (fst (endQuestion r reason now s)).
Proof.
  intros H. unfold endQuestion.
  destruct (heap s !! r) as [poll|] eqn:L; [|exact H].
  destruct (currentQuestion poll) as [q|] eqn:Q; [|exact H].
  simpl. apply Forall_insert; [exact H|].
  apply P_finish. exact (heap_inv_lookup s r _ H L).
Qed.

Lemma createPoll_heap_inv uuid s :
  heap_inv P s -> heap_inv P (fst (createPoll uuid s)).
Proof.
  intros H. unfold heap_inv. simpl. apply Forall_app. split; [exact H|].
  constructor; [apply P_new | constructor].
Qed.

Lemma attach_waiting_heap_inv r ws :
  forall s, heap_inv P s -> heap_inv P (fst (attach_waiting r ws s)).
Proof.
  induction ws as [|[sid name] ws IH]; intros s H; simpl; [exact H|].
  destruct (bool_decide (sid ∈ sockets s)).
  - destruct (heap s !! r) as [poll|] eqn:L; [|exact H].
    match goal with
    | |- context [attach_waiting r ws ?s1] =>
        specialize (IH s1); destruct (attach_waiting r ws s1) as [s3 out]
    end.
    simpl in *. apply IH. apply Forall_insert; [exact H|].
    apply P_join. exact (heap_inv_lookup s r _ H L).
  - apply IH. exact H.
Qed.

Lemma teacher_init_heap_inv sid pollId uuid s :
  heap_inv P s -> heap_inv P (fst (teacher_init sid pollId uuid s)).
Proof.
  intros H. unfold teacher_init.
  destruct (polls_get_truthy pollId s) as [[r p]|] eqn:G.
  - match goal with
    | |- context [attach_waiting ?r ?ws ?s1] =>
        pose proof (attach_waiting_heap_inv r ws s1) as A;
        destruct (attach_waiting r ws s1) as [s3 out]
    end.
    simpl in *. apply A. apply Forall_insert; [exact H|].
    apply P_teacher.
    exact (heap_inv_lookup s r _ H (polls_get_truthy_lookup _ _ _ _ G)).
  - pose proof (createPoll_heap_inv uuid s H) as C.
    destruct (createPoll uuid s) as [s' r] eqn:E.
    match goal with
    | |- context [attach_waiting ?r ?ws ?s1] =>
        pose proof (attach_waiting_heap_inv r ws s1) as A;
        destruct (attach_waiting r ws s1) as [s3 out]
    end.
    simpl in *. apply A. apply Forall_insert; [exact C|].
    apply P_teacher, P_new.
Qed.

Lemma student_init_heap_inv sid pollId name s :
  heap_inv P s -> heap_inv P (fst (student_init sid pollId name s)).
Proof.
  intros H. unfold student_init.
  destruct (resolve_student_poll pollId s) as [[r p]|] eqn:G; [|exact H].
  simpl. apply Forall_insert; [exact H|].
  apply P_join.
  exact (heap_inv_lookup s r _ H (resolve_student_poll_lookup _ _ _ _ G)).
Qed.

Lemma teacher_askQuestion_heap_inv
    sid pollId text options durationSec questionId optionIds now s :
  heap_inv P s ->
  heap_inv P (fst (teacher_askQuestion sid pollId text options durationSec
                   questionId optionIds now s)).
Proof.
  intros H. unfold teacher_askQuestion.
  destruct (polls_get_opt pollId s) as [[r p]|] eqn:G; [|exact H].
  destruct (negb (is_teacher sid p)); [exact H|].
  destruct (negb (canAskNewQuestion p)); [exact H|].
  unfold heap_inv. simpl. rewrite list_insert_insert_eq.
  apply Forall_insert.
  - eapply Forall_impl; [exact H | apply P_mono].
  - apply (P_ask text options durationSec questionId optionIds now
             (next_timer s) p).
    exact (heap_inv_lookup s r _ H (polls_get_opt_lookup _ _ _ _ G)).
Qed.

Lemma student_submit_heap_inv sid pollId questionId optionId now s :
  heap_inv P s ->
  heap_inv P (fst (student_submit sid pollId questionId optionId now s)).
Proof.
  intros H. unfold student_submit.
  destruct (resolve_sender_poll sid pollId s) as [[r p]|] eqn:G; [|exact H].
  destruct (currentQuestion p) as [q|] eqn:Q; [|exact H].
  destruct (negb (q_id q =? questionId)%string) eqn:Hid; [exact H|].
  destruct (is_active q) eqn:Hact; [|exact H]. simpl.
  destruct (bool_decide (sid ∈ answeredBy q)) eqn:Hans; [exact H|].
  apply bool_decide_eq_false in Hans.
  destruct (find_option optionId (q_options q)) as [o|] eqn:F; [|exact H].
  assert (H1 : heap_inv P
                 (store r (set_currentQuestion
                             (Some (record_answer sid optionId q)) p) s)).
  { apply heap_inv_store; [exact H|].
    apply P_answer; eauto.
    exact (heap_inv_lookup s r _ H (resolve_sender_poll_lookup _ _ _ _ _ G)). }
  match goal with |- context [if ?c then _ else _] => destruct c end.
  - pose proof (endQuestion_heap_inv r "all_answered" now _ H1) as E.
    destruct (endQuestion r "all_answered" now _) as [s2 out]. exact E.
  - exact H1.
Qed.

Lemma teacher_endQuestion_heap_inv sid pollId now s :
  heap_inv P s -> heap_inv P (fst (teacher_endQuestion sid pollId now s)).
Proof.
  intros H. unfold teacher_endQuestion.
  destruct (polls_get_opt pollId s) as [[r p]|]; [|exact H].
  destruct (negb (is_teacher sid p)); [exact H|].
  by apply endQuestion_heap_inv.
Qed.

Lemma teacher_removeStudent_heap_inv sid pollId studentId s :
  heap_inv P s -> heap_inv P (fst (teacher_removeStudent sid pollId studentId s)).
Proof.
  intros H. unfold teacher_removeStudent.
  destruct (polls_get_opt pollId s) as [[r p]|] eqn:G; [|exact H].
  destruct (negb (is_teacher sid p)); [exact H|].
  destruct (JsMap.has studentId (students p)); [|exact H].
  simpl. apply Forall_insert; [exact H|].
  apply P_leave.
  exact (heap_inv_lookup s r _ H (polls_get_opt_lookup _ _ _ _ G)).
Qed.

Lemma chat_send_heap_inv sid pollId from message role uuid now s :
  heap_inv P s ->
  heap_inv P (fst (chat_send sid pollId from message role uuid now s)).
Proof.
  intros H. unfold chat_send.
  by destruct (resolve_sender_poll sid pollId s) as [[r p]|].
Qed.

Lemma detach_from_heap_inv sid rs :
  forall s, heap_inv P s -> heap_inv P (fst (detach_from sid rs s)).
Proof.
  induction rs as [|r rs IH]; intros s H; simpl; [exact H|].
  destruct (heap s !! r) as [poll|] eqn:L; [|by apply IH].
  pose proof (heap_inv_lookup _ _ _ H L) as Hp.
  destruct (JsMap.has sid (students poll)); simpl.
  - match goal with |- context [if ?c then _ else _] => destruct c end;
      match goal with
      | |- context [detach_from sid rs ?s1] =>
          specialize (IH s1); destruct (detach_from sid rs s1) as [s2 out]
      end;
      simpl in *; apply IH; apply Forall_insert; auto.
  - match goal with |- context [if ?c then _ else _] => destruct c end;
      match goal with
      | |- context [detach_from sid rs ?s1] =>
          specialize (IH s1); destruct (detach_from sid rs s1) as [s2 out]
      end;
      simpl in *; apply IH; apply Forall_insert; auto.
Qed.

Lemma disconnect_heap_inv sid s :
  heap_inv P s -> heap_inv P (fst (disconnect sid s)).
Proof.
  intros H. unfold disconnect.
  pose proof (detach_from_heap_inv sid (JsMap.values (polls s)) s H) as D.
  destruct (detach_from sid (JsMap.values (polls s)) s) as [s1 out]. exact D.
Qed.

Lemma timer_fire_heap_inv t now s :
  heap_inv P s -> heap_inv P (fst (timer_fire t now s)).
Proof.
  intros H. unfold timer_fire.
  destruct (timers s !! t) as [r|]; [|exact H].
  by apply endQuestion_heap_inv.
Qed.

Lemma step_heap_inv s e : heap_inv P s -> heap_inv P (fst (step s e)).
Proof.
  intros H. destruct e; simpl.
  - exact H.
  - by apply disconnect_heap_inv.
  - by apply createPoll_heap_inv.
  - by apply teacher_init_heap_inv.
  - by apply student_init_heap_inv.
  - by apply teacher_askQuestion_heap_inv.
  - by apply student_submit_heap_inv.
  - by apply teacher_endQuestion_heap_inv.
  - by apply teacher_removeStudent_heap_inv.
  - by apply chat_send_heap_inv.
  - by apply timer_fire_heap_inv.
Qed.

Lemma run_heap_inv evs :
  forall s, heap_inv P s -> heap_inv P (run_state evs s).
Proof.
  unfold run_state.
  induction evs as [|e evs IH]; intros s H; simpl; [exact H|].
  pose proof (step_heap_inv s e H) as S1.
  destruct (step s e) as [s1 out1].
  specialize (IH s1 S1). destruct (run evs s1) as [s2 out2]. exact IH.
Qed.

Lemma reachable_heap_inv evs : heap_inv P (run_state evs initial).
Proof. apply run_heap_inv. constructor. Qed.
End PollInvariant.

(** ** One current question, active while present (C3) *)

Lemma current_is_active_reachable evs :
  heap_inv (fun _ => current_is_active) (run_state evs initial).
Proof.
  apply (reachable_heap_inv (fun _ => current_is_active));
    unfold current_is_active.
  - intros _ p Hp. exact Hp.
  - intros _ id q Q. discriminate.
  - intros _ t p Hp. exact Hp.
  - intros _ sid st p Hp. exact Hp.
  - intros _ sid p Hp. exact Hp.
  - intros text options durationSec questionId optionIds now t p _ q Q.
    simpl in Q. inversion Q. reflexivity.
  - intros _ sid optionId p q0 _ _ Hactive _ _ q Q.
    simpl in Q. inversion Q. simpl.
    unfold is_active in Hactive. by destruct (q_status q0).
  - intros _ entry p _ q Q. discriminate.
Qed.

Lemma endQuestion_clears r reason now s poll :
  heap s !! r = Some poll ->
  exists poll',
    heap (fst (endQuestion r reason now s)) !! r = Some poll'
    /\ currentQuestion poll' = None.
Proof.
  intros L. unfold endQuestion. rewrite L.
  destruct (currentQuestion poll) as [q|] eqn:Q.
  - eexists. split; [eapply store_lookup_eq; eauto | reflexivity].
  - eauto.
Qed.

(** C3: in every state the server reaches, a poll's [currentQuestion], when
    present, has status [active]; [endQuestion], whatever the reason, leaves
    the poll without current question; and a [teacher:askQuestion] that is
    let through installs a current question with status [active]. *)
Theorem currentQuestion_present_iff_active :
  (forall evs r poll q,
      heap (run_state evs initial) !! r = Some poll ->
      currentQuestion poll = Some q ->
      q_status q = Active)
  /\ (forall s r reason now poll,
         heap s !! r = Some poll ->
         exists poll',
           heap (fst (endQuestion r reason now s)) !! r = Some poll'
           /\ currentQuestion poll' = None)
  /\ (forall s sid pollId text options durationSec questionId optionIds now r poll,
         polls_get_opt pollId s = Some (r, poll) ->
         is_teacher sid poll = true ->
         canAskNewQuestion poll = true ->
         exists poll' q,
           heap (fst (teacher_askQuestion sid pollId text options durationSec
                        questionId optionIds now s)) !! r = Some poll'
           /\ currentQuestion poll' = Some q
           /\ q_id q = questionId
           /\ q_status q = Active).
Proof.
  split; [|split].
  - intros evs r poll q L Q.
    exact (heap_inv_lookup _ _ _ _ (current_is_active_reachable evs) L q Q).
  - intros s r reason now poll L. by eapply endQuestion_clears.
  - intros s sid pollId text options durationSec questionId optionIds now r poll
      G T C.
    unfold teacher_askQuestion. rewrite G, T, C. simpl.
    eexists _, _. split.
    { apply list_lookup_insert_eq. rewrite length_insert.
      eapply lookup_lt_Some. eauto using polls_get_opt_lookup. }
    split; [reflexivity | split; reflexivity].
Qed.

Lemma currentQuestion_present_iff_active_witness :
  (exists poll q,
      heap (run_state ann_answered initial) !! 0 = Some poll
      /\ currentQuestion poll = Some q
      /\ q_status q = Active)
  /\ (exists poll',
         heap (fst (endQuestion 0 "teacher_end" 2500
                      (run_state ann_answered initial))) !! 0 = Some poll'
         /\ currentQuestion poll' = None)
  /\ (exists poll' q,
         heap (fst (teacher_askQuestion "T" (Some "abc123") (Some "3+3?") None
                      None "q2" (option_ids "q2") 3000
                      (run_state lesson_start initial))) !! 0 = Some poll'
         /\ currentQuestion poll' = Some q
         /\ q_id q = "q2"
         /\ q_status q = Active).
Proof.
  destruct currentQuestion_present_iff_active as [A [B C]].
  split; [|split].
  - eexists _, _. split; [vm_compute; reflexivity|].
    split; [reflexivity|]. eapply (A ann_answered 0); vm_compute; reflexivity.
  - eapply (B _ 0). vm_compute. reflexivity.
  - eapply (C _ "T" (Some "abc123")); vm_compute; reflexivity.
Defined.

(** ** Answers are counted once (C4) *)

Lemma total_count_new (f : nat -> string -> Opt) (ts : list string) :
  (forall i t, o_count (f i t) = 0) -> total_count (imap f ts) = 0.
Proof.
  revert f. induction ts as [|t ts IH]; intros f Hf; simpl; [reflexivity|].
  rewrite Hf. simpl. apply IH. intros i t'. apply Hf.
Qed.

Lemma total_count_bump optionId os :
  is_Some (find_option optionId os) ->
  total_count (bump_option optionId os) = total_count os + 1.
Proof.
  unfold find_option.
  induction os as [|o os IH]; simpl; intros [x Hx]; [discriminate|].
  destruct (o_id o =? optionId)%string; simpl.
  - lia.
  - rewrite IH; [lia | eauto].
Qed.

Lemma answers_consistent_reachable evs :
  heap_inv (fun _ => answers_consistent) (run_state evs initial).
Proof.
  apply (reachable_heap_inv (fun _ => answers_consistent));
    unfold answers_consistent.
  - intros _ p Hp. exact Hp.
  - intros _ id q Q. discriminate.
  - intros _ t p Hp. exact Hp.
  - intros _ sid st p Hp. exact Hp.
  - intros _ sid p Hp. exact Hp.
  - intros text options durationSec questionId optionIds now t p _ q Q.
    simpl in Q. inversion Q; subst q. unfold set_timerRef, new_question.
    cbn [q_totalAnswers answeredBy q_options].
    split; [by rewrite size_empty|]. by apply total_count_new.
  - intros _ sid optionId p q0 Hp Q0 _ Hnew Hopt q Q.
    simpl in Q. inversion Q; subst q. unfold record_answer.
    cbn [q_totalAnswers answeredBy q_options].
    destruct (Hp q0 Q0) as [Hsize Hsum]. split.
    + rewrite size_union; [rewrite size_singleton; lia|].
      intros x Hx Hx'. apply elem_of_singleton in Hx'. by subst x.
    + rewrite total_count_bump by assumption. lia.
  - intros _ entry p _ q Q. discriminate.
Qed.

(** C4: in every state the server reaches, the current question's
    [totalAnswers] is the number of connections in [answeredBy] and is the
    sum of the option counts; and a [student:submit] from a connection that is
    already in [answeredBy] changes nothing and sends nothing. *)
Theorem totalAnswers_counts_distinct_connections :
  forall evs r poll q,
    heap (run_state evs initial) !! r = Some poll ->
    currentQuestion poll = Some q ->
    q_totalAnswers q = size (answeredBy q)
    /\ total_count (q_options q) = q_totalAnswers q
    /\ (forall sid pollId questionId optionId now,
           resolve_sender_poll sid pollId (run_state evs initial) = Some (r, poll) ->
           sid ∈ answeredBy q ->
           student_submit sid pollId questionId optionId now (run_state evs initial)
           = (run_state evs initial, [])).
Proof.
  intros evs r poll q L Q.
  destruct (heap_inv_lookup _ _ _ _ (answers_consistent_reachable evs) L q Q)
    as [Hsize Hsum].
  repeat split; try assumption.
  intros sid pollId questionId optionId now G Hin.
  unfold student_submit. rewrite G, Q.
  destruct (negb (q_id q =? questionId)%string || negb (is_active q));
    [reflexivity|].
  by rewrite bool_decide_eq_true_2.
Qed.

Lemma totalAnswers_counts_distinct_connections_witness :
  exists poll q,
    heap (run_state ann_answered initial) !! 0 = Some poll
    /\ currentQuestion poll = Some q
    /\ q_totalAnswers q = 1
    /\ q_totalAnswers q = size (answeredBy q)
    /\ total_count (q_options q) = q_totalAnswers q
    /\ student_submit "A" None "q1" "q1-o0" 2100 (run_state ann_answered initial)
       = (run_state ann_answered initial, []).
Proof.
  edestruct (totalAnswers_counts_distinct_connections ann_answered 0)
    as [Hsize [Hsum Hdup]].
  { vm_compute. reflexivity. }
  { reflexivity. }
  eexists _, _.
  split; [|split; [|split; [|split; [exact Hsize|split; [exact Hsum|]]]]].
  - vm_compute. reflexivity.
  - reflexivity.
  - reflexivity.
  - apply Hdup.
    + vm_compute. reflexivity.
    + apply (bool_decide_unpack _). vm_compute. exact I.
Defined.

(** ** Accepted and rejected submits (C5, C7, C10) *)

Lemma student_submit_accepted s sid pollId questionId optionId now r poll q o :
  resolve_sender_poll sid pollId s = Some (r, poll) ->
  currentQuestion poll = Some q ->
  q_id q = questionId ->
  q_status q = Active ->
  sid ∉ answeredBy q ->
  find_option optionId (q_options q) = Some o ->
  student_submit sid pollId questionId optionId now s
  = let q1 := record_answer sid optionId q in
    let poll1 := set_currentQuestion (Some q1) poll in
    let s1 := store r poll1 s in
    let update := emit_room (p_id poll) "results:update" (results_update q1 poll) in
    if (JsMap.size (students poll) <=? q_totalAnswers q + 1)
       && (0 <? JsMap.size (students poll))
    then (fst (endQuestion r "all_answered" now s1),
          update :: snd (endQuestion r "all_answered" now s1))
    else (s1, [update]).
Proof.
  intros G Q Hid Hact Hnew Hopt.
  unfold student_submit. rewrite G, Q, Hid, String.eqb_refl.
  unfold is_active. rewrite Hact. simpl negb. simpl orb. cbv iota.
  rewrite bool_decide_eq_false_2 by assumption. rewrite Hopt.
  cbv zeta. cbn [students set_currentQuestion q_totalAnswers record_answer p_id].
  destruct ((JsMap.size (students poll) <=? q_totalAnswers q + 1)
            && (0 <? JsMap.size (students poll))); [|reflexivity].
  destruct (endQuestion r "all_answered" now _) as [s2 out]. reflexivity.
Qed.

Lemma endQuestion_current r reason now s poll q :
  heap s !! r = Some poll ->
  currentQuestion poll = Some q ->
  endQuestion r reason now s
  = (set_timers (clearTimeout (_timerRef q) (timers s))
       (store r
          (set_currentQuestion None
             (set_pastQuestions
                (spread_with (result_of q)
                   [("finishedAt", JNum now); ("reason", JStr reason)]
                   :: pastQuestions poll) poll)) s),
     [emit_room (p_id poll) "questionFinished" (result_of q)]).
Proof. intros L Q. unfold endQuestion. rewrite L, Q. reflexivity. Qed.

Lemma clearTimeout_lookup t ts : clearTimeout (Some t) ts !! t = None.
Proof. simpl. apply lookup_delete_eq. Qed.

(** C5: a submit that passes the guards and brings [totalAnswers] up to the
    size of a non-empty roster finishes the question in the same handler
    run: the output is the [results:update] followed by the
    [questionFinished] of that question, the result with reason
    [all_answered] is put at the head of [pastQuestions], the question's
    timer is disarmed and the poll has no current question left. *)
Theorem submit_completing_roster_finishes :
  forall s sid pollId questionId optionId now r poll q o,
    resolve_sender_poll sid pollId s = Some (r, poll) ->
    currentQuestion poll = Some q ->
    q_id q = questionId ->
    q_status q = Active ->
    sid ∉ answeredBy q ->
    find_option optionId (q_options q) = Some o ->
    JsMap.size (students poll) <= q_totalAnswers q + 1 ->
    0 < JsMap.size (students poll) ->
    exists s' poll' entry,
      student_submit sid pollId questionId optionId now s
      = (s',
         [emit_room (p_id poll) "results:update"
            (results_update (record_answer sid optionId q) poll);
          emit_room (p_id poll) "questionFinished"
            (result_of (record_answer sid optionId q))])
      /\ heap s' !! r = Some poll'
      /\ currentQuestion poll' = None
      /\ pastQuestions poll' = entry :: pastQuestions poll
      /\ jget "questionId" entry = Some (JStr (q_id q))
      /\ jget "totalAnswers" entry = Some (jnat (q_totalAnswers q + 1))
      /\ jget "reason" entry = Some (JStr "all_answered")
      /\ timers s' = clearTimeout (_timerRef q) (timers s)
      /\ (forall t, _timerRef q = Some t -> timers s' !! t = None).
Proof.
  intros s sid pollId questionId optionId now r poll q o
    G Q Hid Hact Hnew Hopt Hall Hpos.
  rewrite (student_submit_accepted _ _ _ _ _ now _ _ _ _ G Q Hid Hact Hnew Hopt).
  cbv zeta.
  replace (JsMap.size (students poll) <=? q_totalAnswers q + 1) with true
    by (symmetry; apply Nat.leb_le; exact Hall).
  replace (0 <? JsMap.size (students poll)) with true
    by (symmetry; apply Nat.ltb_lt; exact Hpos).
  cbn [andb].
  pose proof (resolve_sender_poll_lookup _ _ _ _ _ G) as L.
  erewrite endQuestion_current;
    [|eapply store_lookup_eq; exact L | reflexivity].
  eexists _, _, _. split; [reflexivity|].
  split.
  { cbn [fst heap set_timers]. eapply store_lookup_eq.
    eapply store_lookup_eq. exact L. }
  repeat split.
  intros t Ht. cbn [timers set_timers store set_heap]. unfold record_answer.
  cbn [_timerRef]. rewrite Ht. apply clearTimeout_lookup.
Qed.

Lemma submit_completing_roster_finishes_witness :
  exists s' poll' entry,
    map event
      (snd (student_submit "B" None "q1" "q1-o1" 2500
              (run_state ann_answered initial)))
    = ["results:update"; "questionFinished"]
    /\ student_submit "B" None "q1" "q1-o1" 2500 (run_state ann_answered initial)
       = (s', snd (student_submit "B" None "q1" "q1-o1" 2500
                     (run_state ann_answered initial)))
    /\ heap s' !! 0 = Some poll'
    /\ currentQuestion poll' = None
    /\ head (pastQuestions poll') = Some entry
    /\ jget "reason" entry = Some (JStr "all_answered")
    /\ timers s' !! 0 = None.
Proof.
  edestruct (submit_completing_roster_finishes (run_state ann_answered initial)
               "B" None "q1" "q1-o1" 2500 0)
    as (s' & poll' & entry & Hrun & Hheap & Hcur & Hpast & _ & _ & Hreason & _ & Htimer).
  - vm_compute. reflexivity.
  - reflexivity.
  - reflexivity.
  - reflexivity.
  - apply (bool_decide_unpack _). vm_compute. exact I.
  - vm_compute. reflexivity.
  - vm_compute. lia.
  - vm_compute. lia.
  - exists s', poll', entry. rewrite Hrun. cbn [snd].
    split; [reflexivity|]. split; [reflexivity|].
    split; [exact Hheap|]. split; [exact Hcur|].
    split; [rewrite Hpast; reflexivity|]. split; [exact Hreason|].
    apply Htimer. reflexivity.
Defined.

(** C7: a [student:submit] whose option id is not an option of the current
    question changes nothing and sends nothing, to nobody; and so does every
    submit that fails one of the guards of the handler. *)
Theorem rejected_submit_is_silent :
  (forall s sid pollId questionId optionId now r poll q,
      resolve_sender_poll sid pollId s = Some (r, poll) ->
      currentQuestion poll = Some q ->
      find_option optionId (q_options q) = None ->
      student_submit sid pollId questionId optionId now s = (s, []))
  /\ (forall s sid pollId questionId optionId now,
         submit_permitted sid pollId questionId optionId s = false ->
         student_submit sid pollId questionId optionId now s = (s, [])).
Proof.
  split.
  - intros s sid pollId questionId optionId now r poll q G Q Hopt.
    unfold student_submit. rewrite G, Q, Hopt.
    destruct (negb (q_id q =? questionId)%string || negb (is_active q));
      [reflexivity|].
    destruct (bool_decide (sid ∈ answeredBy q)); reflexivity.
  - intros s sid pollId questionId optionId now.
    unfold submit_permitted, student_submit.
    destruct (resolve_sender_poll sid pollId s) as [[r poll]|]; [|reflexivity].
    destruct (currentQuestion poll) as [q|]; [|reflexivity].
    destruct (q_id q =? questionId)%string; [|reflexivity].
    destruct (is_active q); [|reflexivity].
    destruct (bool_decide (sid ∈ answeredBy q)); [reflexivity|].
    destruct (find_option optionId (q_options q)); [discriminate|reflexivity].
Qed.

Lemma rejected_submit_is_silent_witness :
  student_submit "B" None "q1" "q0-o1" 2500 (run_state ann_answered initial)
  = (run_state ann_answered initial, [])
  /\ student_submit "B" None "q0" "q1-o1" 2500 (run_state ann_answered initial)
     = (run_state ann_answered initial, []).
Proof.
  destruct rejected_submit_is_silent as [Hunknown Hrejected].
  split.
  - eapply (Hunknown _ "B" None "q1" "q0-o1" 2500%Z 0).
    + vm_compute. reflexivity.
    + reflexivity.
    + vm_compute. reflexivity.
  - apply Hrejected. vm_compute. reflexivity.
Defined.

(** C10: a [student:submit] that names the poll, carries the id of its
    active current question and the id of one of its options, from a
    connection not yet in [answeredBy], is counted: the [results:update]
    that goes out shows the answer, whatever the roster holds.  The roster
    is not consulted; the connection may have been removed from it or may
    never have joined. *)
Theorem submit_counted_without_roster_membership :
  forall s sid c k questionId optionId now r poll q o,
    polls_get (String c k) s = Some (r, poll) ->
    currentQuestion poll = Some q ->
    q_id q = questionId ->
    q_status q = Active ->
    sid ∉ answeredBy q ->
    find_option optionId (q_options q) = Some o ->
    exists rest poll',
      snd (student_submit sid (Some (String c k)) questionId optionId now s)
      = emit_room (p_id poll) "results:update"
          (results_update (record_answer sid optionId q) poll) :: rest
      /\ q_totalAnswers (record_answer sid optionId q) = q_totalAnswers q + 1
      /\ total_count (q_options (record_answer sid optionId q))
         = total_count (q_options q) + 1
      /\ sid ∈ answeredBy (record_answer sid optionId q)
      /\ heap (fst (student_submit sid (Some (String c k)) questionId optionId
                      now s)) !! r = Some poll'
      /\ (currentQuestion poll' = Some (record_answer sid optionId q)
          \/ currentQuestion poll' = None
             /\ exists entry,
                 pastQuestions poll' = entry :: pastQuestions poll
                 /\ jget "totalAnswers" entry
                    = Some (jnat (q_totalAnswers q + 1))).
Proof.
  intros s sid c k questionId optionId now r poll q o G Q Hid Hact Hnew Hopt.
  assert (G' : resolve_sender_poll sid (Some (String c k)) s = Some (r, poll))
    by exact G.
  pose proof (polls_get_lookup _ _ _ _ G) as L.
  rewrite (student_submit_accepted _ _ _ _ _ now _ _ _ _ G' Q Hid Hact Hnew Hopt).
  cbv zeta.
  assert (Hcount : total_count (q_options (record_answer sid optionId q))
                   = total_count (q_options q) + 1).
  { unfold record_answer. cbn [q_options]. apply total_count_bump. eauto. }
  assert (Hin : sid ∈ answeredBy (record_answer sid optionId q)).
  { unfold record_answer. cbn [answeredBy]. set_solver. }
  destruct ((JsMap.size (students poll) <=? q_totalAnswers q + 1)
            && (0 <? JsMap.size (students poll))).
  - erewrite endQuestion_current;
      [|eapply store_lookup_eq; exact L | reflexivity].
    eexists _, _. split; [reflexivity|]. split; [reflexivity|].
    split; [exact Hcount|]. split; [exact Hin|].
    split.
    { cbn [fst heap set_timers]. eapply store_lookup_eq.
      eapply store_lookup_eq. exact L. }
    right. split; [reflexivity|]. eexists. split; reflexivity.
  - eexists _, _. split; [reflexivity|]. split; [reflexivity|].
    split; [exact Hcount|]. split; [exact Hin|].
    split; [cbn [fst]; eapply store_lookup_eq; exact L|].
    left. reflexivity.
Qed.

Lemma submit_counted_without_roster_membership_witness :
  exists poll q rest,
    polls_get "abc123" (run_state bo_kicked initial) = Some (0, poll)
    /\ JsMap.has "B" (students poll) = false
    /\ currentQuestion poll = Some q
    /\ snd (student_submit "B" (Some "abc123") "q1" "q1-o0" 2500
              (run_state bo_kicked initial))
       = emit_room "abc123" "results:update"
           (results_update (record_answer "B" "q1-o0" q) poll) :: rest
    /\ q_totalAnswers (record_answer "B" "q1-o0" q) = 1.
Proof.
  edestruct (submit_counted_without_roster_membership
               (run_state bo_kicked initial) "B" "a" "bc123" "q1" "q1-o0" 2500 0)
    as (rest & poll' & Hout & Htotal & _).
  - vm_compute. reflexivity.
  - reflexivity.
  - reflexivity.
  - reflexivity.
  - apply (bool_decide_unpack _). vm_compute. exact I.
  - vm_compute. reflexivity.
  - eexists _, _, rest.
    split; [vm_compute; reflexivity|]. split; [reflexivity|].
    split; [reflexivity|]. split; [exact Hout|]. exact Htotal.
Defined.

(** ** What the messages carry (C8, C9) *)

(** C8, as stated, fails: Cy joins and the teacher re-attaches while [q1] is
    active and Ann's answer is in; both [ready] payloads show the question
    with status [active] and the count 1 of option [q1-o1]. *)
Lemma ready_snapshot_reveals_counts :
  exists ps pt cqs cqt os ot,
    emit_to "C" "student:ready" ps
      ∈ snd (step (run_state ann_answered initial)
               (StudentInit "C" None (Some "Cy")))
    /\ jget "currentQuestion" ps = Some cqs
    /\ jget "status" cqs = Some (JStr "active")
    /\ jget "options" cqs = Some (JArr os)
    /\ JObj [("id", JStr "q1-o1"); ("text", JStr "4"); ("count", JNum 1)] ∈ os
    /\ emit_to "T" "teacher:ready" pt
         ∈ snd (step (run_state ann_answered initial)
                  (TeacherInit "T" (Some "abc123") "ffffff-0000"))
    /\ jget "currentQuestion" pt = Some cqt
    /\ jget "status" cqt = Some (JStr "active")
    /\ jget "options" cqt = Some (JArr ot)
    /\ JObj [("id", JStr "q1-o1"); ("text", JStr "4"); ("count", JNum 1)] ∈ ot.
Proof.
  vm_compute. eexists _, _, _, _, _, _.
  split; [apply list_elem_of_In; right; left; reflexivity|].
  split; [reflexivity|]. split; [reflexivity|]. split; [reflexivity|].
  split; [apply list_elem_of_In; right; left; reflexivity|].
  split; [apply list_elem_of_In; left; reflexivity|].
  split; [reflexivity|]. split; [reflexivity|]. split; [reflexivity|].
  apply list_elem_of_In; right; left; reflexivity.
Qed.

(** C8, amended: the snapshot delivered on attach ([teacher:ready] to the
    attaching teacher, [student:ready] to the joining student) holds the
    current question with every option's id, text and current count, with
    [totalAnswers] and with the status, also while the question is active. *)
Theorem ready_snapshot_includes_counts :
  (forall s sid pollId uuid r poll q,
      polls_get_truthy pollId s = Some (r, poll) ->
      currentQuestion poll = Some q ->
      exists p rest,
        snd (teacher_init sid pollId uuid s)
        = emit_to sid "teacher:ready" p :: rest
        /\ jget "currentQuestion" p = Some (question_snapshot (Some q)))
  /\ (forall s sid pollId name r poll q,
         resolve_student_poll pollId s = Some (r, poll) ->
         currentQuestion poll = Some q ->
         exists roster p,
           snd (student_init sid pollId name s)
           = [emit_room (p_id poll) "roster:update" roster;
              emit_to sid "student:ready" p]
           /\ jget "currentQuestion" p = Some (question_snapshot (Some q)))
  /\ (forall q,
         jget "options" (question_snapshot (Some q))
         = Some (JArr (map opt_counted (q_options q)))
         /\ jget "totalAnswers" (question_snapshot (Some q))
            = Some (jnat (q_totalAnswers q))
         /\ jget "status" (question_snapshot (Some q))
            = Some (JStr (status_string (q_status q))))
  /\ (forall o,
         jget "id" (opt_counted o) = Some (JStr (o_id o))
         /\ jget "text" (opt_counted o) = Some (JStr (o_text o))
         /\ jget "count" (opt_counted o) = Some (jnat (o_count o))).
Proof.
  split; [|split; [|split]].
  - intros s sid pollId uuid r poll q G Q.
    unfold teacher_init. rewrite G.
    match goal with
    | |- context [attach_waiting ?r ?ws ?s1] =>
        destruct (attach_waiting r ws s1) as [s3 out]
    end.
    eexists _, _. split; [reflexivity|].
    simpl. rewrite Q. reflexivity.
  - intros s sid pollId name r poll q G Q.
    unfold student_init. rewrite G.
    eexists _, _. split; [reflexivity|].
    simpl. rewrite Q. reflexivity.
  - intros q. repeat split.
  - intros o. repeat split.
Qed.

Lemma ready_snapshot_includes_counts_witness :
  exists ps pt rest roster q,
    snd (teacher_init "T" (Some "abc123") "ffffff-0000"
           (run_state ann_answered initial))
    = emit_to "T" "teacher:ready" pt :: rest
    /\ jget "currentQuestion" pt = Some (question_snapshot (Some q))
    /\ snd (student_init "C" None (Some "Cy") (run_state ann_answered initial))
       = [emit_room "abc123" "roster:update" roster;
          emit_to "C" "student:ready" ps]
    /\ jget "currentQuestion" ps = Some (question_snapshot (Some q))
    /\ map (jget "count") (map opt_counted (q_options q))
       = [Some (JNum 0); Some (JNum 1)].
Proof.
  destruct ready_snapshot_includes_counts as [Hteacher [Hstudent _]].
  edestruct (Hteacher (run_state ann_answered initial) "T" (Some "abc123")
               "ffffff-0000" 0)
    as (pt & rest & Ht1 & Ht2).
  { vm_compute. reflexivity. }
  { reflexivity. }
  edestruct (Hstudent (run_state ann_answered initial) "C" None (Some "Cy") 0)
    as (roster & ps & Hs1 & Hs2).
  { vm_compute. reflexivity. }
  { reflexivity. }
  exists ps, pt, rest, roster. eexists.
  split; [exact Ht1|]. split; [exact Ht2|].
  split; [exact Hs1|]. split; [exact Hs2|]. reflexivity.
Defined.

(** C9, as stated, fails: the teacher ends [q1]; the [questionFinished]
    message has neither a [reason] nor a [finishedAt] member. *)
Lemma questionFinished_lacks_reason :
  exists p,
    snd (step (run_state ann_answered initial)
           (EndQuestion "T" (Some "abc123") 2500))
    = [emit_room "abc123" "questionFinished" p]
    /\ jget "reason" p = None
    /\ jget "finishedAt" p = None.
Proof.
  vm_compute. eexists. split; [reflexivity|]. split; reflexivity.
Qed.

(** C9, amended: whenever [endQuestion] finishes a question, the
    [questionFinished] message sent to the poll's room carries [questionId],
    [text], the options with their final counts, [totalAnswers] and
    [durationSec], and no [reason] and no [finishedAt]; these two are
    members only of the entry put at the head of [pastQuestions], which
    otherwise equals the message. *)
Theorem questionFinished_carries_result :
  forall s r reason now poll q,
    heap s !! r = Some poll ->
    currentQuestion poll = Some q ->
    exists res entry poll',
      snd (endQuestion r reason now s)
      = [emit_room (p_id poll) "questionFinished" res]
      /\ jget "questionId" res = Some (JStr (q_id q))
      /\ jget "text" res = Some (JStr (q_text q))
      /\ jget "options" res = Some (JArr (map opt_counted (q_options q)))
      /\ jget "totalAnswers" res = Some (jnat (q_totalAnswers q))
      /\ jget "durationSec" res = Some (JNum (q_durationSec q))
      /\ jget "reason" res = None
      /\ jget "finishedAt" res = None
      /\ heap (fst (endQuestion r reason now s)) !! r = Some poll'
      /\ pastQuestions poll' = entry :: pastQuestions poll
      /\ jget "reason" entry = Some (JStr reason)
      /\ jget "finishedAt" entry = Some (JNum now)
      /\ (forall k, k <> "reason" -> k <> "finishedAt" ->
                    jget k entry = jget k res).
Proof.
  intros s r reason now poll q L Q.
  rewrite (endQuestion_current _ _ _ _ _ _ L Q).
  eexists _, _, _. split; [reflexivity|].
  do 7 (split; [reflexivity|]).
  split; [cbn [fst heap set_timers]; eapply store_lookup_eq; exact L|].
  split; [reflexivity|]. split; [reflexivity|]. split; [reflexivity|].
  intros k Hr Hf. simpl.
  repeat match goal with
         | |- context [String.eqb k ?x] =>
             destruct (String.eqb_spec k x); [try reflexivity; congruence|]
         end.
  reflexivity.
Qed.

Lemma questionFinished_carries_result_witness :
  exists res entry,
    snd (endQuestion 0 "teacher_end" 2500 (run_state ann_answered initial))
    = [emit_room "abc123" "questionFinished" res]
    /\ jget "totalAnswers" res = Some (JNum 1)
    /\ jget "reason" res = None
    /\ jget "reason" entry = Some (JStr "teacher_end")
    /\ jget "finishedAt" entry = Some (JNum 2500).
Proof.
  edestruct (questionFinished_carries_result (run_state ann_answered initial) 0
               "teacher_end" 2500)
    as (res & entry & poll' & Hout & _ & _ & _ & Htotal & _ & Hno & _ & _ & _
        & Hreason & Hat & _).
  { vm_compute. reflexivity. }
  { reflexivity. }
  exists res, entry.
  split; [exact Hout|]. split; [exact Htotal|]. split; [exact Hno|].
  split; [exact Hreason|]. exact Hat.
Defined.

(** ** Handlers that leave the questions alone *)

Lemma questions_kept_same_heap s s' :
  heap s' = heap s -> timers s' = timers s -> next_timer s' = next_timer s ->
  questions_kept s s'.
Proof.
  intros Hh Ht Hn. split; [exact Ht|]. split; [exact Hn|].
  intros r p L. exists p. rewrite Hh. auto.
Qed.

Lemma questions_kept_refl s : questions_kept s s.
Proof. by apply questions_kept_same_heap. Qed.

Lemma questions_kept_trans s1 s2 s3 :
  questions_kept s1 s2 -> questions_kept s2 s3 -> questions_kept s1 s3.
Proof.
  intros (Ht1 & Hn1 & H1) (Ht2 & Hn2 & H2).
  split; [congruence|]. split; [congruence|].
  intros r p L.
  destruct (H1 r p L) as (p2 & L2 & Hq2 & Hh2 & Hi2).
  destruct (H2 r p2 L2) as (p3 & L3 & Hq3 & Hh3 & Hi3).
  exists p3. repeat split; congruence.
Qed.

Lemma questions_kept_store s r p p1 :
  heap s !! r = Some p ->
  currentQuestion p1 = currentQuestion p ->
  pastQuestions p1 = pastQuestions p ->
  p_id p1 = p_id p ->
  questions_kept s (store r p1 s).
Proof.
  intros L Hq Hh Hi. split; [reflexivity|]. split; [reflexivity|].
  intros r' p' L'. destruct (decide (r = r')) as [<-|Hne].
  - exists p1. rewrite (store_lookup_eq _ _ _ _ L).
    assert (p' = p) by congruence. subst p'. auto.
  - exists p'. rewrite store_lookup_ne by assumption. auto.
Qed.

Lemma createPoll_kept uuid s : questions_kept s (fst (createPoll uuid s)).
Proof.
  split; [reflexivity|]. split; [reflexivity|].
  intros r p L. exists p. simpl. rewrite lookup_app_l; [auto|].
  by eapply lookup_lt_Some.
Qed.

Lemma attach_waiting_kept r ws :
  forall s, questions_kept s (fst (attach_waiting r ws s)).
Proof.
  induction ws as [|[sid name] ws IH]; intros s; simpl;
    [apply questions_kept_refl|].
  destruct (bool_decide (sid ∈ sockets s)).
  - destruct (heap s !! r) as [poll|] eqn:L; [|apply questions_kept_refl].
    match goal with
    | |- context [attach_waiting r ws ?s1] =>
        specialize (IH s1); destruct (attach_waiting r ws s1) as [s3 out]
    end.
    simpl in *. eapply questions_kept_trans; [|exact IH].
    eapply (questions_kept_trans _ (store r _ s));
      [|by apply questions_kept_same_heap].
    eapply questions_kept_store; [exact L | reflexivity..].
  - eapply questions_kept_trans; [|apply IH].
    by apply questions_kept_same_heap.
Qed.

Lemma teacher_init_kept sid pollId uuid s :
  questions_kept s (fst (teacher_init sid pollId uuid s)).
Proof.
  unfold teacher_init.
  destruct (polls_get_truthy pollId s) as [[r p]|] eqn:G.
  - match goal with
    | |- context [attach_waiting ?r ?ws ?s1] =>
        pose proof (attach_waiting_kept r ws s1) as A;
        destruct (attach_waiting r ws s1) as [s3 out]
    end.
    simpl in *. eapply questions_kept_trans; [|exact A].
    eapply (questions_kept_trans _ (store r _ s));
      [|by apply questions_kept_same_heap].
    eapply questions_kept_store;
      [exact (polls_get_truthy_lookup _ _ _ _ G) | reflexivity..].
  - pose proof (createPoll_kept uuid s) as C.
    destruct (createPoll uuid s) as [s' r] eqn:E.
    match goal with
    | |- context [attach_waiting ?r ?ws ?s1] =>
        pose proof (attach_waiting_kept r ws s1) as A;
        destruct (attach_waiting r ws s1) as [s3 out]
    end.
    simpl in *. eapply questions_kept_trans; [exact C|].
    eapply questions_kept_trans; [|exact A].
    inversion E; subst s' r.
    eapply (questions_kept_trans _ (store (length (heap s)) _ _));
      [|by apply questions_kept_same_heap].
    eapply questions_kept_store;
      [simpl; apply list_lookup_middle; reflexivity | reflexivity..].
Qed.

Lemma student_init_kept sid pollId name s :
  questions_kept s (fst (student_init sid pollId name s)).
Proof.
  unfold student_init.
  destruct (resolve_student_poll pollId s) as [[r p]|] eqn:G.
  - eapply questions_kept_store;
      [exact (resolve_student_poll_lookup _ _ _ _ G) | reflexivity..].
  - by apply questions_kept_same_heap.
Qed.

Lemma teacher_removeStudent_kept sid pollId studentId s :
  questions_kept s (fst (teacher_removeStudent sid pollId studentId s)).
Proof.
  unfold teacher_removeStudent.
  destruct (polls_get_opt pollId s) as [[r p]|] eqn:G;
    [|apply questions_kept_refl].
  destruct (negb (is_teacher sid p)); [apply questions_kept_refl|].
  destruct (JsMap.has studentId (students p)); [|apply questions_kept_refl].
  eapply questions_kept_store;
    [exact (polls_get_opt_lookup _ _ _ _ G) | reflexivity..].
Qed.

Lemma chat_send_kept sid pollId from message role uuid now s :
  questions_kept s (fst (chat_send sid pollId from message role uuid now s)).
Proof.
  unfold chat_send.
  destruct (resolve_sender_poll sid pollId s) as [[r p]|];
    apply questions_kept_refl.
Qed.

(** One turn of the loop of [disconnect]: the poll object loses [sid] from
    its roster and, if [sid] was its teacher, its teacher. *)
Lemma detach_from_cons sid r rs s poll :
  heap s !! r = Some poll ->
  exists poll2 active,
    fst (detach_from sid (r :: rs) s)
    = fst (detach_from sid rs (set_activePollId active (store r poll2 s)))
    /\ students poll2 = JsMap.delete sid (students poll)
    /\ currentQuestion poll2 = currentQuestion poll
    /\ pastQuestions poll2 = pastQuestions poll
    /\ p_id poll2 = p_id poll.
Proof.
  intros L. simpl. rewrite L.
  assert (Habsent : JsMap.has sid (students poll) = false ->
                    JsMap.delete sid (students poll) = students poll).
  { unfold JsMap.has. generalize (students poll) as m.
    induction m as [|[k v] m IH]; simpl; [reflexivity|].
    destruct (sid =? k)%string; [discriminate|].
    intros H. by rewrite IH. }
  destruct (JsMap.has sid (students poll)) eqn:Hhas.
  - match goal with |- context [if ?c then _ else _] => destruct c end;
      match goal with
      | |- context [detach_from sid rs ?s1] =>
          destruct (detach_from sid rs s1) as [s2 out] eqn:E
      end;
      eexists _, _; (split; [rewrite E; reflexivity|]); repeat split.
  - match goal with |- context [if ?c then _ else _] => destruct c end;
      match goal with
      | |- context [detach_from sid rs ?s1] =>
          destruct (detach_from sid rs s1) as [s2 out] eqn:E
      end;
      eexists _, _; (split; [rewrite E; reflexivity|]); repeat split;
      simpl; by rewrite Habsent.
Qed.

Lemma detach_from_kept sid rs :
  forall s, questions_kept s (fst (detach_from sid rs s)).
Proof.
  induction rs as [|r rs IH]; intros s; [apply questions_kept_refl|].
  destruct (heap s !! r) as [poll|] eqn:L.
  - destruct (detach_from_cons sid r rs s poll L)
      as (poll2 & active & -> & _ & Hq & Hh & Hi).
    eapply questions_kept_trans; [|apply IH].
    eapply (questions_kept_trans _ (store r poll2 s));
      [|by apply questions_kept_same_heap].
    by eapply questions_kept_store.
  - simpl. rewrite L. apply IH.
Qed.

Lemma disconnect_kept sid s : questions_kept s (fst (disconnect sid s)).
Proof.
  unfold disconnect.
  pose proof (detach_from_kept sid (JsMap.values (polls s)) s) as D.
  destruct (detach_from sid (JsMap.values (polls s)) s) as [s1 out].
  simpl in *. eapply questions_kept_trans; [exact D|].
  by apply questions_kept_same_heap.
Qed.

(** ** Leaving the roster (C6) *)

Section JsMapFacts.
Context {V : Type}.
Implicit Types (m : list (string * V)) (k : string).

Lemma JsMap_get_key k m v : JsMap.get k m = Some v -> In k (map fst m).
Proof.
  induction m as [|[k' v'] m IH]; simpl; [discriminate|].
  destruct (String.eqb_spec k k') as [->|Hne]; auto.
Qed.

Lemma JsMap_set_key k v m x :
  In x (map fst (JsMap.set k v m)) -> x = k \/ In x (map fst m).
Proof.
  induction m as [|[k' v'] m IH]; simpl.
  - intros [<-|[]]. by left.
  - destruct (String.eqb_spec k k') as [->|Hne]; simpl.
    + intros [<-|H]; auto.
    + intros [<-|H]; auto. destruct (IH H); auto.
Qed.

Lemma JsMap_delete_key k m x :
  In x (map fst (JsMap.delete k m)) -> In x (map fst m).
Proof.
  induction m as [|[k' v'] m IH]; simpl; [tauto|].
  destruct (String.eqb_spec k k') as [->|Hne]; simpl; [auto|].
  intros [<-|H]; auto.
Qed.

Lemma JsMap_set_unique k v m :
  NoDup (map fst m) -> NoDup (map fst (JsMap.set k v m)).
Proof.
  induction m as [|[k' v'] m IH]; simpl; intros H.
  - constructor; [apply not_elem_of_nil | constructor].
  - apply NoDup_cons in H as [Hk' Hm].
    destruct (String.eqb_spec k k') as [->|Hne]; simpl.
    + apply NoDup_cons. auto.
    + apply NoDup_cons. split; [|auto].
      rewrite list_elem_of_In. intros Hin.
      apply JsMap_set_key in Hin as [->|Hin]; [congruence|].
      apply Hk'. by apply list_elem_of_In.
Qed.

Lemma JsMap_delete_unique k m :
  NoDup (map fst m) -> NoDup (map fst (JsMap.delete k m)).
Proof.
  induction m as [|[k' v'] m IH]; simpl; intros H; [constructor|].
  apply NoDup_cons in H as [Hk' Hm].
  destruct (String.eqb_spec k k') as [->|Hne]; simpl; [exact Hm|].
  apply NoDup_cons. split; [|auto].
  rewrite list_elem_of_In. intros Hin. apply JsMap_delete_key in Hin.
  apply Hk'. by apply list_elem_of_In.
Qed.

Lemma JsMap_has_delete k m :
  NoDup (map fst m) -> JsMap.has k (JsMap.delete k m) = false.
Proof.
  unfold JsMap.has.
  induction m as [|[k' v'] m IH]; simpl; intros H; [reflexivity|].
  apply NoDup_cons in H as [Hk' Hm].
  destruct (String.eqb_spec k k') as [->|Hne]; simpl.
  - destruct (JsMap.get k' m) as [v|] eqn:G; [|reflexivity].
    exfalso. apply Hk'. apply list_elem_of_In. by eapply JsMap_get_key.
  - destruct (String.eqb_spec k k'); [congruence|]. auto.
Qed.

Lemma JsMap_size_delete k m :
  JsMap.has k m = true -> JsMap.size (JsMap.delete k m) + 1 = JsMap.size m.
Proof.
  unfold JsMap.has, JsMap.size.
  induction m as [|[k' v'] m IH]; simpl; [discriminate|].
  destruct (String.eqb_spec k k') as [->|Hne]; simpl; [lia|].
  intros H. rewrite <- (IH H). lia.
Qed.

Lemma JsMap_get_value k m r : JsMap.get k m = Some r -> In r (JsMap.values m).
Proof.
  unfold JsMap.values.
  induction m as [|[k' v'] m IH]; simpl; [discriminate|].
  destruct (String.eqb_spec k k') as [->|Hne]; [|auto].
  intros H. inversion H. by left.
Qed.
End JsMapFacts.

Lemma keys_unique_reachable evs :
  heap_inv (fun _ => keys_unique) (run_state evs initial).
Proof.
  apply (reachable_heap_inv (fun _ => keys_unique)); unfold keys_unique.
  - intros _ p Hp. exact Hp.
  - intros _ id. constructor.
  - intros _ t p Hp. exact Hp.
  - intros _ sid st p Hp. by apply JsMap_set_unique.
  - intros _ sid p Hp. by apply JsMap_delete_unique.
  - intros text options durationSec questionId optionIds now t p Hp. exact Hp.
  - intros _ sid optionId p q Hp _ _ _ _. exact Hp.
  - intros _ entry p Hp. exact Hp.
Qed.

(** What the loop of [disconnect] does to the roster of a poll object. *)
Lemma detach_from_students sid rs :
  forall s r poll,
    Forall keys_unique (heap s) ->
    heap s !! r = Some poll ->
    exists poll',
      heap (fst (detach_from sid rs s)) !! r = Some poll'
      /\ students poll'
         = if bool_decide (r ∈ rs)
           then JsMap.delete sid (students poll)
           else students poll.
Proof.
  induction rs as [|r0 rs IH]; intros s r poll Hu L.
  { exists poll. split; [exact L|]. reflexivity. }
  destruct (heap s !! r0) as [poll0|] eqn:L0.
  - destruct (detach_from_cons sid r0 rs s poll0 L0)
      as (poll2 & active & -> & Hst & _ & _ & _).
    assert (Hu2 : keys_unique poll2).
    { unfold keys_unique. rewrite Hst. apply JsMap_delete_unique.
      exact (Forall_lookup_1 _ _ _ _ Hu L0). }
    assert (Hu' : Forall keys_unique
                    (heap (set_activePollId active (store r0 poll2 s)))).
    { simpl. by apply Forall_insert. }
    destruct (decide (r = r0)) as [->|Hne].
    + assert (poll0 = poll) by congruence. subst poll0.
      destruct (IH _ r0 poll2 Hu' (store_lookup_eq _ _ _ _ L))
        as (poll' & L' & Hst').
      exists poll'. split; [exact L'|].
      rewrite Hst'.
      rewrite (bool_decide_eq_true_2 (r0 ∈ r0 :: rs)) by apply list_elem_of_here.
      rewrite Hst.
      destruct (bool_decide (r0 ∈ rs)); [|reflexivity].
      assert (Hgone : JsMap.has sid (JsMap.delete sid (students poll)) = false).
      { apply JsMap_has_delete. exact (Forall_lookup_1 _ _ _ _ Hu L). }
      revert Hgone. unfold JsMap.has.
      generalize (JsMap.delete sid (students poll)) as m.
      induction m as [|[k v] m IHm]; simpl; [reflexivity|].
      destruct (sid =? k)%string; [discriminate|].
      intros H. by rewrite IHm.
    + destruct (IH (set_activePollId active (store r0 poll2 s)) r poll Hu')
        as (poll' & L' & Hst').
      { simpl. rewrite list_lookup_insert_ne by congruence. exact L. }
      exists poll'. split; [exact L'|]. rewrite Hst'.
      destruct (bool_decide (r ∈ rs)) eqn:B.
      * apply bool_decide_eq_true in B.
        rewrite bool_decide_eq_true_2; [reflexivity|]. by apply list_elem_of_further.
      * apply bool_decide_eq_false in B.
        rewrite bool_decide_eq_false_2; [reflexivity|].
        intros Hin. apply elem_of_cons in Hin as [?|?]; congruence.
  - simpl. rewrite L0.
    destruct (IH s r poll Hu L) as (poll' & L' & Hst').
    exists poll'. split; [exact L'|]. rewrite Hst'.
    assert (r <> r0) by congruence.
    destruct (bool_decide (r ∈ rs)) eqn:B.
    + apply bool_decide_eq_true in B.
      rewrite bool_decide_eq_true_2; [reflexivity|]. by apply list_elem_of_further.
    + apply bool_decide_eq_false in B.
      rewrite bool_decide_eq_false_2; [reflexivity|].
      intros Hin. apply elem_of_cons in Hin as [?|?]; congruence.
Qed.

Lemma polls_get_value id s r p :
  polls_get id s = Some (r, p) -> r ∈ JsMap.values (polls s).
Proof.
  unfold polls_get. intros H.
  destruct (JsMap.get id (polls s)) as [r'|] eqn:G; simpl in H; [|discriminate].
  destruct (heap s !! r') as [p'|]; simpl in H; [|discriminate].
  inversion H; subst. apply list_elem_of_In. by eapply JsMap_get_value.
Qed.

(** C6: in every state the server reaches, a [teacher:removeStudent] of the
    bound teacher for a student of the roster, and a [disconnect], take the
    connection out of the roster of the poll (one entry less) and leave the
    poll's current question as it was, with its [totalAnswers], its option
    counts and all its other members; and in any state neither event changes
    the current question of any poll object. *)
Theorem roster_removal_keeps_answers :
  (forall evs sid pollId studentId r poll,
      polls_get_opt pollId (run_state evs initial) = Some (r, poll) ->
      is_teacher sid poll = true ->
      JsMap.has studentId (students poll) = true ->
      exists poll',
        heap (fst (step (run_state evs initial)
                     (RemoveStudent sid pollId studentId))) !! r = Some poll'
        /\ JsMap.has studentId (students poll') = false
        /\ JsMap.size (students poll') + 1 = JsMap.size (students poll)
        /\ currentQuestion poll' = currentQuestion poll)
  /\ (forall evs sid id r poll,
         polls_get id (run_state evs initial) = Some (r, poll) ->
         exists poll',
           heap (fst (step (run_state evs initial) (Disconnect sid))) !! r
           = Some poll'
           /\ JsMap.has sid (students poll') = false
           /\ (JsMap.has sid (students poll) = true ->
               JsMap.size (students poll') + 1 = JsMap.size (students poll))
           /\ currentQuestion poll' = currentQuestion poll)
  /\ (forall s e r poll,
         removes_from_roster e ->
         heap s !! r = Some poll ->
         exists poll',
           heap (fst (step s e)) !! r = Some poll'
           /\ currentQuestion poll' = currentQuestion poll).
Proof.
  split; [|split].
  - intros evs sid pollId studentId r poll G T Hhas.
    pose proof (polls_get_opt_lookup _ _ _ _ G) as L.
    pose proof (heap_inv_lookup _ _ _ _ (keys_unique_reachable evs) L) as Hu.
    simpl. unfold teacher_removeStudent. rewrite G, T, Hhas. simpl.
    eexists. split; [apply list_lookup_insert_eq; by eapply lookup_lt_Some|].
    split; [by apply JsMap_has_delete|].
    split; [by apply JsMap_size_delete | reflexivity].
  - intros evs sid id r poll G.
    pose proof (polls_get_lookup _ _ _ _ G) as L.
    pose proof (keys_unique_reachable evs) as Hu.
    set (s := run_state evs initial) in *.
    set (s0 := set_sockets (sockets s ∖ {[sid]}) s).
    destruct (detach_from_students sid (JsMap.values (polls s0)) s0 r poll Hu L)
      as (poll' & L' & Hst).
    rewrite bool_decide_eq_true_2 in Hst by exact (polls_get_value _ _ _ _ G).
    destruct (detach_from_kept sid (JsMap.values (polls s0)) s0)
      as (_ & _ & Hkept).
    destruct (Hkept r poll L) as (poll'' & L'' & Hq & _).
    assert (poll'' = poll') by congruence. subst poll''.
    exists poll'. split.
    { simpl. unfold disconnect. fold s s0.
      destruct (detach_from sid (JsMap.values (polls s0)) s0) as [s1 out].
      exact L'. }
    rewrite Hst. split.
    { apply JsMap_has_delete. exact (Forall_lookup_1 _ _ _ _ Hu L). }
    split; [apply JsMap_size_delete | exact Hq].
  - intros s e r poll He L. destruct e; try destruct He; simpl.
    + destruct (disconnect_kept sid (set_sockets (sockets s ∖ {[sid]}) s))
        as (_ & _ & Hkept).
      destruct (Hkept r poll L) as (poll' & L' & Hq & _). eauto.
    + destruct (teacher_removeStudent_kept sid pollId studentId s)
        as (_ & _ & Hkept).
      destruct (Hkept r poll L) as (poll' & L' & Hq & _). eauto.
Qed.

Lemma roster_removal_keeps_answers_witness :
  exists poll q kicked departed,
    heap (run_state ann_answered initial) !! 0 = Some poll
    /\ currentQuestion poll = Some q
    /\ q_totalAnswers q = 1
    /\ JsMap.size (students poll) = 2
    /\ heap (fst (step (run_state ann_answered initial)
                    (RemoveStudent "T" (Some "abc123") "A"))) !! 0 = Some kicked
    /\ JsMap.has "A" (students kicked) = false
    /\ JsMap.size (students kicked) + 1 = 2
    /\ currentQuestion kicked = Some q
    /\ heap (fst (step (run_state ann_answered initial) (Disconnect "A"))) !! 0
       = Some departed
    /\ JsMap.has "A" (students departed) = false
    /\ JsMap.size (students departed) + 1 = 2
    /\ currentQuestion departed = Some q.
Proof.
  destruct roster_removal_keeps_answers as [Hremove [Hleave _]].
  edestruct (Hremove ann_answered "T" (Some "abc123") "A" 0)
    as (kicked & Lk & Hk & Sk & Qk).
  { vm_compute. reflexivity. }
  { reflexivity. }
  { reflexivity. }
  edestruct (Hleave ann_answered "A" "abc123" 0) as (departed & Ll & Hl & Sl & Ql).
  { vm_compute. reflexivity. }
  eexists _, _, kicked, departed.
  split; [vm_compute; reflexivity|]. split; [reflexivity|].
  split; [reflexivity|]. split; [reflexivity|].
  split; [exact Lk|]. split; [exact Hk|]. split; [exact Sk|].
  split; [exact Qk|].
  split; [exact Ll|]. split; [exact Hl|].
  split; [apply Sl; reflexivity|]. exact Ql.
Defined.

(** ** Timers (C2) *)

Lemma timer_refs_allocated_reachable evs :
  heap_inv timer_refs_allocated (run_state evs initial).
Proof.
  apply (reachable_heap_inv timer_refs_allocated); unfold timer_refs_allocated.
  - intros n p Hp q t Q T. specialize (Hp q t Q T). lia.
  - intros n id q t Q. discriminate.
  - intros n t p Hp. exact Hp.
  - intros n sid st p Hp. exact Hp.
  - intros n sid p Hp. exact Hp.
  - intros text options durationSec questionId optionIds now n p _ q t Q T.
    simpl in Q. inversion Q; subst q. simpl in T. inversion T. lia.
  - intros n sid optionId p q0 Hp Q0 _ _ _ q t Q T.
    simpl in Q. inversion Q; subst q. simpl in T. eauto.
  - intros n entry p _ q t Q. discriminate.
Qed.

Lemma step_kept s e : keeps_questions e -> questions_kept s (fst (step s e)).
Proof.
  destruct e; simpl; intros He; try destruct He.
  - by apply questions_kept_same_heap.
  - eapply questions_kept_trans; [|apply disconnect_kept].
    by apply questions_kept_same_heap.
  - apply createPoll_kept.
  - apply teacher_init_kept.
  - apply student_init_kept.
  - apply teacher_removeStudent_kept.
  - apply chat_send_kept.
Qed.

Lemma endQuestion_disarmed t r reason now s :
  disarmed t s -> disarmed t (fst (endQuestion r reason now s)).
Proof.
  intros [Hd Hn]. unfold endQuestion.
  destruct (heap s !! r) as [poll|]; [|by split].
  destruct (currentQuestion poll) as [q|]; [|by split].
  split; [|exact Hn]. simpl.
  destruct (_timerRef q) as [t'|]; simpl; [|exact Hd].
  rewrite lookup_delete_None. by right.
Qed.

Lemma step_disarmed t s e : disarmed t s -> disarmed t (fst (step s e)).
Proof.
  intros [Hd Hn].
  destruct e;
    try (match goal with
         | |- context [step s ?e] =>
             destruct (step_kept s e I) as (Ht & Hnext & _)
         end;
         split; [rewrite Ht; exact Hd | rewrite Hnext; exact Hn]).
  - simpl. unfold teacher_askQuestion.
    destruct (polls_get_opt pollId s) as [[r p]|]; [|by split].
    destruct (negb (is_teacher sid p)); [by split|].
    destruct (negb (canAskNewQuestion p)); [by split|].
    split; simpl; [|lia]. rewrite lookup_insert_ne by lia. exact Hd.
  - simpl. unfold student_submit.
    destruct (resolve_sender_poll sid pollId s) as [[r p]|]; [|by split].
    destruct (currentQuestion p) as [q|]; [|by split].
    destruct (negb (q_id q =? questionId)%string || negb (is_active q));
      [by split|].
    destruct (bool_decide (sid ∈ answeredBy q)); [by split|].
    destruct (find_option optionId (q_options q)); [|by split].
    match goal with |- context [if ?c then _ else _] => destruct c end;
      [|by split].
    match goal with
    | |- context [endQuestion r "all_answered" now ?s1] =>
        pose proof (endQuestion_disarmed t r "all_answered" now s1) as E;
        destruct (endQuestion r "all_answered" now s1) as [s2 out]
    end.
    apply E. by split.
  - simpl. unfold teacher_endQuestion.
    destruct (polls_get_opt pollId s) as [[r p]|]; [|by split].
    destruct (negb (is_teacher sid p)); [by split|].
    apply endQuestion_disarmed. by split.
  - simpl. unfold timer_fire.
    destruct (timers s !! t0) as [r|]; [|by split].
    apply endQuestion_disarmed. split; [|exact Hn]. simpl.
    rewrite lookup_delete_None. by right.
Qed.

Lemma run_disarmed t evs : forall s, disarmed t s -> disarmed t (run_state evs s).
Proof.
  unfold run_state.
  induction evs as [|e evs IH]; intros s H; simpl; [exact H|].
  pose proof (step_disarmed t s e H) as S1.
  destruct (step s e) as [s1 out1].
  specialize (IH s1 S1). destruct (run evs s1) as [s2 out2]. exact IH.
Qed.

Lemma endQuestion_next_timer r reason now s :
  next_timer (fst (endQuestion r reason now s)) = next_timer s.
Proof.
  unfold endQuestion.
  destruct (heap s !! r) as [poll|]; [|reflexivity].
  destruct (currentQuestion poll); reflexivity.
Qed.

Lemma step_next_timer s e : next_timer s <= next_timer (fst (step s e)).
Proof.
  destruct e;
    try (match goal with
         | |- context [step s ?e] =>
             destruct (step_kept s e I) as (_ & Hnext & _)
         end;
         rewrite Hnext; lia).
  - simpl. unfold teacher_askQuestion.
    destruct (polls_get_opt pollId s) as [[r p]|]; [|done].
    destruct (negb (is_teacher sid p)); [done|].
    destruct (negb (canAskNewQuestion p)); [done|]. simpl. lia.
  - simpl. unfold student_submit.
    destruct (resolve_sender_poll sid pollId s) as [[r p]|]; [|done].
    destruct (currentQuestion p) as [q|]; [|done].
    destruct (negb (q_id q =? questionId)%string || negb (is_active q)); [done|].
    destruct (bool_decide (sid ∈ answeredBy q)); [done|].
    destruct (find_option optionId (q_options q)); [|done].
    match goal with |- context [if ?c then _ else _] => destruct c end; [|done].
    match goal with
    | |- context [endQuestion r "all_answered" now ?s1] =>
        pose proof (endQuestion_next_timer r "all_answered" now s1) as E;
        destruct (endQuestion r "all_answered" now s1) as [s2 out]
    end.
    simpl in *. lia.
  - simpl. unfold teacher_endQuestion.
    destruct (polls_get_opt pollId s) as [[r p]|]; [|done].
    destruct (negb (is_teacher sid p)); [done|].
    by rewrite endQuestion_next_timer.
  - simpl. unfold timer_fire.
    destruct (timers s !! t) as [r|]; [|done].
    by rewrite endQuestion_next_timer.
Qed.

(** [endQuestion] disarms the timer of the question it finishes. *)
Lemma endQuestion_finish_disarms r0 reason now s r poll q t poll' :
  heap s !! r = Some poll ->
  currentQuestion poll = Some q ->
  _timerRef q = Some t ->
  heap (fst (endQuestion r0 reason now s)) !! r = Some poll' ->
  currentQuestion poll' = None ->
  timers (fst (endQuestion r0 reason now s)) !! t = None.
Proof.
  intros L Q T. unfold endQuestion.
  destruct (heap s !! r0) as [poll0|] eqn:L0; [|simpl; congruence].
  destruct (currentQuestion poll0) as [q0|] eqn:Q0; [|simpl; congruence].
  simpl. destruct (decide (r0 = r)) as [->|Hne].
  - assert (poll0 = poll) by congruence. subst poll0.
    assert (q0 = q) by congruence. subst q0.
    intros _ _. rewrite T. apply clearTimeout_lookup.
  - rewrite list_lookup_insert_ne by assumption. congruence.
Qed.

(** A step after which a poll has lost its current question has disarmed
    that question's timer. *)
Lemma step_finish_disarms s e r poll q t poll' :
  heap s !! r = Some poll ->
  currentQuestion poll = Some q ->
  _timerRef q = Some t ->
  heap (fst (step s e)) !! r = Some poll' ->
  currentQuestion poll' = None ->
  timers (fst (step s e)) !! t = None.
Proof.
  intros L Q T.
  destruct e;
    try (match goal with
         | |- context [step s ?e] =>
             destruct (step_kept s e I) as (_ & _ & Hkept)
         end;
         destruct (Hkept r poll L) as (p' & L' & Hq & _);
         intros L1 Q1; congruence).
  - simpl. unfold teacher_askQuestion.
    destruct (polls_get_opt pollId s) as [[r0 p0]|] eqn:G; [|simpl; congruence].
    destruct (negb (is_teacher sid p0)); [simpl; congruence|].
    destruct (negb (canAskNewQuestion p0)); [simpl; congruence|].
    simpl. rewrite list_insert_insert_eq.
    destruct (decide (r0 = r)) as [->|Hne].
    + rewrite list_lookup_insert_eq by (by eapply lookup_lt_Some).
      intros H1 Q1. inversion H1; subst poll'. discriminate.
    + rewrite list_lookup_insert_ne by assumption. congruence.
  - simpl. unfold student_submit.
    destruct (resolve_sender_poll sid pollId s) as [[r0 p0]|] eqn:G;
      [|simpl; congruence].
    destruct (currentQuestion p0) as [q0|] eqn:Q0; [|simpl; congruence].
    destruct (negb (q_id q0 =? questionId)%string || negb (is_active q0));
      [simpl; congruence|].
    destruct (bool_decide (sid ∈ answeredBy q0)); [simpl; congruence|].
    destruct (find_option optionId (q_options q0)); [|simpl; congruence].
    pose proof (resolve_sender_poll_lookup _ _ _ _ _ G) as L0.
    match goal with |- context [if ?c then _ else _] => destruct c end.
    + match goal with
      | |- context [endQuestion r0 "all_answered" now ?s1] =>
          pose proof (endQuestion_finish_disarms r0 "all_answered" now s1 r)
            as E;
          destruct (endQuestion r0 "all_answered" now s1) as [s2 out]
      end.
      simpl in *. destruct (decide (r0 = r)) as [->|Hne].
      * assert (p0 = poll) by congruence. subst p0.
        assert (q0 = q) by congruence. subst q0.
        eapply E; [apply list_lookup_insert_eq; by eapply lookup_lt_Some | |].
        -- reflexivity.
        -- exact T.
      * eapply E; [rewrite list_lookup_insert_ne by assumption; exact L | |];
          eassumption.
    + simpl. destruct (decide (r0 = r)) as [->|Hne].
      * rewrite list_lookup_insert_eq by (by eapply lookup_lt_Some).
        intros H1 Q1. inversion H1; subst poll'. discriminate.
      * rewrite list_lookup_insert_ne by assumption. congruence.
  - simpl. unfold teacher_endQuestion.
    destruct (polls_get_opt pollId s) as [[r0 p0]|]; [|simpl; congruence].
    destruct (negb (is_teacher sid p0)); [simpl; congruence|].
    by eapply endQuestion_finish_disarms.
  - simpl. unfold timer_fire.
    destruct (timers s !! t0) as [r0|]; [|simpl; congruence].
    by eapply endQuestion_finish_disarms.
Qed.

(** C2, as stated, fails: the second question replaced [q1] while [q1]'s
    timer (timer 0, armed at 1000 for 10 seconds) stayed armed; when that
    timer fires, its callback finishes [q2], asked at 3000 for 20 seconds
    and now the poll's current question, with reason [timeout]. *)
Lemma stale_timer_finishes_new_question :
  exists p1 q1 p2 q2 p3 entry,
    heap (run_state bo_left initial) !! 0 = Some p1
    /\ currentQuestion p1 = Some q1
    /\ q_id q1 = "q1" /\ _timerRef q1 = Some 0
    /\ heap (run_state (bo_left ++ [ask_second]) initial) !! 0 = Some p2
    /\ currentQuestion p2 = Some q2
    /\ q_id q2 = "q2" /\ _timerRef q2 = Some 1
    /\ heap (fst (step (run_state (bo_left ++ [ask_second]) initial)
                    (TimerFire 0 11000))) !! 0 = Some p3
    /\ currentQuestion p3 = None
    /\ pastQuestions p3 = [entry]
    /\ jget "questionId" entry = Some (JStr "q2")
    /\ jget "reason" entry = Some (JStr "timeout")
    /\ map event (snd (step (run_state (bo_left ++ [ask_second]) initial)
                         (TimerFire 0 11000)))
       = ["questionFinished"].
Proof.
  vm_compute. eexists _, _, _, _, _, _. repeat split; reflexivity.
Qed.

(** C2, amended: once a question has been finished (a step left its poll
    without current question), the timeout armed for it is disarmed, and in
    every later state the firing of that timer changes nothing and sends
    nothing.  The protection is the [clearTimeout] of [endQuestion]; the
    callback itself compares no identities. *)
Theorem finished_question_timer_never_fires :
  forall evs e r poll q t poll' evs' now,
    heap (run_state evs initial) !! r = Some poll ->
    currentQuestion poll = Some q ->
    _timerRef q = Some t ->
    heap (fst (step (run_state evs initial) e)) !! r = Some poll' ->
    currentQuestion poll' = None ->
    step (run_state evs' (fst (step (run_state evs initial) e))) (TimerFire t now)
    = (run_state evs' (fst (step (run_state evs initial) e)), []).
Proof.
  intros evs e r poll q t poll' evs' now L Q T L' Q'.
  assert (D : disarmed t (fst (step (run_state evs initial) e))).
  { split.
    - by eapply step_finish_disarms.
    - pose proof (heap_inv_lookup _ _ _ _ (timer_refs_allocated_reachable evs) L
                    q t Q T) as Hlt.
      pose proof (step_next_timer (run_state evs initial) e). lia. }
  destruct (run_disarmed t evs' _ D) as [Hnone _].
  simpl. unfold timer_fire. by rewrite Hnone.
Qed.

Lemma finished_question_timer_never_fires_witness :
  step (run_state [ask_second]
          (fst (step (run_state ann_answered initial)
                  (EndQuestion "T" (Some "abc123") 2500))))
    (TimerFire 0 11000)
  = (run_state [ask_second]
       (fst (step (run_state ann_answered initial)
               (EndQuestion "T" (Some "abc123") 2500))), []).
Proof.
  eapply (finished_question_timer_never_fires ann_answered
            (EndQuestion "T" (Some "abc123") 2500) 0).
  - vm_compute. reflexivity.
  - reflexivity.
  - reflexivity.
  - vm_compute. reflexivity.
  - reflexivity.
Defined.

(** * Further properties of the server *)

(** ** The registry of polls *)

Section JsMapLookup.
Context {V : Type}.
Implicit Types (m : list (string * V)) (k : string).

Lemma JsMap_get_set_eq k v m : JsMap.get k (JsMap.set k v m) = Some v.
Proof.
  induction m as [|[k' v'] m IH]; simpl.
  - by rewrite String.eqb_refl.
  - destruct (String.eqb_spec k k') as [->|Hne]; simpl.
    + by rewrite String.eqb_refl.
    + destruct (String.eqb_spec k k'); [congruence|exact IH].
Qed.

Lemma JsMap_get_set_ne k k' v m :
  k <> k' -> JsMap.get k' (JsMap.set k v m) = JsMap.get k' m.
Proof.
  intros Hne. induction m as [|[k0 v0] m IH]; simpl.
  - destruct (String.eqb_spec k' k); [congruence|reflexivity].
  - destruct (String.eqb_spec k k0) as [->|Hne0]; simpl.
    + destruct (String.eqb_spec k' k0); [congruence|reflexivity].
    + by rewrite IH.
Qed.


Lemma JsMap_delete_head k v m : JsMap.delete k ((k, v) :: m) = m.
Proof. simpl. by rewrite String.eqb_refl. Qed.

Lemma JsMap_has_get k m : JsMap.has k m = true <-> is_Some (JsMap.get k m).
Proof.
  unfold JsMap.has. destruct (JsMap.get k m); split; eauto; try discriminate.
  intros [x Hx]. discriminate.
Qed.
End JsMapLookup.

Lemma registry_kept_refl s : registry_kept s s.
Proof. by split. Qed.

Lemma registry_kept_trans s1 s2 s3 :
  registry_kept s1 s2 -> registry_kept s2 s3 -> registry_kept s1 s3.
Proof. intros [A1 B1] [A2 B2]. split; congruence. Qed.

Lemma registry_kept_store r p s : registry_kept s (store r p s).
Proof. split; [reflexivity|]. simpl. apply length_insert. Qed.

Lemma endQuestion_registry r reason now s :
  registry_kept s (fst (endQuestion r reason now s)).
Proof.
  unfold endQuestion.
  destruct (heap s !! r) as [poll|]; [|apply registry_kept_refl].
  destruct (currentQuestion poll); [|apply registry_kept_refl].
  split; [reflexivity|]. simpl. apply length_insert.
Qed.

Lemma attach_waiting_registry r ws :
  forall s, registry_kept s (fst (attach_waiting r ws s)).
Proof.
  induction ws as [|[sid name] ws IH]; intros s; simpl;
    [apply registry_kept_refl|].
  destruct (bool_decide (sid ∈ sockets s)).
  - destruct (heap s !! r) as [poll|]; [|apply registry_kept_refl].
    match goal with
    | |- context [attach_waiting r ws ?s1] =>
        specialize (IH s1); destruct (attach_waiting r ws s1) as [s3 out]
    end.
    eapply registry_kept_trans; [|exact IH].
    split; [reflexivity|]. simpl. apply length_insert.
  - eapply registry_kept_trans; [|apply IH]. by split.
Qed.

Lemma detach_from_registry sid rs :
  forall s, registry_kept s (fst (detach_from sid rs s)).
Proof.
  induction rs as [|r rs IH]; intros s; [apply registry_kept_refl|].
  destruct (heap s !! r) as [poll|] eqn:L.
  - destruct (detach_from_cons sid r rs s poll L) as (poll2 & active & -> & _).
    eapply registry_kept_trans; [|apply IH].
    split; [reflexivity|]. simpl. apply length_insert.
  - simpl. rewrite L. apply IH.
Qed.

Lemma createPoll_registry uuid s :
  registry_grown (slice0 6 uuid) s (fst (createPoll uuid s)).
Proof. split; [reflexivity|]. simpl. rewrite length_app. simpl. lia. Qed.

(** Each step keeps the registry, except that [POST /api/polls] and a
    [teacher:init] that finds no poll add one poll object to it. *)
Lemma step_registry_cases s e :
  match e with
  | CreatePollRequest uuid =>
      registry_grown (slice0 6 uuid) s (fst (step s e))
  | TeacherInit _ pollId uuid =>
      match polls_get_truthy pollId s with
      | Some _ => registry_kept s (fst (step s e))
      | None => registry_grown (slice0 6 uuid) s (fst (step s e))
      end
  | _ => registry_kept s (fst (step s e))
  end.
Proof.
  destruct e; simpl.
  - by split.
  - unfold disconnect.
    match goal with
    | |- context [detach_from ?sid ?rs ?s1] =>
        pose proof (detach_from_registry sid rs s1) as D;
        destruct (detach_from sid rs s1) as [s2 out]
    end.
    destruct D as [D1 D2]. split; [exact D1 | exact D2].
  - apply createPoll_registry.
  - unfold teacher_init.
    destruct (polls_get_truthy pollId s) as [[r p]|].
    + match goal with
      | |- context [attach_waiting ?r ?ws ?s1] =>
          pose proof (attach_waiting_registry r ws s1) as A;
          destruct (attach_waiting r ws s1) as [s3 out]
      end.
      destruct A as [A1 A2]. split; [exact A1|].
      simpl in *. rewrite A2. apply length_insert.
    + destruct (createPoll uuid s) as [s' r] eqn:E.
      unfold createPoll in E. inversion E; subst s' r. clear E.
      match goal with
      | |- context [attach_waiting ?r ?ws ?s1] =>
          pose proof (attach_waiting_registry r ws s1) as A;
          destruct (attach_waiting r ws s1) as [s3 out]
      end.
      destruct A as [A1 A2]. split; [exact A1|].
      simpl in *. rewrite A2, length_insert, length_app. simpl. lia.
  - unfold student_init.
    destruct (resolve_student_poll pollId s) as [[r p]|];
      [apply registry_kept_store | by split].
  - unfold teacher_askQuestion.
    destruct (polls_get_opt pollId s) as [[r p]|]; [|apply registry_kept_refl].
    destruct (negb (is_teacher sid p)); [apply registry_kept_refl|].
    destruct (negb (canAskNewQuestion p)); [apply registry_kept_refl|].
    split; [reflexivity|]. simpl. by rewrite !length_insert.
  - unfold student_submit.
    destruct (resolve_sender_poll sid pollId s) as [[r p]|];
      [|apply registry_kept_refl].
    destruct (currentQuestion p) as [q|]; [|apply registry_kept_refl].
    destruct (negb (q_id q =? questionId)%string || negb (is_active q));
      [apply registry_kept_refl|].
    destruct (bool_decide (sid ∈ answeredBy q)); [apply registry_kept_refl|].
    destruct (find_option optionId (q_options q)); [|apply registry_kept_refl].
    match goal with |- context [if ?c then _ else _] => destruct c end;
      [|apply registry_kept_store].
    match goal with
    | |- context [endQuestion r "all_answered" now ?s1] =>
        pose proof (endQuestion_registry r "all_answered" now s1) as E;
        destruct (endQuestion r "all_answered" now s1) as [s2 out]
    end.
    eapply registry_kept_trans; [apply registry_kept_store | exact E].
  - unfold teacher_endQuestion.
    destruct (polls_get_opt pollId s) as [[r p]|]; [|apply registry_kept_refl].
    destruct (negb (is_teacher sid p)); [apply registry_kept_refl|].
    apply endQuestion_registry.
  - unfold teacher_removeStudent.
    destruct (polls_get_opt pollId s) as [[r p]|]; [|apply registry_kept_refl].
    destruct (negb (is_teacher sid p)); [apply registry_kept_refl|].
    destruct (JsMap.has studentId (students p));
      [apply registry_kept_store | apply registry_kept_refl].
  - unfold chat_send.
    destruct (resolve_sender_poll sid pollId s) as [[r p]|];
      apply registry_kept_refl.
  - unfold timer_fire.
    destruct (timers s !! t) as [r|]; [|apply registry_kept_refl].
    eapply registry_kept_trans; [|apply endQuestion_registry]. by split.
Qed.

Lemma step_registry s e :
  registry_kept s (fst (step s e))
  \/ exists id, registry_grown id s (fst (step s e)).
Proof.
  pose proof (step_registry_cases s e) as H.
  destruct e; eauto.
  destruct (polls_get_truthy pollId s); eauto.
Qed.

Lemma JsMap_values_set (k : string) (r : nat) (m : list (string * nat)) x :
  x ∈ JsMap.values (JsMap.set k r m) -> x = r \/ x ∈ JsMap.values m.
Proof.
  unfold JsMap.values.
  induction m as [|[k' v'] m IH]; simpl.
  - intros H. apply list_elem_of_singleton in H. by left.
  - destruct (String.eqb_spec k k') as [->|Hne]; simpl; intros H;
      apply elem_of_cons in H as [->|H]; auto.
    + right. by apply list_elem_of_further.
    + right. apply list_elem_of_here.
    + destruct (IH H); auto. right. by apply list_elem_of_further.
Qed.

Lemma JsMap_values_set_NoDup (k : string) (r : nat) (m : list (string * nat)) :
  r ∉ JsMap.values m ->
  NoDup (JsMap.values m) -> NoDup (JsMap.values (JsMap.set k r m)).
Proof.
  unfold JsMap.values.
  induction m as [|[k' v'] m IH]; simpl; intros Hr Hm.
  - apply NoDup_singleton.
  - apply NoDup_cons in Hm as [Hv Hm]. apply not_elem_of_cons in Hr as [Hr1 Hr2].
    destruct (String.eqb_spec k k') as [->|Hne]; simpl.
    + apply NoDup_cons. auto.
    + apply NoDup_cons. split; [|auto].
      intros Hin. apply (JsMap_values_set k r m) in Hin as [->|Hin]; auto.
Qed.

Lemma polls_wf_step s e : polls_wf s -> polls_wf (fst (step s e)).
Proof.
  intros [Hnd Hlt].
  destruct (step_registry s e) as [[Hp Hl]|(id & Hp & Hl)];
    unfold polls_wf; rewrite Hp, Hl.
  - by split.
  - split.
    + apply JsMap_values_set_NoDup; [|exact Hnd].
      intros Hin. pose proof (proj1 (Forall_forall _ _) Hlt _ Hin). simpl in *. lia.
    + apply Forall_forall. intros x Hx.
      apply JsMap_values_set in Hx as [->|Hx]; [lia|].
      pose proof (proj1 (Forall_forall _ _) Hlt _ Hx). simpl in *. lia.
Qed.

Lemma polls_wf_reachable evs : polls_wf (run_state evs initial).
Proof.
  assert (G : forall s, polls_wf s -> polls_wf (run_state evs s)).
  { unfold run_state. induction evs as [|e evs IH]; intros s H; simpl; [exact H|].
    pose proof (polls_wf_step s e H) as S1.
    destruct (step s e) as [s1 out1].
    specialize (IH s1 S1). destruct (run evs s1) as [s2 out2]. exact IH. }
  apply G. split; [constructor | constructor].
Qed.

Lemma polls_wf_get_lookup s id r :
  polls_wf s -> JsMap.get id (polls s) = Some r -> is_Some (heap s !! r).
Proof.
  intros [_ Hlt] G. apply lookup_lt_is_Some.
  apply (proj1 (Forall_forall _ _) Hlt). apply list_elem_of_In.
  by eapply JsMap_get_value.
Qed.

(** X1: in every state the server reaches, [createPoll] registers a new,
    empty poll under the first six characters of the uuid: [polls.get] of
    that id yields the new object (the one [createPoll] returns), also when
    the id was in use before, in which case the earlier poll is no longer
    found under it; every other id resolves as before and no existing poll
    object changes. *)
Theorem createPoll_registers_empty_poll :
  forall evs uuid,
    polls_get (slice0 6 uuid) (fst (createPoll uuid (run_state evs initial)))
    = Some (snd (createPoll uuid (run_state evs initial)),
            new_poll (slice0 6 uuid))
    /\ heap (run_state evs initial) !! snd (createPoll uuid (run_state evs initial))
       = None
    /\ (forall id,
           id <> slice0 6 uuid ->
           polls_get id (fst (createPoll uuid (run_state evs initial)))
           = polls_get id (run_state evs initial))
    /\ (forall r p,
           heap (run_state evs initial) !! r = Some p ->
           heap (fst (createPoll uuid (run_state evs initial))) !! r = Some p).
Proof.
  intros evs uuid. pose proof (polls_wf_reachable evs) as Hwf.
  set (s := run_state evs initial) in *.
  split; [|split; [|split]].
  - unfold polls_get. simpl. rewrite JsMap_get_set_eq. simpl.
    rewrite list_lookup_middle by reflexivity. reflexivity.
  - simpl. apply lookup_ge_None. lia.
  - intros id Hne. unfold polls_get. simpl.
    rewrite JsMap_get_set_ne by congruence.
    destruct (JsMap.get id (polls s)) as [r|] eqn:G; simpl; [|reflexivity].
    destruct (polls_wf_get_lookup s id r Hwf G) as [p L].
    rewrite lookup_app_l by (by eapply lookup_lt_Some). reflexivity.
  - intros r p L. simpl. rewrite lookup_app_l by (by eapply lookup_lt_Some).
    exact L.
Qed.

(** ** Finding a poll without its id *)

(** X2: [getLatestActivePoll] returns the last poll of [polls], in insertion
    order, that has a teacher: the poll it returns has one and no poll after
    it has; it returns nothing exactly when no poll of the map has a
    teacher. *)
Theorem getLatestActivePoll_is_last_with_teacher :
  forall s,
    match getLatestActivePoll s with
    | Some (r, p) =>
        heap s !! r = Some p
        /\ truthy (teacherSocketId p) = true
        /\ exists before after,
            JsMap.values (polls s) = (before ++ r :: after)%list
            /\ forall r' p',
                r' ∈ after -> heap s !! r' = Some p' ->
                truthy (teacherSocketId p') = false
    | None =>
        forall r p,
          r ∈ JsMap.values (polls s) -> heap s !! r = Some p ->
          truthy (teacherSocketId p) = false
    end.
Proof.
  intros s. unfold getLatestActivePoll.
  induction (JsMap.values (polls s)) as [|x l IH] using rev_ind.
  { simpl. intros r p Hin. by apply elem_of_nil in Hin. }
  rewrite fold_left_app. simpl.
  destruct (heap s !! x) as [px|] eqn:Lx.
  - destruct (truthy (teacherSocketId px)) eqn:Tx.
    + split; [exact Lx|]. split; [exact Tx|].
      exists l, []. split; [reflexivity|].
      intros r' p' Hin. by apply elem_of_nil in Hin.
    + match type of IH with
      | match ?g with _ => _ end => destruct g as [[r p]|]
      end.
      * destruct IH as (L & T & before & after & Hl & Hafter).
        split; [exact L|]. split; [exact T|].
        exists before, (after ++ [x])%list. split.
        { rewrite Hl. by rewrite <- app_assoc. }
        intros r' p' Hin L'. apply elem_of_app in Hin as [Hin|Hin]; [eauto|].
        apply list_elem_of_singleton in Hin. subst r'. congruence.
      * intros r p Hin L. apply elem_of_app in Hin as [Hin|Hin]; [eauto|].
        apply list_elem_of_singleton in Hin. subst r. congruence.
  - match type of IH with
    | match ?g with _ => _ end => destruct g as [[r p]|]
    end.
    + destruct IH as (L & T & before & after & Hl & Hafter).
      split; [exact L|]. split; [exact T|].
      exists before, (after ++ [x])%list. split.
      { rewrite Hl. by rewrite <- app_assoc. }
      intros r' p' Hin L'. apply elem_of_app in Hin as [Hin|Hin]; [eauto|].
      apply list_elem_of_singleton in Hin. subst r'. congruence.
    + intros r p Hin L. apply elem_of_app in Hin as [Hin|Hin]; [eauto|].
      apply list_elem_of_singleton in Hin. subst r. congruence.
Qed.

(** X3: [findPollByStudentSocket] returns the first poll of [polls], in
    insertion order, whose roster holds the socket: the poll it returns holds
    it and no poll before it does; it returns nothing exactly when no roster
    of the map holds the socket. *)
Theorem findPollByStudentSocket_is_first_with_student :
  forall sid s,
    match findPollByStudentSocket sid s with
    | Some (r, p) =>
        heap s !! r = Some p
        /\ JsMap.has sid (students p) = true
        /\ exists before after,
            JsMap.values (polls s) = (before ++ r :: after)%list
            /\ forall r' p',
                r' ∈ before -> heap s !! r' = Some p' ->
                JsMap.has sid (students p') = false
    | None =>
        forall r p,
          r ∈ JsMap.values (polls s) -> heap s !! r = Some p ->
          JsMap.has sid (students p) = false
    end.
Proof.
  intros sid s. unfold findPollByStudentSocket.
  set (f := fun r : nat =>
              p ← heap s !! r;
              if JsMap.has sid (students p) then Some (r, p) else None).
  assert (Hsome : forall x r p,
             f x = Some (r, p) ->
             x = r /\ heap s !! r = Some p /\ JsMap.has sid (students p) = true).
  { intros x r p. unfold f. destruct (heap s !! x) as [px|] eqn:Lx; simpl;
      [|discriminate].
    destruct (JsMap.has sid (students px)) eqn:Hx; [|discriminate].
    intros H. inversion H; subst. auto. }
  assert (Hnone : forall x p,
             f x = None -> heap s !! x = Some p ->
             JsMap.has sid (students p) = false).
  { intros x p. unfold f. intros H L. rewrite L in H. simpl in H.
    by destruct (JsMap.has sid (students p)). }
  clearbody f.
  induction (JsMap.values (polls s)) as [|x l IH].
  { simpl. intros r p Hin. by apply elem_of_nil in Hin. }
  simpl. destruct (f x) as [[r p]|] eqn:Fx; simpl.
  - destruct (Hsome x r p Fx) as (-> & L & T).
    split; [exact L|]. split; [exact T|].
    exists [], l. split; [reflexivity|].
    intros r' p' Hin. by apply elem_of_nil in Hin.
  - change (list_omap nat (nat * Poll)%type f l) with (omap f l).
    destruct (head (omap f l)) as [[r p]|].
    + destruct IH as (L & T & before & after & Hl & Hbefore).
      split; [exact L|]. split; [exact T|].
      exists (x :: before), after. split; [by rewrite Hl|].
      intros r' p' Hin L'. apply elem_of_cons in Hin as [->|Hin]; eauto.
    + intros r p Hin L. apply elem_of_cons in Hin as [->|Hin]; eauto.
Qed.

Lemma findPollByStudentSocket_none sid s :
  (forall r p,
      r ∈ JsMap.values (polls s) -> heap s !! r = Some p ->
      JsMap.has sid (students p) = false) ->
  findPollByStudentSocket sid s = None.
Proof.
  intros H.
  pose proof (findPollByStudentSocket_is_first_with_student sid s) as F.
  destruct (findPollByStudentSocket sid s) as [[r p]|]; [|reflexivity].
  destruct F as (L & T & before & after & Hl & _).
  rewrite (H r p) in T; [discriminate| |exact L].
  rewrite Hl. apply elem_of_app. right. apply list_elem_of_here.
Qed.

(** X4: a [student:submit] or a [chat:send] that carries no poll id (or an
    empty one), from a connection that is in the roster of no poll of the
    map, changes nothing and sends nothing: without a poll id the handlers
    find the poll through the rosters only. *)
Theorem no_poll_id_and_no_roster_is_silent :
  forall s sid pollId questionId optionId from message role uuid now,
    truthy pollId = false ->
    (forall r p,
        r ∈ JsMap.values (polls s) -> heap s !! r = Some p ->
        JsMap.has sid (students p) = false) ->
    student_submit sid pollId questionId optionId now s = (s, [])
    /\ chat_send sid pollId from message role uuid now s = (s, []).
Proof.
  intros s sid pollId questionId optionId from message role uuid now Hid Hno.
  assert (R : resolve_sender_poll sid pollId s = None).
  { destruct pollId as [[|c k]|]; simpl in *; try discriminate;
      by apply findPollByStudentSocket_none. }
  unfold student_submit, chat_send. by rewrite R.
Qed.

Lemma no_poll_id_and_no_roster_is_silent_witness :
  student_submit "B" None "q1" "q1-o0" 2500 (run_state bo_kicked initial)
  = (run_state bo_kicked initial, [])
  /\ chat_send "B" None (Some "Bo") (Some "hello") (Some "student") "m1" 2500
       (run_state bo_kicked initial)
     = (run_state bo_kicked initial, []).
Proof.
  apply no_poll_id_and_no_roster_is_silent.
  - reflexivity.
  - intros r p Hin L. vm_compute in Hin.
    apply list_elem_of_singleton in Hin. subst r.
    vm_compute in L. inversion L. reflexivity.
Defined.

(** ** Attaching a teacher *)

Lemma JsMap_has_set {V : Type} (k k' : string) (v : V) (m : list (string * V)) :
  JsMap.has k (JsMap.set k' v m) = (String.eqb k k' || JsMap.has k m)%bool.
Proof.
  unfold JsMap.has.
  destruct (String.eqb_spec k k') as [->|Hne]; simpl.
  - by rewrite JsMap_get_set_eq.
  - by rewrite JsMap_get_set_ne by congruence.
Qed.

(** What the loop of [teacher:init] over the waiting students does. *)
Lemma attach_waiting_effect r ws :
  forall s p,
    heap s !! r = Some p ->
    waitingStudents s = ws ->
    exists p',
      heap (fst (attach_waiting r ws s)) !! r = Some p'
      /\ waitingStudents (fst (attach_waiting r ws s)) = []
      /\ teacherSocketId p' = teacherSocketId p
      /\ p_id p' = p_id p
      /\ activePollId (fst (attach_waiting r ws s)) = activePollId s
      /\ polls (fst (attach_waiting r ws s)) = polls s
      /\ (forall k,
             JsMap.has k (students p') = true <->
             JsMap.has k (students p) = true
             \/ k ∈ sockets s /\ k ∈ map fst ws)
      /\ (forall k,
             k ∈ sockets s -> k ∈ map fst ws ->
             exists payload,
               emit_to k "student:ready" payload
                 ∈ snd (attach_waiting r ws s)).
Proof.
  induction ws as [|[sid name] ws IH]; intros s p L W.
  { exists p. simpl. split_and!; try done.
    - intros k. split; [by left|].
      intros [H|[_ H]]; [exact H|]. by apply elem_of_nil in H.
    - intros k _ H. by apply elem_of_nil in H. }
  simpl. destruct (bool_decide (sid ∈ sockets s)) eqn:Live.
  - apply bool_decide_eq_true in Live. rewrite L.
    set (p1 := set_students
                 (JsMap.set sid (mkStudent sid (normalize_name (Some name)))
                    (students p)) p).
    match goal with
    | |- context [attach_waiting r ws ?x] => set (s2 := x)
    end.
    destruct (IH s2 p1) as (p' & L' & W' & T' & I' & A' & P' & R' & O').
    { apply (store_lookup_eq _ _ _ _ L). }
    { subst s2. simpl. rewrite W. apply JsMap_delete_head. }
    destruct (attach_waiting r ws s2) as [s3 out]. subst s2 p1. simpl in *.
    exists p'. split_and!; try done.
    + intros k. split.
      * intros H. apply R' in H as [H|[H1 H2]].
        -- rewrite JsMap_has_set in H.
           apply orb_true_iff in H as [H|H]; [|by left].
           apply String.eqb_eq in H. subst k. right. split; [exact Live|].
           apply list_elem_of_here.
        -- right. split; [exact H1|]. by apply list_elem_of_further.
      * intros [H|[H1 H2]]; apply R'.
        -- left. rewrite JsMap_has_set, H. apply orb_true_r.
        -- apply elem_of_cons in H2 as [->|H2].
           ++ left. rewrite JsMap_has_set, String.eqb_refl. reflexivity.
           ++ right. by split.
    + intros k Hk Hin. apply elem_of_cons in Hin as [->|Hin].
      * eexists. apply list_elem_of_further, list_elem_of_here.
      * destruct (O' k Hk Hin) as [payload Hp]. exists payload.
        by do 2 apply list_elem_of_further.
  - apply bool_decide_eq_false in Live.
    match goal with
    | |- context [attach_waiting r ws ?x] => set (s2 := x)
    end.
    destruct (IH s2 p L) as (p' & L' & W' & T' & I' & A' & P' & R' & O').
    { subst s2. simpl. rewrite W. apply JsMap_delete_head. }
    subst s2. simpl in *. exists p'. split_and!; try done.
    + intros k. split.
      * intros H. apply R' in H as [H|[H1 H2]]; [by left|].
        right. split; [exact H1|]. by apply list_elem_of_further.
      * intros [H|[H1 H2]]; apply R'; [by left|].
        apply elem_of_cons in H2 as [->|H2]; [contradiction|]. right. by split.
    + intros k Hk Hin. apply elem_of_cons in Hin as [->|Hin]; [contradiction|].
      by apply O'.
Qed.

(** The poll that [teacher:init] resolves or creates, before the teacher is
    bound. *)
Lemma teacher_init_poll sid pollId uuid s :
  exists r p,
    (polls_get_truthy pollId s = Some (r, p)
     \/ polls_get_truthy pollId s = None
        /\ r = length (heap s) /\ p = new_poll (slice0 6 uuid))
    /\ exists p',
        heap (fst (teacher_init sid pollId uuid s)) !! r = Some p'
        /\ waitingStudents (fst (teacher_init sid pollId uuid s)) = []
        /\ teacherSocketId p' = Some sid
        /\ p_id p' = p_id p
        /\ currentQuestion p' = currentQuestion p
        /\ pastQuestions p' = pastQuestions p
        /\ activePollId (fst (teacher_init sid pollId uuid s)) = Some (p_id p)
        /\ (polls_get_truthy pollId s = Some (r, p) ->
            polls (fst (teacher_init sid pollId uuid s)) = polls s)
        /\ (forall k,
               JsMap.has k (students p') = true <->
               JsMap.has k (students p) = true
               \/ k ∈ sockets s /\ k ∈ map fst (waitingStudents s))
        /\ (forall k,
               k ∈ sockets s -> k ∈ map fst (waitingStudents s) ->
               exists payload,
                 emit_to k "student:ready" payload
                   ∈ snd (teacher_init sid pollId uuid s))
        /\ head (snd (teacher_init sid pollId uuid s))
           = Some (emit_to sid "teacher:ready"
                     (teacher_ready (set_teacherSocketId (Some sid) p))).
Proof.
  unfold teacher_init.
  destruct (polls_get_truthy pollId s) as [[r p]|] eqn:G.
  - exists r, p. split; [by left|].
    pose proof (polls_get_truthy_lookup _ _ _ _ G) as L.
    match goal with
    | |- context [attach_waiting r ?w ?x] => set (s2 := x)
    end.
    set (p1 := set_teacherSocketId (Some sid) p) in *.
    assert (L1 : heap s2 !! r = Some p1) by apply (store_lookup_eq _ _ _ _ L).
    destruct (attach_waiting_effect r (waitingStudents s2) s2 p1 L1 eq_refl)
      as (p' & L' & W' & T' & I' & A' & P' & R' & O').
    destruct (attach_waiting_kept r (waitingStudents s2) s2) as (_ & _ & K).
    destruct (K r p1 L1) as (p'' & L'' & Q'' & H'' & _).
    assert (p'' = p') by congruence. subst p''.
    destruct (attach_waiting r (waitingStudents s2) s2) as [s3 out].
    exists p'. split_and!; try done; try congruence.
    intros k Hk Hin. destruct (O' k Hk Hin) as [payload Hp].
    exists payload. by apply list_elem_of_further.
  - exists (length (heap s)), (new_poll (slice0 6 uuid)). split; [by right|].
    destruct (createPoll uuid s) as [s' r] eqn:E.
    unfold createPoll in E. inversion E; subst s' r. clear E.
    match goal with
    | |- context [attach_waiting _ _ ?x] => set (s2 := x)
    end.
    set (p1 := set_teacherSocketId (Some sid) (new_poll (slice0 6 uuid))) in *.
    assert (L1 : heap s2 !! length (heap s) = Some p1).
    { subst s2. simpl. apply list_lookup_insert_eq.
      rewrite length_app. simpl. lia. }
    destruct (attach_waiting_effect (length (heap s)) (waitingStudents s2) s2 p1
                L1 eq_refl)
      as (p' & L' & W' & T' & I' & A' & P' & R' & O').
    destruct (attach_waiting_kept (length (heap s)) (waitingStudents s2) s2)
      as (_ & _ & K).
    destruct (K _ p1 L1) as (p'' & L'' & Q'' & H'' & _).
    assert (p'' = p') by congruence. subst p''.
    destruct (attach_waiting (length (heap s)) (waitingStudents s2) s2)
      as [s3 out].
    exists p'. split_and!; try done; try congruence.
    intros k Hk Hin. destruct (O' k Hk Hin) as [payload Hp].
    exists payload. by apply list_elem_of_further.
Qed.

(** X5: [teacher:init] always binds the caller: afterwards the caller is the
    teacher of a poll, that poll is the active poll, and the first message
    is the [teacher:ready] to the caller that names the poll's id.  A poll id
    that [polls] knows re-binds that poll and keeps its question and its
    history, whoever its teacher was; any other request creates an empty
    poll under the first six characters of the fresh uuid. *)
Theorem teacher_init_binds_caller :
  forall s sid pollId uuid,
    exists r p' payload rest,
      heap (fst (teacher_init sid pollId uuid s)) !! r = Some p'
      /\ teacherSocketId p' = Some sid
      /\ activePollId (fst (teacher_init sid pollId uuid s)) = Some (p_id p')
      /\ snd (teacher_init sid pollId uuid s)
         = emit_to sid "teacher:ready" payload :: rest
      /\ jget "pollId" payload = Some (JStr (p_id p'))
      /\ match polls_get_truthy pollId s with
         | Some (r0, p) =>
             r = r0
             /\ p_id p' = p_id p
             /\ currentQuestion p' = currentQuestion p
             /\ pastQuestions p' = pastQuestions p
             /\ polls (fst (teacher_init sid pollId uuid s)) = polls s
         | None =>
             heap s !! r = None
             /\ p_id p' = slice0 6 uuid
             /\ currentQuestion p' = None
             /\ pastQuestions p' = []
         end.
Proof.
  intros s sid pollId uuid.
  destruct (teacher_init_poll sid pollId uuid s)
    as (r & p & Hp & p' & L' & W' & T' & I' & Q' & H' & A' & P' & R' & O' & M').
  destruct (snd (teacher_init sid pollId uuid s)) as [|m rest] eqn:E;
    [discriminate|].
  simpl in M'. inversion M'; subst m.
  exists r, p', (teacher_ready (set_teacherSocketId (Some sid) p)), rest.
  split; [exact L'|]. split; [exact T'|]. split; [congruence|].
  split; [reflexivity|]. split; [simpl; congruence|].
  destruct Hp as [G|(G & -> & ->)]; rewrite G.
  - split_and!; auto.
  - split_and!; auto. apply lookup_ge_None. lia.
Qed.


(** X7: after a [teacher:init] on a poll that [polls] knows, every other
    connection, the previous teacher included, is refused on that poll: its
    [teacher:askQuestion] gets [Not authorized] and changes nothing, and its
    [teacher:endQuestion] and [teacher:removeStudent] do nothing. *)
Theorem teacher_init_takes_over :
  forall s sid pollId uuid r p other text options durationSec questionId
         optionIds now studentId,
    polls_get_truthy pollId s = Some (r, p) ->
    other <> sid ->
    teacher_askQuestion other pollId text options durationSec questionId
      optionIds now (fst (teacher_init sid pollId uuid s))
    = (fst (teacher_init sid pollId uuid s),
       [error_message other "Not authorized"])
    /\ teacher_endQuestion other pollId now (fst (teacher_init sid pollId uuid s))
       = (fst (teacher_init sid pollId uuid s), [])
    /\ teacher_removeStudent other pollId studentId
         (fst (teacher_init sid pollId uuid s))
       = (fst (teacher_init sid pollId uuid s), []).
Proof.
  intros s sid pollId uuid r p other text options durationSec questionId
    optionIds now studentId G Hne.
  destruct (teacher_init_poll sid pollId uuid s)
    as (r1 & p1 & Hp & p' & L' & W' & T' & I' & Q' & H' & A' & P' & R' & O' & M').
  destruct Hp as [G1|(G1 & _)]; [|congruence].
  assert (r1 = r /\ p1 = p) as [-> ->] by (split; congruence).
  set (s' := fst (teacher_init sid pollId uuid s)) in *.
  assert (G' : polls_get_opt pollId s' = Some (r, p')).
  { destruct pollId as [[|c k]|]; simpl in G |- *; try discriminate.
    unfold polls_get in *. rewrite (P' G).
    destruct (JsMap.get (String c k) (polls s)) as [r0|]; simpl in *;
      [|discriminate].
    destruct (heap s !! r0) as [p0|]; simpl in *; [|discriminate].
    inversion G; subst. by rewrite L'. }
  assert (Hnot : is_teacher other p' = false).
  { unfold is_teacher. rewrite T'. by apply String.eqb_neq. }
  unfold teacher_askQuestion, teacher_endQuestion, teacher_removeStudent.
  rewrite G', Hnot. simpl. auto.
Qed.

Lemma teacher_init_takes_over_witness :
  teacher_askQuestion "T" (Some "abc123") (Some "3+3?") None None "q2"
    (option_ids "q2") 3000
    (fst (teacher_init "A" (Some "abc123") "ffffff-0000"
            (run_state ann_answered initial)))
  = (fst (teacher_init "A" (Some "abc123") "ffffff-0000"
            (run_state ann_answered initial)),
     [error_message "T" "Not authorized"])
  /\ teacher_endQuestion "T" (Some "abc123") 3000
       (fst (teacher_init "A" (Some "abc123") "ffffff-0000"
               (run_state ann_answered initial)))
     = (fst (teacher_init "A" (Some "abc123") "ffffff-0000"
               (run_state ann_answered initial)), [])
  /\ teacher_removeStudent "T" (Some "abc123") "B"
       (fst (teacher_init "A" (Some "abc123") "ffffff-0000"
               (run_state ann_answered initial)))
     = (fst (teacher_init "A" (Some "abc123") "ffffff-0000"
               (run_state ann_answered initial)), []).
Proof.
  eapply (teacher_init_takes_over _ "A" (Some "abc123") "ffffff-0000" 0).
  - vm_compute. reflexivity.
  - discriminate.
Defined.

(** ** Attaching a student *)

Lemma slice0_length n s : String.length (slice0 n s) <= n.
Proof.
  unfold slice0. revert s.
  induction n as [|n IH]; intros s; destruct s as [|c s]; simpl; try lia.
  specialize (IH s). lia.
Qed.

Lemma JsMap_set_has_key {V : Type} (k : string) (v : V) (m : list (string * V)) :
  k ∈ map fst (JsMap.set k v m).
Proof.
  induction m as [|[k' v'] m IH]; simpl.
  - apply list_elem_of_here.
  - destruct (String.eqb_spec k k') as [->|Hne]; simpl.
    + apply list_elem_of_here.
    + by apply list_elem_of_further.
Qed.

(** X8: a student who asks to join when no poll can be found is queued and
    told to wait: no poll object changes, the only message is a
    [student:waiting] to the student, and the name kept is at most 40
    characters long.  If the socket is still connected when the next
    [teacher:init] arrives, that handler puts the student into the roster of
    the teacher's poll, sends the student a [student:ready] and leaves the
    queue empty. *)
Theorem queued_student_joins_with_next_teacher :
  forall s sid pollId name tsid tpollId uuid,
    resolve_student_poll pollId s = None ->
    sid ∈ sockets s ->
    snd (student_init sid pollId name s)
    = [mkEmit (ToSocket sid) "student:waiting" None]
    /\ heap (fst (student_init sid pollId name s)) = heap s
    /\ (exists nm,
           JsMap.get sid (waitingStudents (fst (student_init sid pollId name s)))
           = Some nm
           /\ String.length nm <= 40)
    /\ waitingStudents
         (fst (teacher_init tsid tpollId uuid
                 (fst (student_init sid pollId name s)))) = []
    /\ exists r p' payload,
        heap (fst (teacher_init tsid tpollId uuid
                     (fst (student_init sid pollId name s)))) !! r = Some p'
        /\ teacherSocketId p' = Some tsid
        /\ JsMap.has sid (students p') = true
        /\ emit_to sid "student:ready" payload
             ∈ snd (teacher_init tsid tpollId uuid
                      (fst (student_init sid pollId name s))).
Proof.
  intros s sid pollId name tsid tpollId uuid Hnone Hlive.
  unfold student_init at 1 2 3. rewrite Hnone. simpl.
  split; [reflexivity|]. split; [reflexivity|]. split.
  { exists (normalize_name name). split; [apply JsMap_get_set_eq|].
    apply slice0_length. }
  assert (E : fst (student_init sid pollId name s)
              = set_waitingStudents
                  (JsMap.set sid (normalize_name name) (waitingStudents s)) s).
  { unfold student_init. by rewrite Hnone. }
  rewrite E.
  destruct (teacher_init_poll tsid tpollId uuid
              (set_waitingStudents
                 (JsMap.set sid (normalize_name name) (waitingStudents s)) s))
    as (r & p & Hp & p' & L' & W' & T' & I' & Q' & H' & A' & P' & R' & O' & M').
  split; [exact W'|].
  destruct (O' sid Hlive (JsMap_set_has_key _ _ _)) as [payload Hpay].
  exists r, p', payload. split; [exact L'|]. split; [exact T'|].
  split; [|exact Hpay].
  apply R'. right. split; [exact Hlive | apply JsMap_set_has_key].
Qed.

Lemma queued_student_joins_with_next_teacher_witness :
  exists r p' payload,
    snd (student_init "A" None (Some "  Ann ") (run_state [Connect "A"] initial))
    = [mkEmit (ToSocket "A") "student:waiting" None]
    /\ heap (fst (teacher_init "T" None "abc123-0000"
                    (fst (student_init "A" None (Some "  Ann ")
                            (run_state [Connect "A"] initial))))) !! r
       = Some p'
    /\ JsMap.has "A" (students p') = true
    /\ emit_to "A" "student:ready" payload
         ∈ snd (teacher_init "T" None "abc123-0000"
                  (fst (student_init "A" None (Some "  Ann ")
                          (run_state [Connect "A"] initial)))).
Proof.
  edestruct (queued_student_joins_with_next_teacher
               (run_state [Connect "A"] initial) "A" None (Some "  Ann ")
               "T" None "abc123-0000")
    as (Hout & _ & _ & _ & r & p' & payload & L & _ & Hhas & Hready).
  - reflexivity.
  - apply (bool_decide_unpack _). vm_compute. exact I.
  - exists r, p', payload. auto.
Defined.



(** ** Errors stay with the requester *)






(** ** What a step can do to a poll *)

Ltac keep_poll p := exists p; split_and!; try done; auto.

Lemma endQuestion_delta r0 reason now s r p :
  heap s !! r = Some p ->
  exists p',
    heap (fst (endQuestion r0 reason now s)) !! r = Some p'
    /\ p_id p' = p_id p
    /\ students p' = students p
    /\ teacherSocketId p' = teacherSocketId p
    /\ (p' = p
        \/ exists q,
            r = r0
            /\ currentQuestion p = Some q
            /\ currentQuestion p' = None
            /\ pastQuestions p'
               = spread_with (result_of q)
                   [("finishedAt", JNum now); ("reason", JStr reason)]
                   :: pastQuestions p).
Proof.
  intros L. unfold endQuestion.
  destruct (heap s !! r0) as [p0|] eqn:L0; [|keep_poll p].
  destruct (currentQuestion p0) as [q0|] eqn:Q0; [|keep_poll p].
  simpl. destruct (decide (r0 = r)) as [->|Hne].
  - assert (p0 = p) by congruence. subst p0.
    eexists. split; [apply list_lookup_insert_eq; by eapply lookup_lt_Some|].
    split_and!; try reflexivity. right. exists q0. auto.
  - rewrite list_lookup_insert_ne by assumption. keep_poll p.
Qed.

(** What the four events about questions do to a poll object: its id, its
    roster and its teacher stay, and its history stays or gets the result of
    its current question in front. *)
Lemma quiz_step_delta s e r p :
  ~ keeps_questions e ->
  heap s !! r = Some p ->
  exists p',
    heap (fst (step s e)) !! r = Some p'
    /\ p_id p' = p_id p
    /\ students p' = students p
    /\ teacherSocketId p' = teacherSocketId p
    /\ (pastQuestions p' = pastQuestions p
        \/ exists q entry reason,
            currentQuestion p = Some q
            /\ currentQuestion p' = None
            /\ pastQuestions p' = entry :: pastQuestions p
            /\ jget "questionId" entry = Some (JStr (q_id q))
            /\ jget "reason" entry = Some (JStr reason)
            /\ reason ∈ ["timeout"; "all_answered"; "teacher_end"]).
Proof.
  intros He L.
  assert (Hend : forall r0 reason now s1 p1,
             heap s1 !! r = Some p1 ->
             p_id p1 = p_id p -> students p1 = students p ->
             teacherSocketId p1 = teacherSocketId p ->
             pastQuestions p1 = pastQuestions p ->
             (forall q1, currentQuestion p1 = Some q1 ->
                         exists q, currentQuestion p = Some q /\ q_id q = q_id q1) ->
             reason ∈ ["timeout"; "all_answered"; "teacher_end"] ->
             exists p',
               heap (fst (endQuestion r0 reason now s1)) !! r = Some p'
               /\ p_id p' = p_id p
               /\ students p' = students p
               /\ teacherSocketId p' = teacherSocketId p
               /\ (pastQuestions p' = pastQuestions p
                   \/ exists q entry reason,
                       currentQuestion p = Some q
                       /\ currentQuestion p' = None
                       /\ pastQuestions p' = entry :: pastQuestions p
                       /\ jget "questionId" entry = Some (JStr (q_id q))
                       /\ jget "reason" entry = Some (JStr reason)
                       /\ reason ∈ ["timeout"; "all_answered"; "teacher_end"])).
  { intros r0 reason now s1 p1 L1 Hi Hs Ht Hh Hq Hreason.
    destruct (endQuestion_delta r0 reason now s1 r p1 L1)
      as (p' & L' & Hi' & Hs' & Ht' & [->|(q1 & -> & Q1 & Q' & Hp')]).
    - exists p1. split_and!; auto.
    - exists p'. split_and!; try congruence.
      right. destruct (Hq q1 Q1) as (q & Q & Hid).
      exists q, (spread_with (result_of q1)
                   [("finishedAt", JNum now); ("reason", JStr reason)]), reason.
      split; [exact Q|]. split; [exact Q'|].
      split; [by rewrite Hp', Hh|].
      split; [simpl; by rewrite Hid|]. split; [reflexivity | exact Hreason]. }
  destruct e; simpl in He; try (exfalso; by apply He); simpl.
  - unfold teacher_askQuestion.
    destruct (polls_get_opt pollId s) as [[r0 p0]|] eqn:G; [|keep_poll p].
    destruct (negb (is_teacher sid p0)); [keep_poll p|].
    destruct (negb (canAskNewQuestion p0)); [keep_poll p|].
    simpl. rewrite list_insert_insert_eq.
    pose proof (polls_get_opt_lookup _ _ _ _ G) as L0.
    destruct (decide (r0 = r)) as [->|Hne].
    + assert (p0 = p) by congruence. subst p0.
      eexists. split; [apply list_lookup_insert_eq; by eapply lookup_lt_Some|].
      split_and!; try reflexivity. by left.
    + rewrite list_lookup_insert_ne by assumption. keep_poll p.
  - unfold student_submit.
    destruct (resolve_sender_poll sid pollId s) as [[r0 p0]|] eqn:G;
      [|keep_poll p].
    destruct (currentQuestion p0) as [q0|] eqn:Q0; [|keep_poll p].
    destruct (negb (q_id q0 =? questionId)%string || negb (is_active q0));
      [keep_poll p|].
    destruct (bool_decide (sid ∈ answeredBy q0)); [keep_poll p|].
    destruct (find_option optionId (q_options q0)); [|keep_poll p].
    pose proof (resolve_sender_poll_lookup _ _ _ _ _ G) as L0.
    set (p1 := set_currentQuestion (Some (record_answer sid optionId q0)) p0).
    assert (H1 : exists p2,
               heap (store r0 p1 s) !! r = Some p2
               /\ p_id p2 = p_id p /\ students p2 = students p
               /\ teacherSocketId p2 = teacherSocketId p
               /\ pastQuestions p2 = pastQuestions p
               /\ (forall q1, currentQuestion p2 = Some q1 ->
                              exists q, currentQuestion p = Some q
                                        /\ q_id q = q_id q1)).
    { destruct (decide (r0 = r)) as [->|Hne].
      - assert (p0 = p) by congruence. subst p0.
        exists p1. split; [apply (store_lookup_eq _ _ _ _ L)|].
        split_and!; try reflexivity.
        intros q1 Hq1. simpl in Hq1. inversion Hq1. eauto.
      - exists p. rewrite store_lookup_ne by assumption.
        split_and!; eauto. }
    destruct H1 as (p2 & L2 & Hi & Hs & Ht & Hh & Hq).
    match goal with |- context [if ?c then _ else _] => destruct c end.
    + match goal with
      | |- context [endQuestion r0 "all_answered" now ?s1] =>
          pose proof (Hend r0 "all_answered" now s1 p2 L2 Hi Hs Ht Hh Hq) as E;
          destruct (endQuestion r0 "all_answered" now s1) as [s2 out]
      end.
      apply E. set_solver.
    + exists p2. split_and!; auto.
  - unfold teacher_endQuestion.
    destruct (polls_get_opt pollId s) as [[r0 p0]|]; [|keep_poll p].
    destruct (negb (is_teacher sid p0)); [keep_poll p|].
    apply (Hend r0 "teacher_end" now s p); eauto. set_solver.
  - unfold timer_fire.
    destruct (timers s !! t) as [r0|]; [|keep_poll p].
    apply (Hend r0 "timeout" now _ p); eauto. set_solver.
Qed.

(** X11: no step destroys a poll object, changes its id or rewrites its
    history: after any event a poll's [pastQuestions] is what it was, or is
    that with one entry put in front, and this happens only when the poll's
    current question goes away; the entry carries that question's id and one
    of the reasons [timeout], [all_answered], [teacher_end]. *)
Theorem history_only_grows_in_front :
  forall s e r p,
    heap s !! r = Some p ->
    exists p',
      heap (fst (step s e)) !! r = Some p'
      /\ p_id p' = p_id p
      /\ (pastQuestions p' = pastQuestions p
          \/ exists q entry reason,
              currentQuestion p = Some q
              /\ currentQuestion p' = None
              /\ pastQuestions p' = entry :: pastQuestions p
              /\ jget "questionId" entry = Some (JStr (q_id q))
              /\ jget "reason" entry = Some (JStr reason)
              /\ reason ∈ ["timeout"; "all_answered"; "teacher_end"]).
Proof.
  intros s e r p L.
  assert (keeps_questions e \/ ~ keeps_questions e) as [Hk|Hk]
    by (destruct e; simpl; tauto).
  - destruct (step_kept s e Hk) as (_ & _ & K).
    destruct (K r p L) as (p' & L' & _ & Hh & Hi). exists p'. auto.
  - destruct (quiz_step_delta s e r p Hk L) as (p' & L' & Hi & _ & _ & Hh).
    exists p'. auto.
Qed.

Lemma history_only_grows_in_front_witness :
  exists p' entry,
    heap (fst (step (run_state ann_answered initial)
                 (EndQuestion "T" (Some "abc123") 2500))) !! 0 = Some p'
    /\ p_id p' = "abc123"
    /\ pastQuestions p' = [entry]
    /\ jget "reason" entry = Some (JStr "teacher_end").
Proof.
  edestruct (history_only_grows_in_front (run_state ann_answered initial)
               (EndQuestion "T" (Some "abc123") 2500) 0)
    as (p' & L & Hid & _).
  { vm_compute. reflexivity. }
  exists p'. eexists. split; [exact L|]. split; [exact Hid|].
  vm_compute in L. inversion L. split; reflexivity.
Defined.

(** ** Who can take a student out of a roster *)

Lemma JsMap_get_delete_ne {V : Type} (k k' : string) (m : list (string * V)) :
  k <> k' -> JsMap.get k' (JsMap.delete k m) = JsMap.get k' m.
Proof.
  intros Hne. induction m as [|[k0 v0] m IH]; simpl; [reflexivity|].
  destruct (String.eqb_spec k k0) as [->|Hne0]; simpl.
  - destruct (String.eqb_spec k' k0); [congruence|reflexivity].
  - by rewrite IH.
Qed.

Lemma JsMap_has_delete_ne {V : Type} (k k' : string) (m : list (string * V)) :
  k <> k' -> JsMap.has k' (JsMap.delete k m) = JsMap.has k' m.
Proof. intros Hne. unfold JsMap.has. by rewrite JsMap_get_delete_ne. Qed.

Lemma detach_from_other sid rs :
  forall s r p,
    heap s !! r = Some p ->
    exists p',
      heap (fst (detach_from sid rs s)) !! r = Some p'
      /\ forall k, k <> sid ->
                   JsMap.has k (students p') = JsMap.has k (students p).
Proof.
  induction rs as [|r0 rs IH]; intros s r p L; [exists p; auto|].
  destruct (heap s !! r0) as [p0|] eqn:L0.
  - destruct (detach_from_cons sid r0 rs s p0 L0)
      as (p2 & active & -> & Hst & _).
    destruct (decide (r0 = r)) as [->|Hne].
    + assert (p0 = p) by congruence. subst p0.
      destruct (IH (set_activePollId active (store r p2 s)) r p2
                  (store_lookup_eq _ _ _ _ L)) as (p' & L' & H').
      exists p'. split; [exact L'|]. intros k Hk.
      rewrite (H' k Hk), Hst. apply JsMap_has_delete_ne. congruence.
    + apply IH. simpl. by rewrite list_lookup_insert_ne.
  - simpl. rewrite L0. by apply IH.
Qed.

Lemma attach_waiting_roster r0 ws :
  forall s r p,
    heap s !! r = Some p ->
    exists p',
      heap (fst (attach_waiting r0 ws s)) !! r = Some p'
      /\ forall k, JsMap.has k (students p) = true ->
                   JsMap.has k (students p') = true.
Proof.
  induction ws as [|[sid name] ws IH]; intros s r p L; [exists p; auto|].
  simpl. destruct (bool_decide (sid ∈ sockets s)).
  - destruct (heap s !! r0) as [p0|] eqn:L0; [|exists p; auto].
    match goal with
    | |- context [attach_waiting r0 ws ?x] => set (s2 := x)
    end.
    destruct (decide (r0 = r)) as [->|Hne].
    + assert (p0 = p) by congruence. subst p0.
      match goal with
      | s2 := context [store r ?x s] |- _ => set (p1 := x) in *
      end.
      destruct (IH s2 r p1) as (p' & L' & H').
      { subst s2. simpl. apply list_lookup_insert_eq. by eapply lookup_lt_Some. }
      destruct (attach_waiting r ws s2) as [s3 out]. simpl in *.
      exists p'. split; [exact L'|]. intros k Hk. apply H'.
      subst p1. simpl. rewrite JsMap_has_set, Hk. apply orb_true_r.
    + destruct (IH s2 r p) as (p' & L' & H').
      { subst s2. simpl. by rewrite list_lookup_insert_ne. }
      destruct (attach_waiting r0 ws s2) as [s3 out]. simpl in *.
      exists p'. auto.
  - by apply IH.
Qed.

(** X12: a connection that is in the roster of a poll stays in it through
    every step, with two exceptions: its own [disconnect], and a
    [teacher:removeStudent] naming it, sent for that poll by the poll's bound
    teacher. *)
Theorem roster_entry_leaves_only_by_disconnect_or_teacher :
  forall s e r p k,
    heap s !! r = Some p ->
    JsMap.has k (students p) = true ->
    exists p',
      heap (fst (step s e)) !! r = Some p'
      /\ (JsMap.has k (students p') = true
          \/ e = Disconnect k
          \/ exists sid pollId,
              e = RemoveStudent sid pollId k
              /\ polls_get_opt pollId s = Some (r, p)
              /\ is_teacher sid p = true).
Proof.
  intros s e r p k L Hk.
  assert (Hquiz : ~ keeps_questions e ->
                  exists p',
                    heap (fst (step s e)) !! r = Some p'
                    /\ (JsMap.has k (students p') = true
                        \/ e = Disconnect k
                        \/ exists sid pollId,
                            e = RemoveStudent sid pollId k
                            /\ polls_get_opt pollId s = Some (r, p)
                            /\ is_teacher sid p = true)).
  { intros He.
    destruct (quiz_step_delta s e r p He L) as (p' & L' & _ & Hs & _).
    exists p'. split; [exact L'|]. left. by rewrite Hs. }
  destruct e; try (apply Hquiz; simpl; tauto); simpl.
  - exists p. auto.
  - destruct (decide (sid = k)) as [->|Hne].
    + destruct (disconnect_kept k (set_sockets (sockets s ∖ {[k]}) s))
        as (_ & _ & K).
      destruct (K r p L) as (p' & L' & _). exists p'. auto.
    + unfold disconnect.
      match goal with
      | |- context [detach_from sid ?rs ?s1] =>
          destruct (detach_from_other sid rs s1 r p L) as (p' & L' & H');
          destruct (detach_from sid rs s1) as [s2 out]
      end.
      exists p'. split; [exact L'|]. left. rewrite H' by congruence. exact Hk.
  - exists p. split; [|by left].
    rewrite lookup_app_l by (by eapply lookup_lt_Some). exact L.
  - unfold teacher_init.
    destruct (polls_get_truthy pollId s) as [[r0 p0]|] eqn:G.
    + pose proof (polls_get_truthy_lookup _ _ _ _ G) as L0.
      match goal with
      | |- context [attach_waiting r0 ?ws ?x] => set (s2 := x)
      end.
      assert (exists p1, heap s2 !! r = Some p1
                         /\ JsMap.has k (students p1) = true) as (p1 & L1 & H1).
      { subst s2. simpl. destruct (decide (r0 = r)) as [->|Hne].
        - assert (p0 = p) by congruence. subst p0.
          eexists. split; [apply list_lookup_insert_eq; by eapply lookup_lt_Some|].
          exact Hk.
        - exists p. by rewrite list_lookup_insert_ne. }
      destruct (attach_waiting_roster r0 (waitingStudents s2) s2 r p1 L1) as (p' & L' & H').
      destruct (attach_waiting r0 (waitingStudents s2) s2) as [s3 out].
      exists p'. split; [exact L'|]. left. by apply H'.
    + destruct (createPoll uuid s) as [s' r0] eqn:E.
      unfold createPoll in E. inversion E; subst s' r0. clear E.
      match goal with
      | |- context [attach_waiting ?r1 ?ws ?x] => set (s2 := x)
      end.
      assert (L1 : heap s2 !! r = Some p).
      { subst s2. simpl.
        rewrite list_lookup_insert_ne
          by (apply lookup_lt_Some in L; lia).
        rewrite lookup_app_l by (by eapply lookup_lt_Some). exact L. }
      destruct (attach_waiting_roster (length (heap s)) (waitingStudents s2) s2 r p L1)
        as (p' & L' & H').
      destruct (attach_waiting (length (heap s)) (waitingStudents s2) s2) as [s3 out].
      exists p'. split; [exact L'|]. left. by apply H'.
  - unfold student_init.
    destruct (resolve_student_poll pollId s) as [[r0 p0]|] eqn:G;
      [|exists p; auto].
    pose proof (resolve_student_poll_lookup _ _ _ _ G) as L0.
    simpl. destruct (decide (r0 = r)) as [->|Hne].
    + assert (p0 = p) by congruence. subst p0.
      eexists. split; [apply list_lookup_insert_eq; by eapply lookup_lt_Some|].
      left. simpl. rewrite JsMap_has_set, Hk. apply orb_true_r.
    + exists p. rewrite list_lookup_insert_ne by assumption. auto.
  - unfold teacher_removeStudent.
    destruct (polls_get_opt pollId s) as [[r0 p0]|] eqn:G; [|exists p; auto].
    destruct (is_teacher sid p0) eqn:T; simpl; [|exists p; auto].
    destruct (JsMap.has studentId (students p0)); [|exists p; auto].
    pose proof (polls_get_opt_lookup _ _ _ _ G) as L0.
    simpl. destruct (decide (r0 = r)) as [->|Hne].
    + assert (p0 = p) by congruence. subst p0.
      eexists. split; [apply list_lookup_insert_eq; by eapply lookup_lt_Some|].
      destruct (decide (studentId = k)) as [->|Hsk].
      * right. right. exists sid, pollId. auto.
      * left. simpl. rewrite JsMap_has_delete_ne by assumption. exact Hk.
    + exists p. rewrite list_lookup_insert_ne by assumption. auto.
  - unfold chat_send.
    destruct (resolve_sender_poll sid pollId s) as [[r0 p0]|]; exists p; auto.
Qed.

Lemma roster_entry_leaves_only_by_disconnect_or_teacher_witness :
  exists p',
    heap (fst (step (run_state ann_answered initial)
                 (RemoveStudent "B" (Some "abc123") "A"))) !! 0 = Some p'
    /\ JsMap.has "A" (students p') = true.
Proof.
  edestruct (roster_entry_leaves_only_by_disconnect_or_teacher
               (run_state ann_answered initial)
               (RemoveStudent "B" (Some "abc123") "A") 0)
    as (p' & L & [H|[H|(sid & pollId & H & G & T)]]).
  - vm_compute. reflexivity.
  - instantiate (1 := "A"). reflexivity.
  - exists p'. auto.
  - discriminate.
  - exfalso. inversion H; subst. vm_compute in G. inversion G; subst.
    discriminate.
Defined.

(** ** Asking and ending a question *)

Lemma imap_texts (f : nat -> string -> Opt) (g : string -> string)
    (ts : list string) :
  (forall i t, o_text (f i t) = g t) -> map o_text (imap f ts) = map g ts.
Proof.
  revert f. induction ts as [|t ts IH]; intros f Hf; simpl; [reflexivity|].
  rewrite Hf. f_equal. apply IH. intros i t'. apply Hf.
Qed.

Lemma imap_Forall (f : nat -> string -> Opt) (P : Opt -> Prop)
    (ts : list string) :
  (forall i t, P (f i t)) -> Forall P (imap f ts).
Proof.
  revert f. induction ts as [|t ts IH]; intros f Hf; simpl; constructor.
  - apply Hf.
  - apply IH. intros i t'. apply Hf.
Qed.

Lemma clamp_duration_range d : (0 < clamp_duration d <= 300)%Z.
Proof.
  unfold clamp_duration. destruct d as [d|]; [|lia].
  destruct (Z.ltb_spec 0 d); lia.
Qed.

(** X13: a [teacher:askQuestion] that is let through installs a question
    with the drawn id, a text of at most 140 characters, a duration within
    (0, 300] seconds (a supplied duration in that range is kept), and the
    supplied option texts cut to 80 characters, or the four options A to D
    when none is supplied; all counts are 0 and nobody has answered.  Its
    timer is armed for this poll.  The only message is the [questionAsked]
    to the poll's room, whose options carry an id and a text and no count. *)
Theorem askQuestion_installs_normalized_question :
  forall s sid pollId text options durationSec questionId optionIds now r p,
    polls_get_opt pollId s = Some (r, p) ->
    is_teacher sid p = true ->
    canAskNewQuestion p = true ->
    exists p' q t payload,
      heap (fst (teacher_askQuestion sid pollId text options durationSec
                   questionId optionIds now s)) !! r = Some p'
      /\ currentQuestion p' = Some q
      /\ q_id q = questionId
      /\ q_askedAt q = now
      /\ String.length (q_text q) <= 140
      /\ (0 < q_durationSec q <= 300)%Z
      /\ (forall d, durationSec = Some d -> (0 < d <= 300)%Z ->
                    q_durationSec q = d)
      /\ q_options q <> []
      /\ Forall (fun o => String.length (o_text o) <= 80 /\ o_count o = 0)
           (q_options q)
      /\ (forall t0 ts, options = Some (t0 :: ts) ->
                        map o_text (q_options q) = map (slice0 80) (t0 :: ts))
      /\ (options = None \/ options = Some [] ->
          map o_text (q_options q) = ["A"; "B"; "C"; "D"])
      /\ q_totalAnswers q = 0
      /\ answeredBy q = ∅
      /\ _timerRef q = Some t
      /\ timers (fst (teacher_askQuestion sid pollId text options durationSec
                        questionId optionIds now s)) !! t = Some r
      /\ snd (teacher_askQuestion sid pollId text options durationSec
                questionId optionIds now s)
         = [emit_room (p_id p) "questionAsked" payload]
      /\ jget "id" payload = Some (JStr questionId)
      /\ jget "options" payload = Some (JArr (map opt_plain (q_options q)))
      /\ (forall o, jget "count" (opt_plain o) = None).
Proof.
  intros s sid pollId text options durationSec questionId optionIds now r p
    G T C.
  pose proof (polls_get_opt_lookup _ _ _ _ G) as L.
  unfold teacher_askQuestion. rewrite G, T, C. simpl.
  eexists _, _, _, _.
  split.
  { apply list_lookup_insert_eq. rewrite length_insert.
    by eapply lookup_lt_Some. }
  split; [reflexivity|]. simpl.
  split; [reflexivity|]. split; [reflexivity|].
  split; [apply slice0_length|].
  split; [apply clamp_duration_range|].
  split.
  { intros d -> Hd. simpl. destruct (Z.ltb_spec 0 d); lia. }
  split.
  { destruct options as [[|t0 ts]|]; simpl; discriminate. }
  split.
  { apply imap_Forall. intros i t0. simpl. split; [apply slice0_length|reflexivity]. }
  split.
  { intros t0 ts ->. apply (imap_texts _ (slice0 80)). reflexivity. }
  split.
  { intros [->| ->]; reflexivity. }
  split; [reflexivity|]. split; [reflexivity|]. split; [reflexivity|].
  split; [apply lookup_insert_eq|].
  split; [reflexivity|]. split; [reflexivity|]. split; [reflexivity|].
  intros o. reflexivity.
Qed.

Lemma askQuestion_installs_normalized_question_witness :
  exists p' q,
    heap (fst (teacher_askQuestion "T" (Some "abc123") None None (Some 900%Z)
                 "q1" (option_ids "q1") 1000
                 (run_state lesson_start initial))) !! 0 = Some p'
    /\ currentQuestion p' = Some q
    /\ (0 < q_durationSec q <= 300)%Z
    /\ map o_text (q_options q) = ["A"; "B"; "C"; "D"].
Proof.
  edestruct (askQuestion_installs_normalized_question
               (run_state lesson_start initial) "T" (Some "abc123") None None
               (Some 900%Z) "q1" (option_ids "q1") 1000%Z 0)
    as (p' & q & t & payload & L & Q & _ & _ & _ & Hd & _ & _ & _ & _ & Hdef & _).
  - vm_compute. reflexivity.
  - reflexivity.
  - reflexivity.
  - exists p', q. split; [exact L|]. split; [exact Q|]. split; [exact Hd|].
    apply Hdef. by left.
Defined.

(** X14: a [teacher:endQuestion] of the bound teacher finishes the current
    question at once, with reason [teacher_end]: the room gets the
    [questionFinished] with the counts reached, the result goes to the head
    of the history, the question's timer is disarmed.  The same request sent
    again finds no question and does nothing. *)
Theorem teacher_endQuestion_finishes_once :
  forall s sid pollId now now' r p q,
    polls_get_opt pollId s = Some (r, p) ->
    is_teacher sid p = true ->
    currentQuestion p = Some q ->
    exists p' entry,
      snd (teacher_endQuestion sid pollId now s)
      = [emit_room (p_id p) "questionFinished" (result_of q)]
      /\ heap (fst (teacher_endQuestion sid pollId now s)) !! r = Some p'
      /\ currentQuestion p' = None
      /\ pastQuestions p' = entry :: pastQuestions p
      /\ jget "reason" entry = Some (JStr "teacher_end")
      /\ jget "finishedAt" entry = Some (JNum now)
      /\ (forall t, _timerRef q = Some t ->
                    timers (fst (teacher_endQuestion sid pollId now s)) !! t
                    = None)
      /\ teacher_endQuestion sid pollId now'
           (fst (teacher_endQuestion sid pollId now s))
         = (fst (teacher_endQuestion sid pollId now s), []).
Proof.
  intros s sid pollId now now' r p q G T Q.
  pose proof (polls_get_opt_lookup _ _ _ _ G) as L.
  unfold teacher_endQuestion at 1 2 3 5 6. rewrite G, T. simpl.
  rewrite (endQuestion_current _ _ _ _ _ _ L Q). simpl.
  eexists _, _. split; [reflexivity|].
  split; [apply list_lookup_insert_eq; by eapply lookup_lt_Some|].
  split; [reflexivity|]. split; [reflexivity|].
  split; [reflexivity|]. split; [reflexivity|].
  split.
  { intros t ->. apply clearTimeout_lookup. }
  unfold teacher_endQuestion.
  match goal with
  | |- context [polls_get_opt pollId ?s1] =>
      assert (G1 : exists p1, polls_get_opt pollId s1 = Some (r, p1)
                              /\ currentQuestion p1 = None)
  end.
  { destruct pollId as [id|]; simpl in G |- *; [|discriminate].
    unfold polls_get in *. simpl.
    destruct (JsMap.get id (polls s)) as [r0|]; simpl in *; [|discriminate].
    destruct (heap s !! r0) as [p0|] eqn:L0; simpl in *; [|discriminate].
    inversion G; subst r0 p0.
    rewrite list_lookup_insert_eq by (by eapply lookup_lt_Some).
    simpl. eauto. }
  destruct G1 as (p1 & -> & Q1).
  destruct (negb (is_teacher sid p1)); [reflexivity|].
  unfold endQuestion. simpl.
  rewrite list_lookup_insert_eq by (by eapply lookup_lt_Some).
  reflexivity.
Qed.

Lemma teacher_endQuestion_finishes_once_witness :
  exists p' entry,
    map event (snd (teacher_endQuestion "T" (Some "abc123") 2500
                      (run_state ann_answered initial)))
    = ["questionFinished"]
    /\ heap (fst (teacher_endQuestion "T" (Some "abc123") 2500
                    (run_state ann_answered initial))) !! 0 = Some p'
    /\ pastQuestions p' = [entry]
    /\ jget "reason" entry = Some (JStr "teacher_end")
    /\ teacher_endQuestion "T" (Some "abc123") 2600
         (fst (teacher_endQuestion "T" (Some "abc123") 2500
                 (run_state ann_answered initial)))
       = (fst (teacher_endQuestion "T" (Some "abc123") 2500
                 (run_state ann_answered initial)), []).
Proof.
  edestruct (teacher_endQuestion_finishes_once (run_state ann_answered initial)
               "T" (Some "abc123") 2500%Z 2600%Z 0)
    as (p' & entry & Hout & L & _ & Hpast & Hreason & _ & _ & Hagain).
  - vm_compute. reflexivity.
  - reflexivity.
  - reflexivity.
  - exists p', entry. split; [by rewrite Hout|]. split; [exact L|].
    split; [exact Hpast|]. split; [exact Hreason | exact Hagain].
Defined.

(** X15: in every state the server reaches, [canAskNewQuestion] allows a new
    question exactly when the poll has no current question, or when the
    answers counted are at least as many as the students of a non-empty
    roster; its test for a finished current question never decides, since a
    current question is always active. *)
Theorem canAskNewQuestion_on_reachable_states :
  forall evs r p,
    heap (run_state evs initial) !! r = Some p ->
    canAskNewQuestion p
    = match currentQuestion p with
      | None => true
      | Some q =>
          (JsMap.size (students p) <=? q_totalAnswers q)
          && (0 <? JsMap.size (students p))
      end.
Proof.
  intros evs r p L. unfold canAskNewQuestion.
  destruct (currentQuestion p) as [q|] eqn:Q; [|reflexivity].
  pose proof (heap_inv_lookup _ _ _ _ (current_is_active_reachable evs) L q Q)
    as Hactive.
  unfold is_active. rewrite Hactive. simpl. apply orb_false_r.
Qed.

Lemma canAskNewQuestion_on_reachable_states_witness :
  exists p,
    heap (run_state bo_left initial) !! 0 = Some p
    /\ canAskNewQuestion p = true
    /\ currentQuestion p <> None.
Proof.
  eexists. split; [vm_compute; reflexivity|].
  split; [|discriminate].
  erewrite (canAskNewQuestion_on_reachable_states bo_left 0);
    [reflexivity | vm_compute; reflexivity].
Defined.

(** ** Chat *)

(** X16: [chat:send] never changes the state.  When the sender's poll is
    found, one [chat:message] goes to that poll's room, with the drawn id and
    time, a sender name of at most 40 and a text of at most 280 characters,
    and a role that is [teacher] only if the request says so and [student]
    in every other case; when no poll is found nothing is sent. *)
Theorem chat_send_relays_to_the_room :
  forall s sid pollId from message role uuid now,
    fst (chat_send sid pollId from message role uuid now s) = s
    /\ match resolve_sender_poll sid pollId s with
       | None => snd (chat_send sid pollId from message role uuid now s) = []
       | Some (_, p) =>
           exists payload f msg rl,
             snd (chat_send sid pollId from message role uuid now s)
             = [emit_room (p_id p) "chat:message" payload]
             /\ jget "id" payload = Some (JStr uuid)
             /\ jget "at" payload = Some (JNum now)
             /\ jget "from" payload = Some (JStr f)
             /\ String.length f <= 40
             /\ jget "message" payload = Some (JStr msg)
             /\ String.length msg <= 280
             /\ jget "role" payload = Some (JStr rl)
             /\ (rl = "teacher" /\ role = Some "teacher"
                 \/ rl = "student" /\ role <> Some "teacher")
       end.
Proof.
  intros s sid pollId from message role uuid now. unfold chat_send.
  destruct (resolve_sender_poll sid pollId s) as [[r p]|]; [|by split].
  split; [reflexivity|].
  eexists _, _, _, _. split; [reflexivity|]. simpl.
  split; [reflexivity|]. split; [reflexivity|]. split; [reflexivity|].
  split; [apply slice0_length|]. split; [reflexivity|].
  split; [apply slice0_length|]. split; [reflexivity|].
  destruct role as [rl|]; [|right; split; [reflexivity|discriminate]].
  destruct (String.eqb_spec rl "teacher") as [->|Hne].
  - left. split; reflexivity.
  - right. split; [|congruence].
    repeat (destruct rl as [|[[] [] [] [] [] [] [] []] rl]; try reflexivity);
      congruence.
Qed.

(** ** The timer of the running question *)

(** A poll object that a step creates has no question. *)
Lemma step_kept_back s e r p' q :
  keeps_questions e ->
  heap (fst (step s e)) !! r = Some p' ->
  currentQuestion p' = Some q ->
  exists p, heap s !! r = Some p /\ currentQuestion p = Some q.
Proof.
  intros He L' Q'.
  destruct (heap s !! r) as [p|] eqn:L.
  { destruct (step_kept s e He) as (_ & _ & K).
    destruct (K r p L) as (p'' & L'' & Hq & _).
    exists p. split; [reflexivity|]. congruence. }
  exfalso. apply lookup_ge_None in L.
  pose proof (lookup_lt_Some _ _ _ L') as Hlt.
  pose proof (step_registry_cases s e) as R.
  assert (Hkept : registry_kept s (fst (step s e)) -> False).
  { intros [_ Hl]. lia. }
  destruct e; try (by apply Hkept); simpl in *.
  - destruct R as [_ Hl].
    rewrite lookup_app_r in L' by exact L.
    destruct (r - length (heap s)) as [|n]; simpl in L'; [|discriminate].
    inversion L'; subst p'. discriminate.
  - destruct (teacher_init_poll sid pollId uuid s)
      as (r0 & p0 & Hp & p1 & L1 & _ & _ & _ & Q1 & _).
    destruct (polls_get_truthy pollId s) as [[r1 px]|] eqn:G;
      [by apply Hkept|].
    destruct Hp as [Hp|(_ & -> & ->)]; [discriminate|].
    destruct R as [_ Hl].
    assert (r = length (heap s)) by lia. subst r.
    assert (p1 = p') by congruence. subst p1.
    simpl in Q1. congruence.
Qed.

Lemma timers_armed_split s r0 : timers_armed s -> timers_armed_but r0 s.
Proof.
  intros H. split.
  - intros r p q _ L Q. exact (H r p q L Q).
  - intros p0 q0 r p q L0 Q0 Hne L Q Heq.
    destruct (H r p q L Q) as (t & T & A).
    destruct (H r0 p0 q0 L0 Q0) as (t0 & T0 & A0).
    congruence.
Qed.

Lemma endQuestion_timers_armed r0 reason now s :
  timers_armed_but r0 s -> timers_armed (fst (endQuestion r0 reason now s)).
Proof.
  intros [Ha Hd]. unfold endQuestion.
  destruct (heap s !! r0) as [p0|] eqn:L0.
  - destruct (currentQuestion p0) as [q0|] eqn:Q0.
    + simpl. intros r p q L Q. simpl in L.
      destruct (decide (r0 = r)) as [->|Hne].
      * rewrite list_lookup_insert_eq in L by (by eapply lookup_lt_Some).
        inversion L; subst p. discriminate.
      * rewrite list_lookup_insert_ne in L by assumption.
        destruct (Ha r p q (not_eq_sym Hne) L Q) as (t & T & A).
        exists t. split; [exact T|]. simpl.
        pose proof (Hd p0 q0 r p q eq_refl Q0 (not_eq_sym Hne) L Q) as Hdiff.
        destruct (_timerRef q0) as [t0|] eqn:T0; simpl; [|exact A].
        rewrite lookup_delete_ne; [exact A|].
        intros ->. apply Hdiff. congruence.
    + simpl. intros r p q L Q.
      destruct (decide (r = r0)) as [->|Hne]; [congruence|]. eauto.
  - simpl. intros r p q L Q.
    destruct (decide (r = r0)) as [->|Hne]; [congruence|]. eauto.
Qed.

Lemma endQuestion_timers_below r0 reason now s :
  timers_below s -> timers_below (fst (endQuestion r0 reason now s)).
Proof.
  intros H. unfold endQuestion.
  destruct (heap s !! r0) as [p0|]; [|exact H].
  destruct (currentQuestion p0) as [q0|]; [|exact H].
  intros t r. simpl. destruct (_timerRef q0) as [t0|]; simpl; [|apply H].
  intros Ht. apply lookup_delete_Some in Ht as [_ Ht]. by eapply H.
Qed.

Lemma step_timers s e :
  timers_armed s /\ timers_below s ->
  timers_armed (fst (step s e)) /\ timers_below (fst (step s e)).
Proof.
  intros [Ha Hb].
  assert (keeps_questions e \/ ~ keeps_questions e) as [Hk|Hk]
    by (destruct e; simpl; tauto).
  { destruct (step_kept s e Hk) as (Ht & Hn & _). split.
    - intros r p' q L' Q'.
      destruct (step_kept_back s e r p' q Hk L' Q') as (p & L & Q).
      rewrite Ht. eauto.
    - intros t r. rewrite Ht, Hn. apply Hb. }
  destruct e; simpl in Hk; try (exfalso; apply Hk; exact I); simpl.
  - unfold teacher_askQuestion.
    destruct (polls_get_opt pollId s) as [[r0 p0]|] eqn:G; [|by split].
    destruct (negb (is_teacher sid p0)); [by split|].
    destruct (negb (canAskNewQuestion p0)); [by split|].
    pose proof (polls_get_opt_lookup _ _ _ _ G) as L0.
    simpl. split.
    + intros r p q. simpl. rewrite list_insert_insert_eq. intros L Q.
      destruct (decide (r0 = r)) as [->|Hne].
      * rewrite list_lookup_insert_eq in L by (by eapply lookup_lt_Some).
        inversion L; subst p. simpl in Q. inversion Q; subst q.
        exists (next_timer s). split; [reflexivity|]. apply lookup_insert_eq.
      * rewrite list_lookup_insert_ne in L by assumption.
        destruct (Ha r p q L Q) as (t & T & A).
        exists t. split; [exact T|].
        rewrite lookup_insert_ne; [exact A|].
        apply Hb in A. lia.
    + intros t r. simpl. intros Ht.
      apply lookup_insert_Some in Ht as [[<- _]|[_ Ht]]; [lia|].
      apply Hb in Ht. lia.
  - unfold student_submit.
    destruct (resolve_sender_poll sid pollId s) as [[r0 p0]|] eqn:G;
      [|by split].
    destruct (currentQuestion p0) as [q0|] eqn:Q0; [|by split].
    destruct (negb (q_id q0 =? questionId)%string || negb (is_active q0));
      [by split|].
    destruct (bool_decide (sid ∈ answeredBy q0)); [by split|].
    destruct (find_option optionId (q_options q0)); [|by split].
    pose proof (resolve_sender_poll_lookup _ _ _ _ _ G) as L0.
    set (p1 := set_currentQuestion (Some (record_answer sid optionId q0)) p0).
    assert (Ha1 : timers_armed (store r0 p1 s)).
    { intros r p q. simpl. intros L Q.
      destruct (decide (r0 = r)) as [->|Hne].
      - rewrite list_lookup_insert_eq in L by (by eapply lookup_lt_Some).
        inversion L; subst p. simpl in Q. inversion Q; subst q. simpl.
        exact (Ha r p0 q0 L0 Q0).
      - rewrite list_lookup_insert_ne in L by assumption. eauto. }
    match goal with |- context [if ?c then _ else _] => destruct c end;
      [|by split].
    match goal with
    | |- context [endQuestion r0 "all_answered" now ?s1] =>
        pose proof (endQuestion_timers_armed r0 "all_answered" now s1
                      (timers_armed_split _ r0 Ha1)) as E1;
        pose proof (endQuestion_timers_below r0 "all_answered" now s1 Hb) as E2;
        destruct (endQuestion r0 "all_answered" now s1) as [s2 out]
    end.
    by split.
  - unfold teacher_endQuestion.
    destruct (polls_get_opt pollId s) as [[r0 p0]|]; [|by split].
    destruct (negb (is_teacher sid p0)); [by split|].
    split; [apply endQuestion_timers_armed, timers_armed_split, Ha|].
    by apply endQuestion_timers_below.
  - unfold timer_fire.
    destruct (timers s !! t) as [r0|] eqn:T0; [|by split].
    split.
    + apply endQuestion_timers_armed.
      destruct (timers_armed_split s r0 Ha) as [A1 A2]. split; [|exact A2].
      intros r p q Hne L Q. destruct (A1 r p q Hne L Q) as (t' & T' & A').
      exists t'. split; [exact T'|]. simpl.
      rewrite lookup_delete_ne; [exact A'|]. congruence.
    + apply endQuestion_timers_below. intros t' r'. simpl. intros Ht.
      apply lookup_delete_Some in Ht as [_ Ht]. by eapply Hb.
Qed.

Lemma timers_reachable evs :
  timers_armed (run_state evs initial) /\ timers_below (run_state evs initial).
Proof.
  assert (G : forall s, timers_armed s /\ timers_below s ->
                        timers_armed (run_state evs s)
                        /\ timers_below (run_state evs s)).
  { unfold run_state. induction evs as [|e evs IH]; intros s H; simpl; [exact H|].
    pose proof (step_timers s e H) as S1.
    destruct (step s e) as [s1 out1].
    specialize (IH s1 S1). destruct (run evs s1) as [s2 out2]. exact IH. }
  apply G. split.
  - intros r p q L. simpl in L. by rewrite lookup_nil in L.
  - intros t r L. simpl in L. by rewrite lookup_empty in L.
Qed.

(** X17: in every state the server reaches, a current question has a timer
    of its own, armed for its poll; when it fires the question is finished
    with reason [timeout]: the room gets the [questionFinished] with the
    counts reached, the result goes to the head of the poll's history, the
    poll has no current question and the timer is no longer armed. *)
Theorem timeout_finishes_running_question :
  forall evs r p q now,
    heap (run_state evs initial) !! r = Some p ->
    currentQuestion p = Some q ->
    exists t p' entry,
      _timerRef q = Some t
      /\ timers (run_state evs initial) !! t = Some r
      /\ snd (step (run_state evs initial) (TimerFire t now))
         = [emit_room (p_id p) "questionFinished" (result_of q)]
      /\ heap (fst (step (run_state evs initial) (TimerFire t now))) !! r
         = Some p'
      /\ currentQuestion p' = None
      /\ pastQuestions p' = entry :: pastQuestions p
      /\ jget "reason" entry = Some (JStr "timeout")
      /\ jget "finishedAt" entry = Some (JNum now)
      /\ timers (fst (step (run_state evs initial) (TimerFire t now))) !! t
         = None.
Proof.
  intros evs r p q now L Q.
  destruct (timers_reachable evs) as [Ha _].
  destruct (Ha r p q L Q) as (t & T & A).
  exists t. simpl. unfold timer_fire. rewrite A.
  erewrite endQuestion_current; [|exact L|exact Q].
  eexists _, _. split; [exact T|]. split; [reflexivity|].
  split; [reflexivity|].
  split; [simpl; apply list_lookup_insert_eq; by eapply lookup_lt_Some|].
  split; [reflexivity|]. split; [reflexivity|].
  split; [reflexivity|]. split; [reflexivity|].
  simpl. rewrite T. simpl. rewrite lookup_delete_None. by left.
Qed.

Lemma timeout_finishes_running_question_witness :
  exists p' entry,
    snd (step (run_state ann_answered initial) (TimerFire 0 11000))
    = [emit_room "abc123" "questionFinished" (
         JObj [("questionId", JStr "q1"); ("text", JStr "2+2?");
               ("options",
                JArr [JObj [("id", JStr "q1-o0"); ("text", JStr "3");
                            ("count", JNum 0)];
                      JObj [("id", JStr "q1-o1"); ("text", JStr "4");
                            ("count", JNum 1)]]);
               ("totalAnswers", JNum 1); ("durationSec", JNum 10)])]
    /\ heap (fst (step (run_state ann_answered initial) (TimerFire 0 11000))) !! 0
       = Some p'
    /\ currentQuestion p' = None
    /\ pastQuestions p' = [entry]
    /\ jget "reason" entry = Some (JStr "timeout").
Proof.
  edestruct (timeout_finishes_running_question ann_answered 0) with (now := 11000%Z)
    as (t & p' & entry & T & _ & Hout & L & Q & Hpast & Hreason & _).
  - vm_compute. reflexivity.
  - reflexivity.
  - simpl in T. inversion T; subst t.
    exists p', entry. split; [exact Hout|]. split; [exact L|].
    split; [exact Q|]. split; [exact Hpast | exact Hreason].
Defined.

(** ** Disconnecting *)








(** ** Polls do not interfere *)

Lemma attach_waiting_other r0 ws :
  forall s r,
    r <> r0 -> heap (fst (attach_waiting r0 ws s)) !! r = heap s !! r.
Proof.
  induction ws as [|[sid name] ws IH]; intros s r Hne; [reflexivity|].
  simpl. destruct (bool_decide (sid ∈ sockets s)).
  - destruct (heap s !! r0) as [p0|]; [|reflexivity].
    match goal with
    | |- context [attach_waiting r0 ws ?x] =>
        specialize (IH x r Hne); destruct (attach_waiting r0 ws x) as [s3 out]
    end.
    simpl in *. rewrite IH. by apply list_lookup_insert_ne.
  - by rewrite IH.
Qed.

(** X19: apart from [disconnect], which visits every poll, an event changes
    no poll object but the one it is addressed to: the poll its id names,
    the poll found through the sender's roster entry, the poll a timer was
    armed for, or the poll it creates. *)
Theorem step_touches_one_poll :
  forall s e r p,
    (forall sid, e <> Disconnect sid) ->
    heap s !! r = Some p ->
    target_poll s e <> Some r ->
    heap (fst (step s e)) !! r = Some p.
Proof.
  intros s e r p Hd L Ht.
  assert (Hend : forall r0 reason now s1,
             r0 <> r -> heap s1 !! r = Some p ->
             heap (fst (endQuestion r0 reason now s1)) !! r = Some p).
  { intros r0 reason now s1 Hne L1.
    destruct (endQuestion_delta r0 reason now s1 r p L1)
      as (p' & L' & _ & _ & _ & [->|(q & -> & _)]); [exact L'|congruence]. }
  destruct e; simpl in *.
  - exact L.
  - exfalso. by eapply Hd.
  - rewrite lookup_app_l by (by eapply lookup_lt_Some). exact L.
  - unfold teacher_init.
    destruct (polls_get_truthy pollId s) as [[r0 p0]|].
    + match goal with
      | |- context [attach_waiting r0 ?ws ?x] =>
          pose proof (attach_waiting_other r0 ws x r) as A;
          destruct (attach_waiting r0 ws x) as [s3 out]
      end.
      simpl in *. rewrite A by congruence.
      rewrite list_lookup_insert_ne by congruence. exact L.
    + destruct (createPoll uuid s) as [s' r0] eqn:E.
      unfold createPoll in E. inversion E; subst s' r0. clear E.
      match goal with
      | |- context [attach_waiting ?r1 ?ws ?x] =>
          pose proof (attach_waiting_other r1 ws x r) as A;
          destruct (attach_waiting r1 ws x) as [s3 out]
      end.
      simpl in *. rewrite A by congruence.
      rewrite list_lookup_insert_ne by congruence.
      rewrite lookup_app_l by (by eapply lookup_lt_Some). exact L.
  - unfold student_init.
    destruct (resolve_student_poll pollId s) as [[r0 p0]|]; [|exact L].
    simpl in *. rewrite list_lookup_insert_ne by congruence. exact L.
  - unfold teacher_askQuestion.
    destruct (polls_get_opt pollId s) as [[r0 p0]|]; [|exact L].
    destruct (negb (is_teacher sid p0)); [exact L|].
    destruct (negb (canAskNewQuestion p0)); [exact L|].
    simpl in *. rewrite !list_lookup_insert_ne by congruence. exact L.
  - unfold student_submit.
    destruct (resolve_sender_poll sid pollId s) as [[r0 p0]|]; [|exact L].
    destruct (currentQuestion p0) as [q0|]; [|exact L].
    destruct (negb (q_id q0 =? questionId)%string || negb (is_active q0));
      [exact L|].
    destruct (bool_decide (sid ∈ answeredBy q0)); [exact L|].
    destruct (find_option optionId (q_options q0)); [|exact L].
    simpl in Ht.
    assert (L1 : forall x, heap (store r0 x s) !! r = Some p).
    { intros x. simpl. rewrite list_lookup_insert_ne by congruence. exact L. }
    match goal with |- context [if ?c then _ else _] => destruct c end;
      [|apply L1].
    match goal with
    | |- context [endQuestion r0 "all_answered" now ?s1] =>
        pose proof (Hend r0 "all_answered" now s1) as E;
        destruct (endQuestion r0 "all_answered" now s1) as [s2 out]
    end.
    apply E; [congruence | apply L1].
  - unfold teacher_endQuestion.
    destruct (polls_get_opt pollId s) as [[r0 p0]|]; [|exact L].
    destruct (negb (is_teacher sid p0)); [exact L|].
    apply Hend; [simpl in Ht; congruence | exact L].
  - unfold teacher_removeStudent.
    destruct (polls_get_opt pollId s) as [[r0 p0]|]; [|exact L].
    destruct (negb (is_teacher sid p0)); [exact L|].
    destruct (JsMap.has studentId (students p0)); [|exact L].
    simpl in *. rewrite list_lookup_insert_ne by congruence. exact L.
  - unfold chat_send.
    by destruct (resolve_sender_poll sid pollId s) as [[r0 p0]|].
  - unfold timer_fire.
    destruct (timers s !! t) as [r0|]; [|exact L].
    apply Hend; [congruence | exact L].
Qed.

Lemma step_touches_one_poll_witness :
  exists p,
    heap (run_state (ann_answered ++ [CreatePollRequest "ffffff-1111"]) initial)
      !! 1 = Some p
    /\ heap (fst (step (run_state (ann_answered
                                    ++ [CreatePollRequest "ffffff-1111"]) initial)
                    (Submit "B" None "q1" "q1-o0" 2500))) !! 1 = Some p.
Proof.
  eexists. split; [vm_compute; reflexivity|].
  apply step_touches_one_poll.
  - discriminate.
  - vm_compute. reflexivity.
  - vm_compute. discriminate.
Defined.

(** ** Everybody answers *)

Lemma run_state_cons e evs s :
  run_state (e :: evs) s = run_state evs (fst (step s e)).
Proof.
  unfold run_state. simpl.
  destruct (step s e) as [s1 out1]. simpl.
  destruct (run evs s1) as [s2 out2]. reflexivity.
Qed.

Lemma run_state_snoc evs e :
  forall s, run_state (evs ++ [e]) s = fst (step (run_state evs s) e).
Proof.
  induction evs as [|e0 evs IH]; intros s; simpl.
  - rewrite run_state_cons. reflexivity.
  - rewrite !run_state_cons. apply IH.
Qed.

Lemma find_option_bump o o' os :
  is_Some (find_option o (bump_option o' os)) <-> is_Some (find_option o os).
Proof.
  unfold find_option. induction os as [|x os IH]; simpl; [reflexivity|].
  destruct (String.eqb_spec (o_id x) o') as [E|E]; simpl.
  - destruct (o_id x =? o)%string; [split; eauto | reflexivity].
  - destruct (o_id x =? o)%string; [split; eauto | exact IH].
Qed.

(** Submits that do not complete the roster leave the question running. *)
Lemma submits_below_roster c k now subs :
  forall s r p q,
    JsMap.get (String c k) (polls s) = Some r ->
    heap s !! r = Some p ->
    currentQuestion p = Some q ->
    q_status q = Active ->
    q_totalAnswers q + length subs < JsMap.size (students p) ->
    NoDup (map fst subs) ->
    (forall a, a ∈ map fst subs -> a ∉ answeredBy q) ->
    (forall o, o ∈ map snd subs -> is_Some (find_option o (q_options q))) ->
    exists p1 q1,
      heap (run_state (submits (String c k) (q_id q) now subs) s) !! r = Some p1
      /\ polls (run_state (submits (String c k) (q_id q) now subs) s) = polls s
      /\ currentQuestion p1 = Some q1
      /\ q_id q1 = q_id q
      /\ q_status q1 = Active
      /\ q_totalAnswers q1 = q_totalAnswers q + length subs
      /\ _timerRef q1 = _timerRef q
      /\ students p1 = students p
      /\ pastQuestions p1 = pastQuestions p
      /\ p_id p1 = p_id p
      /\ (forall a, a ∈ answeredBy q1 <-> a ∈ answeredBy q \/ a ∈ map fst subs)
      /\ (forall o, is_Some (find_option o (q_options q1))
                    <-> is_Some (find_option o (q_options q))).
Proof.
  induction subs as [|[a o] subs IH]; intros s r p q G L Q Hact Hlt Hnd Hnew Hopt.
  { exists p, q. simpl. split_and!; try done; try lia.
    intros x. split; [by left|]. intros [H|H]; [exact H|].
    by apply elem_of_nil in H. }
  simpl submits. rewrite run_state_cons. simpl step.
  simpl in Hlt, Hnd. apply NoDup_cons in Hnd as [Ha Hnd].
  destruct (Hopt o (list_elem_of_here _ _)) as [ox Hox].
  assert (R : resolve_sender_poll a (Some (String c k)) s = Some (r, p)).
  { simpl. unfold polls_get. rewrite G. simpl. by rewrite L. }
  rewrite (student_submit_accepted s a _ _ o now r p q ox R Q eq_refl Hact
             (Hnew a (list_elem_of_here _ _)) Hox).
  cbv zeta.
  replace (JsMap.size (students p) <=? q_totalAnswers q + 1) with false
    by (symmetry; apply Nat.leb_gt; lia).
  cbn [andb fst].
  set (q' := record_answer a o q).
  set (p' := set_currentQuestion (Some q') p).
  destruct (IH (store r p' s) r p' q') as
    (p1 & q1 & L1 & P1 & Q1 & I1 & A1 & T1 & R1 & S1 & H1 & D1 & B1 & O1).
  - exact G.
  - apply (store_lookup_eq _ _ _ _ L).
  - reflexivity.
  - exact Hact.
  - subst q' p'. simpl. lia.
  - exact Hnd.
  - intros x Hx. subst q'. simpl. intros Hin.
    apply elem_of_union in Hin as [Hin|Hin].
    + by apply (Hnew x (list_elem_of_further _ _ _ Hx)).
    + apply elem_of_singleton in Hin. subst x. contradiction.
  - intros x Hx. subst q'. simpl. apply find_option_bump.
    apply Hopt. by apply list_elem_of_further.
  - exists p1, q1. subst q' p'. simpl in *.
    split_and!; try done; try lia.
    + intros x. rewrite B1. rewrite elem_of_union, elem_of_singleton.
      rewrite elem_of_cons. tauto.
    + intros x. rewrite O1. apply find_option_bump.
Qed.

(** X20: when as many connections as the roster still lacks answers submit,
    each once, for the running question of a poll they name, each with one
    of its options, the question keeps running until the last of them and
    the last submit finishes it with reason [all_answered]: the total
    recorded is the size of the roster, the timer is disarmed and the poll
    has no current question. *)
Theorem last_missing_answer_finishes :
  forall s c k r p q subs a o now,
    JsMap.get (String c k) (polls s) = Some r ->
    heap s !! r = Some p ->
    currentQuestion p = Some q ->
    q_status q = Active ->
    q_totalAnswers q + length subs + 1 = JsMap.size (students p) ->
    NoDup (a :: map fst subs) ->
    (forall x, x ∈ a :: map fst subs -> x ∉ answeredBy q) ->
    (forall x, x ∈ o :: map snd subs -> is_Some (find_option x (q_options q))) ->
    (exists p1 q1,
        heap (run_state (submits (String c k) (q_id q) now subs) s) !! r
        = Some p1
        /\ currentQuestion p1 = Some q1
        /\ q_status q1 = Active
        /\ q_totalAnswers q1 = q_totalAnswers q + length subs)
    /\ exists p2 entry,
        heap (run_state (submits (String c k) (q_id q) now (subs ++ [(a, o)])) s)
          !! r = Some p2
        /\ currentQuestion p2 = None
        /\ pastQuestions p2 = entry :: pastQuestions p
        /\ jget "questionId" entry = Some (JStr (q_id q))
        /\ jget "reason" entry = Some (JStr "all_answered")
        /\ jget "totalAnswers" entry = Some (jnat (JsMap.size (students p)))
        /\ (forall t, _timerRef q = Some t ->
                      timers (run_state (submits (String c k) (q_id q) now
                                           (subs ++ [(a, o)])) s) !! t = None).
Proof.
  intros s c k r p q subs a o now G L Q Hact Hsize Hnd Hnew Hopt.
  apply NoDup_cons in Hnd as [Ha Hnd].
  destruct (submits_below_roster c k now subs s r p q G L Q Hact)
    as (p1 & q1 & L1 & P1 & Q1 & I1 & A1 & T1 & R1 & S1 & H1 & D1 & B1 & O1).
  { lia. }
  { exact Hnd. }
  { intros x Hx. apply Hnew. by apply list_elem_of_further. }
  { intros x Hx. apply Hopt. by apply list_elem_of_further. }
  split; [exists p1, q1; auto|].
  set (s1 := run_state (submits (String c k) (q_id q) now subs) s) in *.
  assert (E : run_state (submits (String c k) (q_id q) now (subs ++ [(a, o)])) s
              = fst (step s1 (Submit a (Some (String c k)) (q_id q) o now))).
  { unfold submits, s1. rewrite map_app. simpl. apply run_state_snoc. }
  rewrite E.
  assert (R : resolve_sender_poll a (Some (String c k)) s1 = Some (r, p1)).
  { simpl. unfold polls_get. rewrite P1, G. simpl. by rewrite L1. }
  assert (Hox : is_Some (find_option o (q_options q1))).
  { apply O1. apply Hopt. apply list_elem_of_here. }
  destruct Hox as [ox Hox].
  assert (Hna : a ∉ answeredBy q1).
  { rewrite B1. intros [H|H]; [|contradiction].
    by apply (Hnew a (list_elem_of_here _ _)). }
  simpl step.
  rewrite (student_submit_accepted s1 a _ _ o now r p1 q1 ox R Q1
             I1 A1 Hna Hox).
  cbv zeta.
  replace (JsMap.size (students p1) <=? q_totalAnswers q1 + 1) with true
    by (symmetry; apply Nat.leb_le; rewrite S1, T1; lia).
  replace (0 <? JsMap.size (students p1)) with true
    by (symmetry; apply Nat.ltb_lt; rewrite S1; lia).
  cbn [andb fst].
  erewrite endQuestion_current;
    [|eapply store_lookup_eq; exact L1 | reflexivity].
  eexists _, _. split.
  { cbn [fst heap set_timers]. eapply store_lookup_eq.
    eapply store_lookup_eq. exact L1. }
  split; [reflexivity|]. split; [simpl; by rewrite H1|].
  split; [simpl; by rewrite I1|]. split; [reflexivity|].
  split.
  { simpl. unfold jnat. do 3 f_equal. rewrite T1. lia. }
  intros t Ht. simpl. rewrite R1, Ht. apply clearTimeout_lookup.
Qed.

Lemma last_missing_answer_finishes_witness :
  exists p2 entry,
    heap (run_state (submits "abc123" "q1" 2500 [("A", "q1-o1"); ("B", "q1-o1")])
            (run_state (lesson_start ++ [ask_first]) initial)) !! 0 = Some p2
    /\ currentQuestion p2 = None
    /\ pastQuestions p2 = [entry]
    /\ jget "reason" entry = Some (JStr "all_answered")
    /\ jget "totalAnswers" entry = Some (JNum 2).
Proof.
  edestruct (last_missing_answer_finishes
               (run_state (lesson_start ++ [ask_first]) initial)
               "a" "bc123" 0) with (subs := [("A", "q1-o1")]) (a := "B")
                                   (o := "q1-o1") (now := 2500%Z)
    as (_ & p2 & entry & L & Q & Hpast & _ & Hreason & Htotal & _).
  - vm_compute. reflexivity.
  - vm_compute. reflexivity.
  - reflexivity.
  - reflexivity.
  - reflexivity.
  - apply (bool_decide_unpack _). vm_compute. exact I.
  - intros x Hx. simpl in Hx.
    apply elem_of_cons in Hx as [->|Hx];
      [|apply list_elem_of_singleton in Hx; subst x];
      apply (bool_decide_unpack _); vm_compute; exact I.
  - intros x Hx. simpl in Hx.
    apply elem_of_cons in Hx as [->|Hx];
      [|apply list_elem_of_singleton in Hx; subst x];
      vm_compute; eauto.
  - exists p2, entry. split; [exact L|]. split; [exact Q|].
    split; [exact Hpast|]. split; [exact Hreason | exact Htotal].
Defined.
